(** * The asynchronous AI-reply pipeline of the Gemini chatroom backend

    A shallow embedding of the reply pipeline: the usage ledger
    ([SubscriptionService]), the synchronous write path ([MessageService],
    [MessageController]), job submission ([QueueService], [QueueController]),
    the generation gateway ([GeminiService]) and the reply worker
    ([GeminiWorker]).

    Asynchronous TypeScript methods become computations in a small
    state-and-exception monad [Eff] over a [World] that holds the database
    tables, the queue, the traces of the external collaborators and the
    logger output.  Every [await] on the store is one [dbOp]; a fault
    schedule decides which store operations reject, and another which
    progress updates of a job do. *)

From stdpp Require Import base option strings pretty gmap list sorting.
From Stdlib Require Import ZArith NArith Ascii String Lia.

Open Scope Z_scope.

(** ** JavaScript strings

    Message text is a sequence of UTF-16 code units, so that [length] and
    [trim] mean what [String.prototype.length] and [String.prototype.trim]
    mean.  Identifiers, enum-like tags and log lines are plain strings. *)

Abbreviation jsstring := (list N).

Definition u16 (s : string) : jsstring :=
  N_of_ascii <$> list_ascii_of_string s.

(** WhiteSpace and LineTerminator code points of ECMAScript, the ones
    [trim] strips. *)
Definition isWhiteSpace (c : N) : bool :=
  ((9 <=? c) && (c <=? 13) || (c =? 32) || (c =? 160) || (c =? 5760)
   || (8192 <=? c) && (c <=? 8202) || (c =? 8232) || (c =? 8233)
   || (c =? 8239) || (c =? 8287) || (c =? 12288) || (c =? 65279))%N.

Fixpoint trimStart (s : jsstring) : jsstring :=
  match s with
  | c :: s' => if isWhiteSpace c then trimStart s' else s
  | [] => []
  end.

Definition trimEnd (s : jsstring) : jsstring := rev (trimStart (rev s)).

Definition trim (s : jsstring) : jsstring := trimEnd (trimStart s).

Definition jslength (s : jsstring) : Z := Z.of_nat (List.length s).

Fixpoint startsWith (p s : jsstring) : bool :=
  match p, s with
  | [], _ => true
  | a :: p', b :: s' => (a =? b)%N && startsWith p' s'
  | _ :: _, [] => false
  end.

Fixpoint includes (s p : jsstring) : bool :=
  startsWith p s || match s with [] => false | _ :: s' => includes s' p end.

(** The double-quote character, for messages that contain it. *)
Definition dq : string := String (ascii_of_nat 34) EmptyString.

(** [x || 'dflt'] on an optional string: [undefined] and the empty string
    are falsy. *)
Definition orDefault (x : option string) (dflt : string) : string :=
  match x with
  | Some s => if bool_decide (s = EmptyString) then dflt else s
  | None => dflt
  end.

Definition falsy (x : option string) : bool :=
  match x with
  | Some s => bool_decide (s = EmptyString)
  | None => true
  end.

(** ** Errors *)

(** Why the external generation service rejected a request. *)
Inductive UpstreamFailure :=
  | NetworkFailure | Timeout | ServerError
  | SafetyBlocked | MalformedRequest
  | RateLimited.

Inductive ErrorClass :=
  | PlainError          (* new Error(...) *)
  | TypeError           (* raised by the runtime, or inside a library *)
  | ValidationError
  | NotFoundError
  | StoreError          (* rejection raised by the Prisma client *)
  | QueueError          (* rejection raised by the queue's Redis connection *)
  | UpstreamError (cause : UpstreamFailure).  (* raised by the generation SDK *)

Record JsError := { errClass : ErrorClass; errMessage : string }.

Definition mkError (m : string) : JsError :=
  {| errClass := PlainError; errMessage := m |}.

#[global] Instance UpstreamFailure_eq_dec : EqDecision UpstreamFailure.
Proof. solve_decision. Defined.
#[global] Instance ErrorClass_eq_dec : EqDecision ErrorClass.
Proof. solve_decision. Defined.
#[global] Instance JsError_eq_dec : EqDecision JsError.
Proof. solve_decision. Defined.

(** ** Stored records (prisma/schema.prisma) *)

Record User := {
  userId : string;
  subscriptionTier : string;
  subscriptionStatus : string;
  dailyMessageCount : Z;
  lastMessageDate : option Z;
}.

Record Chatroom := {
  chatroomId : string;
  chatroomUserId : string;
  chatroomUpdatedAt : Z;
}.

Record Message := {
  messageId : string;
  messageChatroomId : string;
  content : jsstring;
  sender : string;
  messageType : string;
  createdAt : Z;
}.

(** A [DailyUsage] row is identified with its unique key
    [(userId, date)] (the schema's [@@unique([userId, date])]); the value is
    its [messageCount]. *)
Record Db := {
  users : gmap string User;
  chatrooms : gmap string Chatroom;
  messages : list Message;              (* in insertion order *)
  dailyUsage : gmap (string * Z) Z;
  nextId : nat;                         (* source of fresh cuid()s *)
}.

(** ** Jobs (services/queue.service.ts) *)

(** The untyped [context] object of a job; a field that is [None] is
    absent from the object. *)
Record JobContext := {
  ctxChatRoomId : option string;
  ctxUserId : option string;
  ctxMessageType : option string;
  ctxTimestamp : option Z;
}.

Record JobMetadata := {
  metaTimestamp : Z;
  metaClientId : option string;
  metaSessionId : option string;
}.

Record GeminiMessageJob := {
  jobMessageId : string;
  jobChatRoomId : string;
  jobUserId : string;
  jobUserMessage : jsstring;
  jobContext : option JobContext;
  jobMetadata : option JobMetadata;
}.

Record JobsOptions := {
  optPriority : Z;
  optDelay : Z;
  optAttempts : nat;
  optBackoffDelay : Z;                  (* exponential backoff, base delay *)
}.

Record QueuedJob := {
  queuedId : string;
  queuedName : string;
  queuedData : GeminiMessageJob;
  queuedOpts : JobsOptions;
  queuedTimestamp : Z;
}.

(** ** The generation service (services/gemini.service.ts) *)

Record GeminiMessage := { role : string; parts : list jsstring }.

Record GeminiContext := {
  gcChatRoomId : string;
  gcUserId : string;
  conversationHistory : list GeminiMessage;
  systemPrompt : option jsstring;
  temperature : option Z;               (* in hundredths: 0.7 is 70 *)
  maxTokens : option Z;
}.

(** What [startChat] and [sendMessage] hand to the external service. *)
Record GenRequest := {
  reqHistory : list GeminiMessage;
  reqTemperature : Z;
  reqMaxOutputTokens : Z;
  reqPrompt : jsstring;
}.

Inductive GenOutcome :=
  | GenText (text : jsstring)
  | GenRejects (cause : UpstreamFailure) (message : string).

Record GeminiUsage := { promptTokens : Z; responseTokens : Z; totalTokens : Z }.

Record GeminiResponse := {
  respContent : jsstring;
  respUsage : GeminiUsage;
  respModel : string;
  respFinishReason : string;
}.

(** ** The world *)

Inductive LogLevel := LInfo | LWarn | LError | LDebug.

(** What the program reads but never writes. *)
Record Env := {
  basicTierDailyLimit : Z;              (* AppConfig, from the environment *)
  proTierDailyLimit : Z;
  tzOffset : Z;                         (* local time minus UTC, in ms *)
  dbFaults : nat -> bool;               (* the n-th store operation rejects *)
  queueUp : bool;                       (* the queue's connection accepts jobs *)
  gemini : GenRequest -> GenOutcome;    (* the external generation service *)
  progressFaults : nat -> bool;         (* the n-th progress update rejects *)
  historyRejection : list GeminiMessage -> JsError;
                                        (* what the SDK throws for a history
                                           it refuses *)
}.

Record World := {
  env : Env;
  db : Db;
  dbOps : nat;                          (* store operations issued so far *)
  now : Z;                              (* the clock, in ms *)
  queue : option (list QueuedJob);      (* 'gemini-processing', once initialised *)
  nextJobId : nat;
  genCalls : list GenRequest;           (* requests sent to the service *)
  cacheCleared : list string;           (* patterns given to clearPattern *)
  progress : list Z;                    (* milestones given to job.updateProgress *)
  logs : list (LogLevel * string);
}.

Definition set_db (f : Db -> Db) (w : World) : World :=
  {| env := env w; db := f (db w); dbOps := dbOps w; now := now w;
     queue := queue w; nextJobId := nextJobId w; genCalls := genCalls w;
     cacheCleared := cacheCleared w; progress := progress w;
     logs := logs w |}.

Definition set_dbOps (n : nat) (w : World) : World :=
  {| env := env w; db := db w; dbOps := n; now := now w;
     queue := queue w; nextJobId := nextJobId w; genCalls := genCalls w;
     cacheCleared := cacheCleared w; progress := progress w;
     logs := logs w |}.

Definition set_queue (q : option (list QueuedJob)) (w : World) : World :=
  {| env := env w; db := db w; dbOps := dbOps w; now := now w;
     queue := q; nextJobId := nextJobId w; genCalls := genCalls w;
     cacheCleared := cacheCleared w; progress := progress w;
     logs := logs w |}.

Definition set_nextJobId (n : nat) (w : World) : World :=
  {| env := env w; db := db w; dbOps := dbOps w; now := now w;
     queue := queue w; nextJobId := n; genCalls := genCalls w;
     cacheCleared := cacheCleared w; progress := progress w;
     logs := logs w |}.

Definition set_genCalls (l : list GenRequest) (w : World) : World :=
  {| env := env w; db := db w; dbOps := dbOps w; now := now w;
     queue := queue w; nextJobId := nextJobId w; genCalls := l;
     cacheCleared := cacheCleared w; progress := progress w;
     logs := logs w |}.

Definition set_cacheCleared (l : list string) (w : World) : World :=
  {| env := env w; db := db w; dbOps := dbOps w; now := now w;
     queue := queue w; nextJobId := nextJobId w; genCalls := genCalls w;
     cacheCleared := l; progress := progress w; logs := logs w |}.

Definition set_progress (l : list Z) (w : World) : World :=
  {| env := env w; db := db w; dbOps := dbOps w; now := now w;
     queue := queue w; nextJobId := nextJobId w; genCalls := genCalls w;
     cacheCleared := cacheCleared w; progress := l; logs := logs w |}.

Definition set_now (t : Z) (w : World) : World :=
  {| env := env w; db := db w; dbOps := dbOps w; now := t;
     queue := queue w; nextJobId := nextJobId w; genCalls := genCalls w;
     cacheCleared := cacheCleared w; progress := progress w;
     logs := logs w |}.

Definition set_logs (l : list (LogLevel * string)) (w : World) : World :=
  {| env := env w; db := db w; dbOps := dbOps w; now := now w;
     queue := queue w; nextJobId := nextJobId w; genCalls := genCalls w;
     cacheCleared := cacheCleared w; progress := progress w;
     logs := l |}.

(** ** The effect monad: state and exceptions *)

Inductive Outcome (A : Type) :=
  | Ret (a : A)
  | Throw (e : JsError).
Arguments Ret {A} a.
Arguments Throw {A} e.

Definition Eff (A : Type) : Type := World -> Outcome A * World.

#[global] Instance Eff_ret : MRet Eff := fun A a w => (Ret a, w).

#[global] Instance Eff_bind : MBind Eff := fun A B k m w =>
  match m w with
  | (Ret a, w') => k a w'
  | (Throw e, w') => (Throw e, w')
  end.

Definition throw {A} (e : JsError) : Eff A := fun w => (Throw e, w).

(** [try { body } catch (error) { handler error }] *)
Definition tryCatch {A} (body : Eff A) (handler : JsError -> Eff A) : Eff A :=
  fun w =>
    match body w with
    | (Ret a, w') => (Ret a, w')
    | (Throw e, w') => handler e w'
    end.

Definition getWorld : Eff World := fun w => (Ret w, w).

Definition modifyWorld (f : World -> World) : Eff unit := fun w => (Ret tt, f w).

Definition logger (lvl : LogLevel) (msg : string) : Eff unit :=
  modifyWorld (fun w => set_logs (logs w ++ [(lvl, msg)]) w).

(** ** The store (the Prisma client)

    Each operation is one round trip: it bumps the operation counter and
    rejects when the fault schedule says the store is unavailable. *)

Module Prisma.

Definition unavailable : JsError :=
  {| errClass := StoreError; errMessage := "Can't reach database server" |}.

Definition recordNotFound : JsError :=
  {| errClass := StoreError; errMessage := "Record to update not found" |}.

Definition uniqueViolation : JsError :=
  {| errClass := StoreError; errMessage := "Unique constraint failed" |}.

Definition dbOp {A} (f : Db -> Outcome A * Db) : Eff A := fun w =>
  let w1 := set_dbOps (S (dbOps w)) w in
  if dbFaults (env w) (dbOps w) then (Throw unavailable, w1)
  else let '(r, d) := f (db w) in (r, set_db (fun _ => d) w1).

Definition cuid (n : nat) : string := String "c" (pretty n).

(** [db.user.findUnique({ where: { id } })] *)
Definition user_findUnique (id : string) : Eff (option User) :=
  dbOp (fun d => (Ret (users d !! id), d)).

(** [db.user.update({ where: { id }, data: { dailyMessageCount, lastMessageDate } })] *)
Definition user_update (id : string) (count : Z) (last : Z) : Eff unit :=
  dbOp (fun d =>
    match users d !! id with
    | Some u =>
        let u' := {| userId := userId u;
                     subscriptionTier := subscriptionTier u;
                     subscriptionStatus := subscriptionStatus u;
                     dailyMessageCount := count;
                     lastMessageDate := Some last |} in
        (Ret tt, {| users := <[id := u']> (users d); chatrooms := chatrooms d;
                    messages := messages d; dailyUsage := dailyUsage d;
                    nextId := nextId d |})
    | None => (Throw recordNotFound, d)
    end).

(** [db.chatroom.findFirst({ where: { id } })] *)
Definition chatroom_findFirst (id : string) : Eff (option Chatroom) :=
  dbOp (fun d => (Ret (chatrooms d !! id), d)).

(** [db.chatroom.findFirst({ where: { id, userId } })] *)
Definition chatroom_findFirstOwned (id owner : string) : Eff (option Chatroom) :=
  dbOp (fun d =>
    (Ret (match chatrooms d !! id with
          | Some c => if bool_decide (chatroomUserId c = owner) then Some c else None
          | None => None
          end), d)).

(** [db.chatroom.update({ where: { id }, data: { updatedAt } })] *)
Definition chatroom_update (id : string) (t : Z) : Eff unit :=
  dbOp (fun d =>
    match chatrooms d !! id with
    | Some c =>
        let c' := {| chatroomId := chatroomId c;
                     chatroomUserId := chatroomUserId c;
                     chatroomUpdatedAt := t |} in
        (Ret tt, {| users := users d; chatrooms := <[id := c']> (chatrooms d);
                    messages := messages d; dailyUsage := dailyUsage d;
                    nextId := nextId d |})
    | None => (Throw recordNotFound, d)
    end).

(** [db.message.create({ data: { chatroomId, content, sender, messageType } })];
    [id] defaults to a fresh cuid and [createdAt] to the current time. *)
Definition message_create (t : Z) (room : string) (text : jsstring)
    (author kind : string) : Eff Message :=
  dbOp (fun d =>
    let m := {| messageId := cuid (nextId d); messageChatroomId := room;
                content := text; sender := author; messageType := kind;
                createdAt := t |} in
    (Ret m, {| users := users d; chatrooms := chatrooms d;
               messages := messages d ++ [m]; dailyUsage := dailyUsage d;
               nextId := S (nextId d) |})).

Inductive SortOrder := Asc | Desc.

Definition createdAsc (a b : Message) : Prop := createdAt a <= createdAt b.
Definition createdDesc (a b : Message) : Prop := createdAt b <= createdAt a.

#[global] Instance createdAsc_dec a b : Decision (createdAsc a b).
Proof. unfold createdAsc. apply _. Defined.
#[global] Instance createdDesc_dec a b : Decision (createdDesc a b).
Proof. unfold createdDesc. apply _. Defined.

Definition orderByCreatedAt (o : SortOrder) (l : list Message) : list Message :=
  match o with
  | Asc => merge_sort createdAsc l
  | Desc => merge_sort createdDesc l
  end.

(** [db.message.findMany({ where: { chatroomId }, orderBy: { createdAt }, take })] *)
Definition message_findMany (room : string) (o : SortOrder) (take : nat)
    : Eff (list Message) :=
  dbOp (fun d =>
    (Ret (firstn take
            (orderByCreatedAt o
               (filter (fun m => messageChatroomId m = room) (messages d)))),
     d)).

(** [db.dailyUsage.findUnique({ where: { userId_date: { userId, date } } })] *)
Definition dailyUsage_findUnique (uid : string) (date : Z) : Eff (option Z) :=
  dbOp (fun d => (Ret (dailyUsage d !! (uid, date)), d)).

(** [db.dailyUsage.create({ data: { userId, date, messageCount } })] *)
Definition dailyUsage_create (uid : string) (date : Z) (count : Z) : Eff Z :=
  dbOp (fun d =>
    match dailyUsage d !! (uid, date) with
    | Some _ => (Throw uniqueViolation, d)
    | None =>
        (Ret count, {| users := users d; chatrooms := chatrooms d;
                       messages := messages d;
                       dailyUsage := <[(uid, date) := count]> (dailyUsage d);
                       nextId := nextId d |})
    end).

(** [db.dailyUsage.update({ where: { id }, data: { messageCount } })] *)
Definition dailyUsage_update (uid : string) (date : Z) (count : Z) : Eff Z :=
  dbOp (fun d =>
    match dailyUsage d !! (uid, date) with
    | Some _ =>
        (Ret count, {| users := users d; chatrooms := chatrooms d;
                       messages := messages d;
                       dailyUsage := <[(uid, date) := count]> (dailyUsage d);
                       nextId := nextId d |})
    | None => (Throw recordNotFound, d)
    end).

End Prisma.

(** ** services/cache.service.ts *)

Module CacheService.

(** [clearPattern] deletes the keys that match; the cache contents are
    not modelled, only which patterns were cleared.  It catches its own
    errors. *)
Definition clearPattern (pattern : string) : Eff unit :=
  modifyWorld (fun w => set_cacheCleared (cacheCleared w ++ [pattern]) w).

Definition invalidateMessageCache (chatroomId userId : string) : Eff unit :=
  tryCatch
    (clearPattern ("message:" +:+ chatroomId +:+ ":*");;
     clearPattern ("chatroom:" +:+ chatroomId +:+ ":messages:*");;
     logger LDebug "Invalidated cache for messages in chatroom")
    (fun error => logger LError "Failed to invalidate message cache").

End CacheService.

(** ** services/subscription.service.ts *)

Module SubscriptionService.

Record SubscriptionLimits := {
  dailyMessageLimit : Z;
  features : list string;
}.

Record CanSend := { canSend : bool; reason : option string }.

Definition getSubscriptionLimits (e : Env) (tier : string) : SubscriptionLimits :=
  if bool_decide (tier = "pro") then
    {| dailyMessageLimit := proTierDailyLimit e;
       features := ["unlimited_messages"; "priority_support"; "advanced_ai"] |}
  else
    {| dailyMessageLimit := basicTierDailyLimit e;
       features := ["basic_messages"; "standard_support"] |}.

Definition canSendMessage (uid : string) : Eff CanSend :=
  tryCatch
    (user ← Prisma.user_findUnique uid;
     match user with
     | None => mret {| canSend := false; reason := Some "User not found" |}
     | Some user =>
         if bool_decide (subscriptionStatus user ≠ "active") then
           mret {| canSend := false; reason := Some "Inactive subscription" |}
         else
           w ← getWorld;
           let limits := getSubscriptionLimits (env w) (subscriptionTier user) in
           if bool_decide (dailyMessageLimit limits ≤ dailyMessageCount user) then
             mret {| canSend := false;
                     reason := Some "Daily message limit exceeded" |}
           else
             mret {| canSend := true; reason := None |}
     end)
    (fun error =>
       logger LError "Failed to check message permission:";;
       mret {| canSend := false; reason := Some "System error" |}).

(** [today.setHours(0, 0, 0, 0)]: midnight of the local day of [t]. *)
Definition startOfDay (e : Env) (t : Z) : Z :=
  t - (t + tzOffset e) `mod` 86400000.

Definition trackMessageUsage (uid : string) : Eff unit :=
  tryCatch
    (w ← getWorld;
     let today := startOfDay (env w) (now w) in
     usage ← Prisma.dailyUsage_findUnique uid today;
     usage ← match usage with
             | None => Prisma.dailyUsage_create uid today 1
             | Some count => Prisma.dailyUsage_update uid today (count + 1)
             end;
     w ← getWorld;
     Prisma.user_update uid usage (now w);;
     logger LDebug "Message usage tracked for user")
    (fun error =>
       logger LError "Failed to track message usage:";;
       throw error).

End SubscriptionService.

(** ** services/message.service.ts *)

Module MessageService.

Record CreateMessageData := {
  dataContent : jsstring;
  dataSender : string;
  dataMessageType : option string;
}.

Definition validationError (m : string) : JsError :=
  {| errClass := ValidationError; errMessage := m |}.

Definition notFoundError (m : string) : JsError :=
  {| errClass := NotFoundError; errMessage := m |}.

Definition createMessage (room uid : string) (data : CreateMessageData)
    : Eff Message :=
  tryCatch
    (if bool_decide (dataContent data = [])
        || bool_decide (jslength (trim (dataContent data)) = 0) then
       throw (validationError "Message content is required")
     else if bool_decide (4000 < jslength (dataContent data)) then
       throw (validationError "Message content cannot exceed 4000 characters")
     else if negb (bool_decide (dataSender data ∈ ["user"; "ai"])) then
       throw (validationError
                ("Invalid sender type. Must be " +:+ dq +:+ "user" +:+ dq
                 +:+ " or " +:+ dq +:+ "ai" +:+ dq))
     else
       chatroom ← Prisma.chatroom_findFirstOwned room uid;
       match chatroom with
       | None => throw (notFoundError "Chatroom not found")
       | Some _ =>
           (if bool_decide (dataSender data = "user") then
              r ← SubscriptionService.canSendMessage uid;
              if SubscriptionService.canSend r then mret tt
              else throw (validationError
                            ("Cannot send message: " +:+
                             default "undefined" (SubscriptionService.reason r)))
            else mret tt);;
           w ← getWorld;
           message ← Prisma.message_create (now w) room
                       (trim (dataContent data)) (dataSender data)
                       (orDefault (dataMessageType data) "text");
           w ← getWorld;
           Prisma.chatroom_update room (now w);;
           (if bool_decide (dataSender data = "user") then
              SubscriptionService.trackMessageUsage uid
            else mret tt);;
           CacheService.invalidateMessageCache room uid;;
           logger LInfo "Message created";;
           mret message
       end)
    (fun error =>
       logger LError "Create message failed:";;
       throw error).

(** The history query of the read path: newest first, then reversed. *)
Definition getMessageHistory (room uid : string) (limit : Z)
    : Eff (list Message) :=
  tryCatch
    (chatroom ← Prisma.chatroom_findFirstOwned room uid;
     match chatroom with
     | None => throw (notFoundError "Chatroom not found")
     | Some _ =>
         let limit := if bool_decide (limit < 1) then 10 else limit in
         let limit := if bool_decide (50 < limit) then 50 else limit in
         messages ← Prisma.message_findMany room Prisma.Desc (Z.to_nat limit);
         let orderedMessages := rev messages in
         logger LDebug "Retrieved history messages for chatroom";;
         mret orderedMessages
     end)
    (fun error =>
       logger LError "Get message history failed:";;
       throw error).

End MessageService.

(** ** config/queue.config.ts *)

Module QueueConfig.

Definition GEMINI_PROCESSING : string := "gemini-processing".
Definition PROCESS_GEMINI_MESSAGE : string := "process-gemini-message".

Definition HIGH : Z := 1.
Definition MEDIUM : Z := 5.
Definition LOW : Z := 10.

(** [defaultJobOptions] of [getDefaultQueueOptions]: three attempts,
    exponential backoff starting at two seconds.  Priority and delay are
    set per job by the enqueueing method. *)
Definition getDefaultQueueOptions : JobsOptions :=
  {| optPriority := 0; optDelay := 0; optAttempts := 3%nat;
     optBackoffDelay := 2000 |}.

End QueueConfig.

(** ** services/queue.service.ts *)

Module QueueService.

(** The caller's [options?: JobsOptions]; [None] is an absent field. *)
Record Overrides := {
  ovPriority : option Z;
  ovDelay : option Z;
  ovAttempts : option nat;
}.

Definition noOverrides : Overrides :=
  {| ovPriority := None; ovDelay := None; ovAttempts := None |}.

(** [queue.add(name, data, opts)]: the queue's default job options apply
    where [opts] is silent. *)
Definition queue_add (name : string) (data : GeminiMessageJob)
    (opts : JobsOptions) : Eff QueuedJob := fun w =>
  match queue w with
  | Some q =>
      if queueUp (env w) then
        let job := {| queuedId := pretty (nextJobId w); queuedName := name;
                      queuedData := data; queuedOpts := opts;
                      queuedTimestamp := now w |} in
        (Ret job, set_nextJobId (S (nextJobId w)) (set_queue (Some (q ++ [job])) w))
      else
        (Throw {| errClass := QueueError; errMessage := "Connection is closed." |}, w)
  | None => (Throw (mkError "Gemini processing queue not found"), w)
  end.

Definition enqueueGeminiMessage (data : GeminiMessageJob) (options : Overrides)
    : Eff QueuedJob :=
  w ← getWorld;
  match queue w with
  | None => throw (mkError "Gemini processing queue not found")
  | Some _ =>
      let jobOptions :=
        {| optPriority := default QueueConfig.HIGH (ovPriority options);
           optDelay := default 0 (ovDelay options);
           optAttempts :=
             default (optAttempts QueueConfig.getDefaultQueueOptions)
                     (ovAttempts options);
           optBackoffDelay :=
             optBackoffDelay QueueConfig.getDefaultQueueOptions |} in
      job ← queue_add QueueConfig.PROCESS_GEMINI_MESSAGE data jobOptions;
      logger LInfo "Enqueued Gemini message job";;
      mret job
  end.

End QueueService.

(** ** The message controller's [sendMessage] and the queue controller's
       [enqueueTestMessage] *)

Record Request := {
  reqUser : option string;              (* req.user?.id *)
  paramChatroomId : option string;      (* req.params.chatroomId *)
  bodyContent : jsstring;
  bodyMessageType : option string;
  bodyProcessWithGemini : bool;
  headerClientId : option string;
  headerSessionId : option string;
}.

Record Response := {
  resCode : Z;
  resStatus : string;
  resMessage : string;
  resData : option Message;             (* data.message *)
  resGeminiJob : option string;         (* data.geminiJob.id *)
  resWarning : option string;           (* data.warning *)
}.

Module MessageController.

Definition errorResponse (code : Z) (m : string) : Response :=
  {| resCode := code; resStatus := "error"; resMessage := m;
     resData := None; resGeminiJob := None; resWarning := None |}.

Definition sendMessage (req : Request) : Eff Response :=
  match reqUser req with
  | None => mret (errorResponse 401 "Authentication required")
  | Some uid =>
      if falsy (paramChatroomId req) then
        mret (errorResponse 400 "Chatroom ID is required")
      else
        let room := default EmptyString (paramChatroomId req) in
        message ← MessageService.createMessage room uid
          {| MessageService.dataContent := bodyContent req;
             MessageService.dataSender := "user";
             MessageService.dataMessageType :=
               Some (orDefault (bodyMessageType req) "text") |};
        if bodyProcessWithGemini req then
          tryCatch
            (w ← getWorld;
             geminiJob ← QueueService.enqueueGeminiMessage
               {| jobMessageId := messageId message;
                  jobChatRoomId := room;
                  jobUserId := uid;
                  jobUserMessage := bodyContent req;
                  jobContext :=
                    Some {| ctxChatRoomId := None; ctxUserId := None;
                            ctxMessageType :=
                              Some (orDefault (bodyMessageType req) "text");
                            ctxTimestamp := Some (now w) |};
                  jobMetadata :=
                    Some {| metaTimestamp := now w;
                            metaClientId := headerClientId req;
                            metaSessionId := headerSessionId req |} |}
               QueueService.noOverrides;
             logger LInfo "Message sent and queued for Gemini processing";;
             mret {| resCode := 201; resStatus := "success";
                     resMessage :=
                       "Message sent successfully and queued for AI processing";
                     resData := Some message;
                     resGeminiJob := Some (queuedId geminiJob);
                     resWarning := None |})
            (fun queueError =>
               logger LError "Failed to queue message for Gemini processing:";;
               mret {| resCode := 201; resStatus := "success";
                       resMessage :=
                         "Message sent successfully, but AI processing failed to queue";
                       resData := Some message;
                       resGeminiJob := None;
                       resWarning := Some "AI processing unavailable" |})
        else
          logger LInfo "Message sent successfully";;
          mret {| resCode := 201; resStatus := "success";
                  resMessage := "Message sent successfully";
                  resData := Some message;
                  resGeminiJob := None; resWarning := None |}
  end.

End MessageController.

Record TestRequest := {
  treqUser : option string;             (* req.user?.id *)
  tbodyChatRoomId : option string;
  tbodyUserMessage : jsstring;          (* empty when absent *)
  tbodyContext : option JobContext;
}.

Record TestResponse := {
  tresCode : Z;
  tresSuccess : bool;
  tresText : string;                    (* message or error *)
  tresJobId : option string;
}.

Module QueueController.

Definition enqueueTestMessage (req : TestRequest) : Eff TestResponse :=
  tryCatch
    (match treqUser req with
     | None =>
         mret {| tresCode := 401; tresSuccess := false;
                 tresText := "Authentication required"; tresJobId := None |}
     | Some uid =>
         if falsy (tbodyChatRoomId req)
            || bool_decide (tbodyUserMessage req = []) then
           mret {| tresCode := 400; tresSuccess := false;
                   tresText := "chatRoomId and userMessage are required";
                   tresJobId := None |}
         else
           w ← getWorld;
           job ← QueueService.enqueueGeminiMessage
             {| jobMessageId := "test-" +:+ pretty (now w);
                jobChatRoomId := default EmptyString (tbodyChatRoomId req);
                jobUserId := uid;
                jobUserMessage := tbodyUserMessage req;
                jobContext := tbodyContext req;
                jobMetadata :=
                  Some {| metaTimestamp := now w;
                          metaClientId := Some "test-client";
                          metaSessionId := None |} |}
             QueueService.noOverrides;
           mret {| tresCode := 200; tresSuccess := true;
                   tresText := "Test message enqueued successfully";
                   tresJobId := Some (queuedId job) |}
     end)
    (fun error =>
       logger LError "Failed to enqueue test message:";;
       mret {| tresCode := 500; tresSuccess := false;
               tresText := "Failed to enqueue test message";
               tresJobId := None |}).

End QueueController.

(** ** services/gemini.service.ts *)

Module GeminiService.

Definition formatHistoryForGemini (history : list GeminiMessage)
    : list GeminiMessage :=
  (fun message => {| role := role message; parts := parts message |}) <$> history.

Definition basePrompt : string :=
"You are a helpful AI assistant in a chatroom. 
    
Guidelines:
- Be conversational and engaging
- Provide accurate and helpful information
- If you're not sure about something, say so
- Keep responses concise but informative
- Use markdown formatting when appropriate
- Be respectful and professional

Context: This is a chatroom conversation.".

Definition nl : string := String (ascii_of_nat 10) EmptyString.

Definition generateSystemPrompt (chatRoomId : option string) : jsstring :=
  if falsy chatRoomId then u16 basePrompt
  else u16 (basePrompt +:+ nl +:+ nl +:+ "Chatroom ID: "
            +:+ default EmptyString chatRoomId).

(** [n || dflt] on an optional number: [undefined] and [0] are falsy. *)
Definition numOr (n : option Z) (dflt : Z) : Z :=
  match n with
  | Some v => if bool_decide (v = 0) then dflt else v
  | None => dflt
  end.

(** A chat session of the SDK: the history and the generation config it
    was started with. *)
Record ChatSession := {
  chatHistory : list GeminiMessage;
  chatTemperature : Z;
  chatMaxOutputTokens : Z;
}.

(** [model.startChat({ history, generationConfig })].  The SDK validates
    the history before it builds the session, and sends nothing.  It wants
    every part to be an object ([{ text }]) and tests it with [key in part].
    The histories of this program carry their parts as bare strings
    ([parts: string[]], built by the worker as [parts: [message.content]]
    and passed on unchanged by [formatHistoryForGemini]); on a string that
    test throws a TypeError.  An entry without parts, and a first entry
    whose role is not "user", are refused as well.  So only the empty
    history starts a session; for any other, [startChat] throws before any
    request is made. *)
Definition startChat (history : list GeminiMessage)
    (temperature maxOutputTokens : Z) : Eff ChatSession := fun w =>
  match history with
  | [] =>
      (Ret {| chatHistory := history; chatTemperature := temperature;
              chatMaxOutputTokens := maxOutputTokens |}, w)
  | _ :: _ => (Throw (historyRejection (env w) history), w)
  end.

(** [chat.sendMessage(prompt)]: one request to the external service, which
    answers with text or rejects. *)
Definition chat_sendMessage (chat : ChatSession) (prompt : jsstring)
    : Eff jsstring := fun w =>
  let r := {| reqHistory := chatHistory chat;
              reqTemperature := chatTemperature chat;
              reqMaxOutputTokens := chatMaxOutputTokens chat;
              reqPrompt := prompt |} in
  let w' := set_genCalls (genCalls w ++ [r]) w in
  match gemini (env w) r with
  | GenText text => (Ret text, w')
  | GenRejects cause message =>
      (Throw {| errClass := UpstreamError cause; errMessage := message |}, w')
  end.

Definition generateResponse (userMessage : jsstring) (context : GeminiContext)
    : Eff GeminiResponse :=
  tryCatch
    (logger LInfo "Generating Gemini response for chatroom";;
     chat ← startChat (formatHistoryForGemini (conversationHistory context))
              (numOr (temperature context) 70)
              (numOr (maxTokens context) 2048);
     let prompt :=
       match systemPrompt context with
       | Some sp =>
           if bool_decide (sp = []) then userMessage
           else sp ++ u16 (nl +:+ nl +:+ "User: ") ++ userMessage
       | None => userMessage
       end in
     text ← chat_sendMessage chat prompt;
     let geminiResponse :=
       {| respContent := text;
          respUsage := {| promptTokens := 0; responseTokens := 0;
                          totalTokens := 0 |};
          respModel := "gemini-1.5-flash";
          respFinishReason := "STOP" |} in
     logger LInfo "Gemini response generated successfully";;
     mret geminiResponse)
    (fun error =>
       logger LError "Gemini API call failed:";;
       throw (mkError ("Failed to generate Gemini response: "
                       +:+ errMessage error))).

End GeminiService.

(** ** workers/gemini.worker.ts *)

(** The processed response the worker builds from the service's answer. *)
Record ProcessedResponse := {
  prContent : jsstring;
  prUsage : GeminiUsage;
  prWordCount : Z;
  prCharacterCount : Z;
  prContext : option JobContext;
  hasCodeBlocks : bool;
  hasLinks : bool;
  hasList : bool;
}.

(** What [saveGeminiResponse] returns: the stored row, or the stand-in
    object of its catch branch. *)
Record SavedMessage := {
  savedId : string;
  savedContent : jsstring;
  savedSender : string;
  savedMessageType : string;
}.

Record JobResult := {
  resultMessageId : string;
  resultChatRoomId : string;
  resultUserId : string;
  resultGeminiResponse : ProcessedResponse;
  savedMessageId : string;
  processedAt : Z;
}.

(** The job as the queue hands it to the processor: its data and its
    [updateProgress] method. *)
Record JobHandle := {
  handleData : GeminiMessageJob;
  handleUpdateProgress : Z -> Eff unit;
}.

Module GeminiWorker.

Definition concurrency : nat := 10.

Definition connectionClosed : JsError :=
  {| errClass := QueueError; errMessage := "Connection is closed." |}.

(** [job.updateProgress(p)] on a job taken from the queue: an awaited
    round trip to Redis.  The call is recorded, and it rejects when the
    fault schedule says that this update does. *)
Definition updateProgress (p : Z) : Eff unit := fun w =>
  let w' := set_progress (progress w ++ [p]) w in
  if progressFaults (env w) (List.length (progress w))
  then (Throw connectionClosed, w')
  else (Ret tt, w').

(** A progress update that resolves. *)
Definition progressRecorded (p : Z) : Eff unit :=
  modifyWorld (fun w => set_progress (progress w ++ [p]) w).

(** The handle of a job taken from the queue. *)
Definition taken (data : GeminiMessageJob) : JobHandle :=
  {| handleData := data; handleUpdateProgress := updateProgress |}.

(** The handle of a job all of whose progress updates resolve. *)
Definition settled (data : GeminiMessageJob) : JobHandle :=
  {| handleData := data; handleUpdateProgress := progressRecorded |}.

Definition toGeminiMessage (message : Message) : GeminiMessage :=
  {| role := if bool_decide (sender message = "user") then "user" else "model";
     parts := [content message] |}.

Definition getConversationHistory (chatRoomId : option string)
    : Eff (list GeminiMessage) :=
  if falsy chatRoomId then mret []
  else
    tryCatch
      (messages ← Prisma.message_findMany (default EmptyString chatRoomId)
                    Prisma.Asc 10;
       mret (toGeminiMessage <$> messages))
      (fun error =>
         logger LError "Failed to get conversation history:";;
         mret []).

Definition callGeminiAPI (userMessage : jsstring) (context : option JobContext)
    : Eff GeminiResponse :=
  tryCatch
    (conversationHistory ← getConversationHistory (context ≫= ctxChatRoomId);
     let geminiContext :=
       {| gcChatRoomId := orDefault (context ≫= ctxChatRoomId) "unknown";
          gcUserId := orDefault (context ≫= ctxUserId) "unknown";
          conversationHistory := conversationHistory;
          systemPrompt :=
            Some (GeminiService.generateSystemPrompt (context ≫= ctxChatRoomId));
          temperature := Some 70;
          maxTokens := Some 2048 |} in
     GeminiService.generateResponse userMessage geminiContext)
    (fun error =>
       logger LError "Gemini API call failed:";;
       throw (mkError "Failed to call Gemini API")).

(** [s.split(' ').length]: one more than the number of spaces. *)
Definition wordCount (s : jsstring) : Z :=
  Z.of_nat (S (List.length (filter (fun c => c = 32%N) s))).

Definition processGeminiResponse (response : GeminiResponse)
    (context : option JobContext) : Eff ProcessedResponse :=
  tryCatch
    (mret {| prContent := respContent response;
             prUsage := respUsage response;
             prWordCount := wordCount (respContent response);
             prCharacterCount := jslength (respContent response);
             prContext := context;
             hasCodeBlocks := includes (respContent response) (u16 "```");
             hasLinks := includes (respContent response) (u16 "http");
             hasList := includes (respContent response) (u16 "- ")
                        || includes (respContent response) (u16 "* ") |})
    (fun error =>
       logger LError "Failed to process Gemini response:";;
       throw (mkError "Failed to process Gemini response")).

Definition failedSave : SavedMessage :=
  {| savedId := "failed-save";
     savedContent := u16 "Failed to save AI response";
     savedSender := "ai";
     savedMessageType := "text" |}.

Definition saveGeminiResponse (originalMessageId chatRoomId uid : string)
    (geminiResponse : ProcessedResponse) : Eff SavedMessage :=
  tryCatch
    (chatroom ← Prisma.chatroom_findFirst chatRoomId;
     match chatroom with
     | None => throw (mkError "Chatroom not found for AI response")
     | Some _ =>
         w ← getWorld;
         savedMessage ← Prisma.message_create (now w) chatRoomId
                          (prContent geminiResponse) "ai" "text";
         w ← getWorld;
         Prisma.chatroom_update chatRoomId (now w);;
         CacheService.invalidateMessageCache chatRoomId uid;;
         logger LInfo "Gemini response saved as message";;
         mret {| savedId := messageId savedMessage;
                 savedContent := content savedMessage;
                 savedSender := sender savedMessage;
                 savedMessageType := messageType savedMessage |}
     end)
    (fun error =>
       logger LError "Failed to save Gemini response:";;
       mret failedSave).

Definition processGeminiJobOn (job : JobHandle) : Eff JobResult :=
  let data := handleData job in
  logger LInfo "Processing Gemini job";;
  tryCatch
    (handleUpdateProgress job 10;;
     geminiResponse ← callGeminiAPI (jobUserMessage data) (jobContext data);
     handleUpdateProgress job 60;;
     processedResponse ← processGeminiResponse geminiResponse (jobContext data);
     handleUpdateProgress job 80;;
     savedMessage ← saveGeminiResponse (jobMessageId data) (jobChatRoomId data)
                      (jobUserId data) processedResponse;
     handleUpdateProgress job 100;;
     w ← getWorld;
     let result :=
       {| resultMessageId := jobMessageId data;
          resultChatRoomId := jobChatRoomId data;
          resultUserId := jobUserId data;
          resultGeminiResponse := processedResponse;
          savedMessageId := savedId savedMessage;
          processedAt := now w |} in
     logger LInfo "Gemini job completed successfully";;
     mret result)
    (fun error =>
       logger LError "Gemini job failed:";;
       throw error).

(** One attempt on a job whose progress updates resolve. *)
Definition processGeminiJob (data : GeminiMessageJob) : Eff JobResult :=
  processGeminiJobOn (settled data).

End GeminiWorker.

(** ** The queue's delivery of a job to the worker

    The queue hands the job it has taken to the processor.  A returned value
    completes the job; a thrown error fails the attempt, and the job is
    tried again after the backoff delay while attempts remain.  The worker
    never marks an error as unrecoverable, so the queue has one retry
    policy for every error. *)

Inductive JobState :=
  | Completed (result : JobResult)
  | Failed (failedReason : JsError).

Record Delivery := { finalState : JobState; attemptsMade : nat }.

(** Exponential backoff: [delay * 2 ^ (attemptsMade - 1)]. *)
Definition backoff (opts : JobsOptions) (made : nat) : Z :=
  optBackoffDelay opts * 2 ^ (Z.of_nat made - 1).

Fixpoint runAttempts (opts : JobsOptions) (retriesLeft made : nat)
    (data : GeminiMessageJob) (w : World) : Delivery * World :=
  match GeminiWorker.processGeminiJobOn (GeminiWorker.taken data) w with
  | (Ret r, w') => ({| finalState := Completed r; attemptsMade := S made |}, w')
  | (Throw e, w') =>
      match retriesLeft with
      | O => ({| finalState := Failed e; attemptsMade := S made |}, w')
      | S k =>
          runAttempts opts k (S made) data
            (set_now (now w' + backoff opts (S made)) w')
      end
  end.

(** A job with [attempts: n] is tried at most [n] times, and at least once. *)
Definition deliver (job : QueuedJob) (w : World) : Delivery * World :=
  runAttempts (queuedOpts job) (Nat.pred (optAttempts (queuedOpts job))) 0
    (queuedData job) w.

(** ** Overlapping calls of [trackMessageUsage]

    An asynchronous call gives up control at each [await].  [step] runs
    one call from one [await] to the next; [run] interleaves a pool of
    calls for the same user according to a schedule. *)

Module Interleaving.

Inductive Caller :=
  | AtStart
  | AfterFind (today : Z) (usage : option Z)   (* findUnique has resolved *)
  | AfterWrite (count : Z)                     (* create or update has resolved *)
  | Returned
  | Rejected (e : JsError).

(** The catch block: log, then rethrow. *)
Definition caught (e : JsError) (w : World) : Caller * World :=
  (Rejected e,
   set_logs (logs w ++ [(LError, "Failed to track message usage:")]) w).

Definition step (uid : string) (c : Caller) (w : World) : Caller * World :=
  match c with
  | AtStart =>
      let today := SubscriptionService.startOfDay (env w) (now w) in
      match Prisma.dailyUsage_findUnique uid today w with
      | (Ret usage, w') => (AfterFind today usage, w')
      | (Throw e, w') => caught e w'
      end
  | AfterFind today usage =>
      match match usage with
            | None => Prisma.dailyUsage_create uid today 1
            | Some count => Prisma.dailyUsage_update uid today (count + 1)
            end w with
      | (Ret count, w') => (AfterWrite count, w')
      | (Throw e, w') => caught e w'
      end
  | AfterWrite count =>
      match (Prisma.user_update uid count (now w);;
             logger LDebug "Message usage tracked for user") w with
      | (Ret _, w') => (Returned, w')
      | (Throw e, w') => caught e w'
      end
  | Returned => (Returned, w)
  | Rejected e => (Rejected e, w)
  end.

(** [schedule] names, step by step, which caller of the pool resumes. *)
Fixpoint run (uid : string) (schedule : list nat) (pool : list Caller)
    (w : World) : list Caller * World :=
  match schedule with
  | [] => (pool, w)
  | i :: rest =>
      match pool !! i with
      | Some c =>
          let '(c', w') := step uid c w in
          run uid rest (<[i := c']> pool) w'
      | None => run uid rest pool w
      end
  end.

(** One call run to completion without interruption. *)
Definition runAlone (uid : string) (w : World) : Caller * World :=
  let '(c1, w1) := step uid AtStart w in
  let '(c2, w2) := step uid c1 w1 in
  step uid c2 w2.

End Interleaving.

(** [n] calls of [trackMessageUsage], each awaited before the next starts. *)
Fixpoint trackSequentially (n : nat) (uid : string) : Eff unit :=
  match n with
  | O => mret tt
  | S k => SubscriptionService.trackMessageUsage uid;; trackSequentially k uid
  end.

(** Today's usage count of a user, [0] when there is no row yet. *)
Definition usageToday (uid : string) (w : World) : Z :=
  default 0 (dailyUsage (db w)
               !! (uid, SubscriptionService.startOfDay (env w) (now w))).

(** Modelled from the spec: the failure classes of the generation gateway
    (section 4.3), which the source does not declare.  Network, timeout and
    5xx-equivalent failures are transient; content-safety rejections and
    malformed requests are permanent; rate and quota signals are quota
    failures. *)
Inductive FailureClass := Transient | PermanentlyRejected | QuotaExceeded.

Definition classify (c : UpstreamFailure) : FailureClass :=
  match c with
  | NetworkFailure | Timeout | ServerError => Transient
  | SafetyBlocked | MalformedRequest => PermanentlyRejected
  | RateLimited => QuotaExceeded
  end.

(** ** Observations on worlds *)

(** The stored messages of a chatroom that the AI sent. *)
Definition aiMessages (room : string) (w : World) : list Message :=
  filter (fun m => messageChatroomId m = room ∧ sender m = "ai") (messages (db w)).

(** The request that [callGeminiAPI] sends for a user message, a job
    context and the history it read. *)
Definition requestFor (userMessage : jsstring) (context : option JobContext)
    (history : list GeminiMessage) : GenRequest :=
  {| reqHistory := GeminiService.formatHistoryForGemini history;
     reqTemperature := 70;
     reqMaxOutputTokens := 2048;
     reqPrompt :=
       GeminiService.generateSystemPrompt (context ≫= ctxChatRoomId)
       ++ u16 (GeminiService.nl +:+ GeminiService.nl +:+ "User: ")
       ++ userMessage |}.

(** The response [generateResponse] builds around the service's text. *)
Definition responseOf (text : jsstring) : GeminiResponse :=
  {| respContent := text;
     respUsage := {| promptTokens := 0; responseTokens := 0; totalTokens := 0 |};
     respModel := "gemini-1.5-flash";
     respFinishReason := "STOP" |}.

(** The store never rejects. *)
Definition storeUp (w : World) : Prop := ∀ n, dbFaults (env w) n = false.

(** A user who exists, whose subscription is active and whose daily count
    has reached the limit of the tier. *)
Definition atDailyLimit (uid : string) (w : World) : Prop :=
  ∃ u, users (db w) !! uid = Some u
       ∧ subscriptionStatus u = "active"
       ∧ SubscriptionService.dailyMessageLimit
           (SubscriptionService.getSubscriptionLimits (env w) (subscriptionTier u))
         ≤ dailyMessageCount u.

(** The callers of a pool whose write to the usage row has resolved. *)
Definition hasWritten (c : Interleaving.Caller) : nat :=
  match c with
  | Interleaving.AfterWrite _ | Interleaving.Returned => 1
  | _ => 0
  end.

Fixpoint written (pool : list Interleaving.Caller) : nat :=
  match pool with
  | [] => 0
  | c :: rest => hasWritten c + written rest
  end.

(** What a suspended caller holds, [c0] being the day's count before any
    call started and [W] the number of writes so far: a count it has read
    lies between [c0] and [c0 + W], and the row it read is still there. *)
Definition callerOk (uid : string) (c0 : Z) (e : Env) (t : Z) (W : nat)
    (usage : gmap (string * Z) Z) (c : Interleaving.Caller) : Prop :=
  match c with
  | Interleaving.AfterFind today (Some v) =>
      today = SubscriptionService.startOfDay e t
      ∧ c0 ≤ v ≤ c0 + Z.of_nat W
      ∧ is_Some (usage !! (uid, today))
  | Interleaving.AfterFind today None =>
      today = SubscriptionService.startOfDay e t ∧ c0 = 0
  | _ => True
  end.

(** What holds of a pool of overlapping calls at every point of every
    schedule: the count in the store lies between [c0] and [c0] plus the
    number of writes so far. *)
Definition poolInvariant (uid : string) (c0 : Z) (e : Env) (t : Z)
    (pool : list Interleaving.Caller) (w : World) : Prop :=
  env w = e ∧ now w = t ∧ is_Some (users (db w) !! uid)
  ∧ (dailyUsage (db w) !! (uid, SubscriptionService.startOfDay e t) = None →
     c0 = 0 ∧ written pool = 0%nat)
  ∧ c0 ≤ usageToday uid w ≤ c0 + Z.of_nat (written pool)
  ∧ ((0 < written pool)%nat → c0 + 1 ≤ usageToday uid w)
  ∧ Forall (callerOk uid c0 e t (written pool) (dailyUsage (db w))) pool.

(** ** Frames

    [keeps Rd Rg w w']: from [w] to [w'] the environment, the clock and the
    queue are untouched, the store changed within [Rd] and the trace of
    generation requests within [Rg].  [Frame R m]: running [m] relates the
    world before to the world after by [R], whether [m] returns or throws. *)

Definition keeps (Rd : relation Db) (Rg : relation (list GenRequest))
    (w w' : World) : Prop :=
  env w' = env w ∧ now w' = now w ∧ queue w' = queue w
  ∧ nextJobId w' = nextJobId w ∧ Rd (db w) (db w')
  ∧ Rg (genCalls w) (genCalls w').

Definition sameMessages (d d' : Db) : Prop := messages d' = messages d.

Definition anyDb (d d' : Db) : Prop := True.

(** Exactly the request [rq] was sent. *)
Definition sent (rq : GenRequest) (g g' : list GenRequest) : Prop :=
  g' = g ++ [rq].

Definition Frame {A} (R : relation World) (m : Eff A) : Prop :=
  ∀ w, R w (m w).2.

(** ** Sample worlds *)

Module Sample.

Definition answer : jsstring := u16 "Hi there".

(** The error of the SDK's history validation, as the samples have it. *)
Definition refusal : JsError :=
  {| errClass := TypeError;
     errMessage := "Cannot use 'in' operator to search for 'text' in message 1" |}.

Definition envUp : Env :=
  {| basicTierDailyLimit := 5; proTierDailyLimit := 1000; tzOffset := 0;
     dbFaults := fun _ => false; queueUp := true;
     gemini := fun _ => GenText answer;
     progressFaults := fun _ => false;
     historyRejection := fun _ => refusal |}.

(** The store rejects every operation. *)
Definition envDown : Env :=
  {| basicTierDailyLimit := 5; proTierDailyLimit := 1000; tzOffset := 0;
     dbFaults := fun _ => true; queueUp := true;
     gemini := fun _ => GenText answer;
     progressFaults := fun _ => false;
     historyRejection := fun _ => refusal |}.

(** The store rejects the first operation only. *)
Definition envFirstFault : Env :=
  {| basicTierDailyLimit := 5; proTierDailyLimit := 1000; tzOffset := 0;
     dbFaults := fun n => bool_decide (n = 0%nat); queueUp := true;
     gemini := fun _ => GenText answer;
     progressFaults := fun _ => false;
     historyRejection := fun _ => refusal |}.


(** The fourth progress update rejects: the last one of a first attempt. *)
Definition envLastUpdateFails : Env :=
  {| basicTierDailyLimit := 5; proTierDailyLimit := 1000; tzOffset := 0;
     dbFaults := fun _ => false; queueUp := true;
     gemini := fun _ => GenText answer;
     progressFaults := fun n => bool_decide (n = 3%nat);
     historyRejection := fun _ => refusal |}.

(** The service rejects every request with the given cause. *)
Definition envRejecting (cause : UpstreamFailure) : Env :=
  {| basicTierDailyLimit := 5; proTierDailyLimit := 1000; tzOffset := 0;
     dbFaults := fun _ => false; queueUp := true;
     gemini := fun _ => GenRejects cause "request rejected";
     progressFaults := fun _ => false;
     historyRejection := fun _ => refusal |}.

Definition user (count : Z) (status : string) : User :=
  {| userId := "u1"; subscriptionTier := "basic";
     subscriptionStatus := status; dailyMessageCount := count;
     lastMessageDate := None |}.

Definition room : Chatroom :=
  {| chatroomId := "r1"; chatroomUserId := "u1"; chatroomUpdatedAt := 0 |}.

(** The [i]-th message of room r1, written at time [i]; odd ones are the
    user's, even ones the AI's. *)
Definition msg (i : nat) : Message :=
  {| messageId := Prisma.cuid i; messageChatroomId := "r1";
     content := u16 ("message " +:+ pretty i);
     sender := if Nat.odd i then "user" else "ai";
     messageType := "text"; createdAt := Z.of_nat i |}.

Definition twelve : list Message := msg <$> seq 1 12.

Definition dbWith (u : User) (ms : list Message) (usage : gmap (string * Z) Z)
    : Db :=
  {| users := {[ "u1" := u ]}; chatrooms := {[ "r1" := room ]};
     messages := ms; dailyUsage := usage;
     nextId := S (List.length ms) |}.

Definition world (e : Env) (d : Db) : World :=
  {| env := e; db := d; dbOps := 0; now := 1000; queue := Some [];
     nextJobId := 1; genCalls := []; cacheCleared := []; progress := [];
     logs := [] |}.

Definition fresh : Db := dbWith (user 0 "active") [] ∅.

(** A user who has used up the basic tier's five messages. *)
Definition atLimit : Db := dbWith (user 5 "active") [] {[ ("u1", 0) := 5 ]}.

Definition lapsedAtLimit : Db :=
  dbWith (user 5 "canceled") [] {[ ("u1", 0) := 5 ]}.

Definition busyRoom : Db := dbWith (user 0 "active") twelve ∅.

Definition hello : Request :=
  {| reqUser := Some "u1"; paramChatroomId := Some "r1";
     bodyContent := u16 "  hello "; bodyMessageType := None;
     bodyProcessWithGemini := true; headerClientId := None;
     headerSessionId := None |}.

(** A job as the test endpoint enqueues it, with the chatroom named in
    its context. *)
Definition job : GeminiMessageJob :=
  {| jobMessageId := "test-1000"; jobChatRoomId := "r1"; jobUserId := "u1";
     jobUserMessage := u16 "hello";
     jobContext := Some {| ctxChatRoomId := Some "r1"; ctxUserId := Some "u1";
                           ctxMessageType := None; ctxTimestamp := None |};
     jobMetadata := None |}.

(** A job as [sendMessage] enqueues it: its context names no chatroom. *)
Definition sentJob : GeminiMessageJob :=
  {| jobMessageId := "c1"; jobChatRoomId := "r1"; jobUserId := "u1";
     jobUserMessage := u16 "hello";
     jobContext := Some {| ctxChatRoomId := None; ctxUserId := None;
                           ctxMessageType := Some "text";
                           ctxTimestamp := Some 1000 |};
     jobMetadata := None |}.

Definition queued (data : GeminiMessageJob) : QueuedJob :=
  {| queuedId := "1"; queuedName := QueueConfig.PROCESS_GEMINI_MESSAGE;
     queuedData := data;
     queuedOpts :=
       {| optPriority := QueueConfig.HIGH; optDelay := 0;
          optAttempts := optAttempts QueueConfig.getDefaultQueueOptions;
          optBackoffDelay :=
            optBackoffDelay QueueConfig.getDefaultQueueOptions |};
     queuedTimestamp := 1000 |}.

Definition testRequest : TestRequest :=
  {| treqUser := Some "u1"; tbodyChatRoomId := Some "r1";
     tbodyUserMessage := u16 "hello";
     tbodyContext := jobContext job |}.

Definition userData (text : jsstring) : MessageService.CreateMessageData :=
  {| MessageService.dataContent := text; MessageService.dataSender := "user";
     MessageService.dataMessageType := None |}.

(** A generated reply of the given text. *)
Definition reply (text : jsstring) : ProcessedResponse :=
  {| prContent := text;
     prUsage := {| promptTokens := 0; responseTokens := 0; totalTokens := 0 |};
     prWordCount := GeminiWorker.wordCount text;
     prCharacterCount := jslength text;
     prContext := None;
     hasCodeBlocks := false; hasLinks := false; hasList := false |}.

End Sample.

(** ** Further store operations *)

Module PrismaMore.

(** The owner of the chatroom a message belongs to, if the chatroom exists. *)
Definition ownerOf (d : Db) (m : Message) : option string :=
  chatroomUserId <$> chatrooms d !! messageChatroomId m.

(** [db.message.findFirst({ where: { id, chatroom: { userId } } })] *)
Definition message_findFirstOwned (mid owner : string) : Eff (option Message) :=
  Prisma.dbOp (fun d =>
    (Ret (head (filter (fun m => messageId m = mid ∧ ownerOf d m = Some owner)
                  (messages d))), d)).

(** [db.message.delete({ where: { id } })]: rejects when no row has the id. *)
Definition message_delete (mid : string) : Eff unit :=
  Prisma.dbOp (fun d =>
    if bool_decide (Exists (fun m => messageId m = mid) (messages d)) then
      (Ret tt, {| users := users d; chatrooms := chatrooms d;
                  messages := filter (fun m => messageId m ≠ mid) (messages d);
                  dailyUsage := dailyUsage d; nextId := nextId d |})
    else (Throw Prisma.recordNotFound, d)).

(** [db.message.deleteMany({ where: { chatroomId } })] *)
Definition message_deleteMany (room : string) : Eff unit :=
  Prisma.dbOp (fun d =>
    (Ret tt, {| users := users d; chatrooms := chatrooms d;
                messages := filter (fun m => messageChatroomId m ≠ room) (messages d);
                dailyUsage := dailyUsage d; nextId := nextId d |})).

(** [db.message.count({ where: { chatroomId } })] *)
Definition message_count (room : string) : Eff Z :=
  Prisma.dbOp (fun d =>
    (Ret (Z.of_nat (List.length
            (filter (fun m => messageChatroomId m = room) (messages d)))), d)).

(** [db.message.findMany({ where: { chatroomId }, orderBy, skip, take })] *)
Definition message_findManyPaged (room : string) (o : Prisma.SortOrder)
    (skip take : nat) : Eff (list Message) :=
  Prisma.dbOp (fun d =>
    (Ret (firstn take
            (skipn skip
               (Prisma.orderByCreatedAt o
                  (filter (fun m => messageChatroomId m = room) (messages d))))),
     d)).

(** [db.user.updateMany({ data: { dailyMessageCount: 0 } })] *)
Definition user_resetCounts : Eff unit :=
  Prisma.dbOp (fun d =>
    (Ret tt,
     {| users :=
          (fun u => {| userId := userId u;
                       subscriptionTier := subscriptionTier u;
                       subscriptionStatus := subscriptionStatus u;
                       dailyMessageCount := 0;
                       lastMessageDate := lastMessageDate u |}) <$> users d;
        chatrooms := chatrooms d; messages := messages d;
        dailyUsage := dailyUsage d; nextId := nextId d |})).

End PrismaMore.

(** ** services/subscription.service.ts, the daily reset *)

Module SubscriptionAdmin.

Definition resetDailyUsage : Eff unit :=
  tryCatch
    (PrismaMore.user_resetCounts;;
     logger LInfo "Daily message usage reset for all users")
    (fun error =>
       logger LError "Failed to reset daily usage:";;
       throw error).

End SubscriptionAdmin.

(** ** services/message.service.ts, queries and deletions *)

Record MessagePage := {
  pageMessages : list Message;
  pageTotal : Z;
  pageNumber : Z;
  pageTotalPages : Z;
}.

Module MessageQueries.

(** [Math.ceil(total / limit)] for a positive [limit]. *)
Definition ceilDiv (total limit : Z) : Z := - ((- total) `div` limit).

Definition getChatroomMessages (room uid : string) (page limit : Z)
    : Eff MessagePage :=
  tryCatch
    (let page := if bool_decide (page < 1) then 1 else page in
     let limit := if bool_decide (limit < 1) then 50 else limit in
     let limit := if bool_decide (100 < limit) then 100 else limit in
     chatroom ← Prisma.chatroom_findFirstOwned room uid;
     match chatroom with
     | None => throw (MessageService.notFoundError "Chatroom not found")
     | Some _ =>
         let skip := (page - 1) * limit in
         total ← PrismaMore.message_count room;
         messages ← PrismaMore.message_findManyPaged room Prisma.Asc
                      (Z.to_nat skip) (Z.to_nat limit);
         let totalPages := ceilDiv total limit in
         logger LDebug "Retrieved messages for chatroom";;
         mret {| pageMessages := messages; pageTotal := total;
                 pageNumber := page; pageTotalPages := totalPages |}
     end)
    (fun error =>
       logger LError "Get chatroom messages failed:";;
       throw error).

Definition deleteMessage (mid uid : string) : Eff unit :=
  tryCatch
    (message ← PrismaMore.message_findFirstOwned mid uid;
     match message with
     | None => throw (MessageService.notFoundError "Message not found")
     | Some message =>
         if bool_decide (sender message ≠ "user") then
           throw (MessageService.validationError
                    "Only user messages can be deleted")
         else
           PrismaMore.message_delete mid;;
           w ← getWorld;
           Prisma.chatroom_update (messageChatroomId message) (now w);;
           CacheService.invalidateMessageCache (messageChatroomId message) uid;;
           logger LInfo "Message deleted"
     end)
    (fun error =>
       logger LError "Delete message failed:";;
       throw error).

Definition clearChatroomMessages (room uid : string) : Eff unit :=
  tryCatch
    (chatroom ← Prisma.chatroom_findFirstOwned room uid;
     match chatroom with
     | None => throw (MessageService.notFoundError "Chatroom not found")
     | Some _ =>
         PrismaMore.message_deleteMany room;;
         w ← getWorld;
         Prisma.chatroom_update room (now w);;
         CacheService.invalidateMessageCache room uid;;
         logger LInfo "Cleared all messages in chatroom"
     end)
    (fun error =>
       logger LError "Clear chatroom messages failed:";;
       throw error).

End MessageQueries.

(** ** The message controller's [sendAIMessage] *)

(** How a static method that reads [this] was invoked: on its class, or
    as a bare function.  [chatroom.routes.ts] hands
    [MessageController.sendAIMessage] to the router as a bare function, so
    a request that reaches it through the router runs it with [this]
    undefined. *)
Inductive Receiver := OnClass | Unbound.

Module MessageControllerAI.

Definition thisUndefined : JsError :=
  {| errClass := TypeError;
     errMessage := "Cannot read properties of undefined (reading 'logger')" |}.

(** [this.logger.info(...)] and [this.logger.error(...)] *)
Definition thisLogger (this : Receiver) (lvl : LogLevel) (msg : string)
    : Eff unit :=
  match this with
  | OnClass => logger lvl msg
  | Unbound => throw thisUndefined
  end.

Definition sendAIMessage (this : Receiver) (req : Request) : Eff Response :=
  tryCatch
    (match reqUser req with
     | None => mret (MessageController.errorResponse 401 "Authentication required")
     | Some uid =>
         if falsy (paramChatroomId req) then
           mret (MessageController.errorResponse 400 "Chatroom ID is required")
         else
           message ← MessageService.createMessage
             (default EmptyString (paramChatroomId req)) uid
             {| MessageService.dataContent := bodyContent req;
                MessageService.dataSender := "ai";
                MessageService.dataMessageType :=
                  Some (orDefault (bodyMessageType req) "text") |};
           thisLogger this LInfo "AI message sent successfully";;
           mret {| resCode := 201; resStatus := "success";
                   resMessage := "AI message sent successfully";
                   resData := Some message;
                   resGeminiJob := None; resWarning := None |}
     end)
    (fun error =>
       thisLogger this LError "Send AI message failed:";;
       mret (MessageController.errorResponse 500 "Failed to send AI message")).

End MessageControllerAI.

(** ** The chatroom controller's [sendMessageToChatroom]

    [POST /api/v1/chatrooms/:id/send-message], the endpoint that always
    asks for a reply.  The route's [:id] is read where [sendMessage] reads
    [:chatroomId]; [paramChatroomId] stands for it.  The handler is an
    arrow function held in a static field, so its [this] is the class. *)

Module ChatroomController.


End ChatroomController.

(** ** services/gemini.service.ts, the health check *)

Module GeminiHealth.

Definition probePrompt : jsstring :=
  u16 ("You are a test assistant. Respond with " +:+ dq
       +:+ "Hello! I am working correctly." +:+ dq).

Definition healthCheck : Eff bool :=
  tryCatch
    (testResponse ← GeminiService.generateResponse (u16 "Hello")
       {| gcChatRoomId := "test"; gcUserId := "test";
          conversationHistory := [];
          systemPrompt := Some probePrompt;
          temperature := None;
          maxTokens := Some 50 |};
     mret (includes (respContent testResponse) (u16 "working correctly")))
    (fun error =>
       logger LError "Gemini health check failed:";;
       mret false).

End GeminiHealth.

(** ** Further observations *)

(** Every progress update of the handle is recorded, whether it resolves
    or rejects. *)
Definition recordsProgress (job : JobHandle) : Prop :=
  ∀ p w, ∃ o,
    handleUpdateProgress job p w = (o, set_progress (progress w ++ [p]) w).

(** The handle's progress updates resolve in the environment of [w]. *)
Definition resolvesIn (job : JobHandle) (w : World) : Prop :=
  ∀ p w1, env w1 = env w →
    handleUpdateProgress job p w1 = (Ret tt, set_progress (progress w1 ++ [p]) w1).

(** No progress update of a job rejects. *)
Definition progressUp (w : World) : Prop := ∀ n, progressFaults (env w) n = false.

(** The store holds no message of the chatroom a job's context names, or
    the context names none: the worker's window for the job is empty. *)
Definition noHistory (context : option JobContext) (w : World) : Prop :=
  falsy (context ≫= ctxChatRoomId) = true
  ∨ filter (fun m => messageChatroomId m
                     = default EmptyString (context ≫= ctxChatRoomId))
      (messages (db w)) = [].

(** The user's row carries this daily count. *)
Definition userCount (uid : string) (w : World) : option Z :=
  dailyMessageCount <$> users (db w) !! uid.

(** The store's usage rows and user rows are the same in both. *)
Definition sameLedger (d d' : Db) : Prop :=
  dailyUsage d' = dailyUsage d ∧ users d' = users d.

(** [p] occurs in [s] as a contiguous run of code units. *)
Definition occursIn (p s : jsstring) : Prop := ∃ pre post, s = pre ++ p ++ post.

(** Neither the first nor the last code unit is white space. *)
Definition trimmed (s : jsstring) : Prop :=
  (∀ c, head s = Some c → isWhiteSpace c = false)
  ∧ (∀ c, last s = Some c → isWhiteSpace c = false).

(** The [p]-th page of [limit] rows of a listing. *)
Definition pageOf (p limit : nat) (l : list Message) : list Message :=
  firstn limit (skipn ((p - 1) * limit) l).

(** * Properties *)

(** ** Reduction of the monad's combinators *)

Lemma bind_ret {A B} (m : Eff A) (k : A → Eff B) w a w' :
  m w = (Ret a, w') → (m ≫= k) w = k a w'.
Proof. intros H. unfold mbind, Eff_bind. by rewrite H. Qed.

Lemma bind_throw {A B} (m : Eff A) (k : A → Eff B) w e w' :
  m w = (Throw e, w') → (m ≫= k) w = (Throw e, w').
Proof. intros H. unfold mbind, Eff_bind. by rewrite H. Qed.

Lemma tryCatch_ret {A} (m : Eff A) h w a w' :
  m w = (Ret a, w') → tryCatch m h w = (Ret a, w').
Proof. intros H. unfold tryCatch. by rewrite H. Qed.

Lemma tryCatch_throw {A} (m : Eff A) h w e w' :
  m w = (Throw e, w') → tryCatch m h w = h e w'.
Proof. intros H. unfold tryCatch. by rewrite H. Qed.

Lemma dbOp_down {A} (f : Db → Outcome A * Db) w :
  dbFaults (env w) (dbOps w) = true →
  Prisma.dbOp f w = (Throw Prisma.unavailable, set_dbOps (S (dbOps w)) w).
Proof. intros H. unfold Prisma.dbOp. by rewrite H. Qed.

Lemma dbOp_up {A} (f : Db → Outcome A * Db) w :
  dbFaults (env w) (dbOps w) = false →
  Prisma.dbOp f w =
    ((f (db w)).1, set_db (fun _ => (f (db w)).2) (set_dbOps (S (dbOps w)) w)).
Proof. intros H. unfold Prisma.dbOp. rewrite H. by destruct (f (db w)). Qed.

(** Unfolds the combinators and the world's bookkeeping. *)
Ltac eff :=
  unfold logger, GeminiWorker.progressRecorded in *;
  unfold mbind, Eff_bind, mret, Eff_ret, tryCatch, throw, getWorld,
    modifyWorld in *;
  cbn [fst snd env db dbOps now queue nextJobId genCalls cacheCleared
       progress logs set_db set_dbOps set_queue set_nextJobId set_genCalls
       set_cacheCleared set_progress set_now set_logs
       users chatrooms messages dailyUsage nextId] in *.

(** ** The usage ledger's gate *)

(** C7: when the read of the user's row fails, [canSendMessage] does not
    throw: it logs the error and answers that the user cannot send, with
    reason "System error"; nothing in the store changes. *)
Theorem canSendMessage_fails_closed (uid : string) (w : World) :
  dbFaults (env w) (dbOps w) = true →
  SubscriptionService.canSendMessage uid w =
    (Ret {| SubscriptionService.canSend := false;
            SubscriptionService.reason := Some "System error" |},
     set_logs (logs w ++ [(LError, "Failed to check message permission:")])
       (set_dbOps (S (dbOps w)) w)).
Proof.
  intros Hfault.
  unfold SubscriptionService.canSendMessage.
  erewrite tryCatch_throw.
  2: { apply bind_throw. unfold Prisma.user_findUnique. by apply dbOp_down. }
  by eff.
Qed.

(** [canSendMessage] never throws, whatever the store does. *)
Lemma canSendMessage_total (uid : string) (w : World) :
  ∃ r w', SubscriptionService.canSendMessage uid w = (Ret r, w').
Proof.
  unfold SubscriptionService.canSendMessage, Prisma.user_findUnique, Prisma.dbOp.
  eff. destruct (dbFaults (env w) (dbOps w)); eff; [by eauto|].
  destruct (users (db w) !! uid) as [u|]; [|by eauto].
  repeat case_bool_decide; by eauto.
Qed.

Lemma canSendMessage_fails_closed_witness :
  let w := Sample.world Sample.envDown Sample.fresh in
  dbFaults (env w) (dbOps w) = true ∧
  (SubscriptionService.canSendMessage "u1" w).1 =
    Ret {| SubscriptionService.canSend := false;
           SubscriptionService.reason := Some "System error" |}.
Proof.
  split; [reflexivity|].
  rewrite (canSendMessage_fails_closed "u1"
             (Sample.world Sample.envDown Sample.fresh) eq_refl).
  reflexivity.
Defined.

(** ** What an operation leaves alone *)

#[global] Instance keeps_preorder Rd Rg :
  PreOrder Rd → PreOrder Rg → PreOrder (keeps Rd Rg).
Proof.
  intros Hd Hg. split.
  - intros w. by repeat split.
  - intros w1 w2 w3 (?&?&?&?&?&?) (?&?&?&?&?&?).
    repeat split; try congruence; by etrans.
Qed.

#[global] Instance sameMessages_preorder : PreOrder sameMessages.
Proof.
  split; [by intros d|].
  intros d1 d2 d3. unfold sameMessages. congruence.
Qed.

(** Case analysis on every store fault, lookup and test in the goal. *)
Ltac crunch :=
  repeat (eff; first [ case_bool_decide | case_match ]; simplify_eq).

Ltac unfold_store :=
  unfold Prisma.user_findUnique, Prisma.user_update, Prisma.chatroom_findFirst,
    Prisma.chatroom_findFirstOwned, Prisma.chatroom_update,
    Prisma.message_create, Prisma.message_findMany,
    Prisma.dailyUsage_findUnique, Prisma.dailyUsage_create,
    Prisma.dailyUsage_update, Prisma.dbOp,
    CacheService.invalidateMessageCache, CacheService.clearPattern in *.

Ltac solve_keeps :=
  unfold keeps, sameMessages; eff; repeat split; try done.

#[global] Instance anyDb_preorder : PreOrder anyDb.
Proof. by split. Qed.

Section FrameRules.
Context (R : relation World) `{!PreOrder R}.

Lemma frame_ret {A} (a : A) : Frame R (mret a).
Proof. intros w. reflexivity. Qed.

Lemma frame_throw {A} e : Frame R (throw (A := A) e).
Proof. intros w. reflexivity. Qed.

Lemma frame_getWorld : Frame R getWorld.
Proof. intros w. reflexivity. Qed.

Lemma frame_bind {A B} (m : Eff A) (k : A → Eff B) :
  Frame R m → (∀ a, Frame R (k a)) → Frame R (m ≫= k).
Proof.
  intros Hm Hk w. unfold mbind, Eff_bind.
  specialize (Hm w). destruct (m w) as [[a|e] w1]; [|done].
  etrans; [exact Hm|]. apply Hk.
Qed.

Lemma frame_tryCatch {A} (m : Eff A) h :
  Frame R m → (∀ e, Frame R (h e)) → Frame R (tryCatch m h).
Proof.
  intros Hm Hh w. unfold tryCatch.
  specialize (Hm w). destruct (m w) as [[a|e] w1]; [done|].
  etrans; [exact Hm|]. apply Hh.
Qed.
End FrameRules.

Section KeepsRules.
Context (Rd : relation Db) (Rg : relation (list GenRequest)).
Context `{!PreOrder Rd, !PreOrder Rg}.

Lemma frame_logger lvl msg : Frame (keeps Rd Rg) (logger lvl msg).
Proof. intros w. by solve_keeps. Qed.

Lemma frame_progressRecorded p : Frame (keeps Rd Rg) (GeminiWorker.progressRecorded p).
Proof. intros w. by solve_keeps. Qed.

Lemma frame_invalidateMessageCache room uid :
  Frame (keeps Rd Rg) (CacheService.invalidateMessageCache room uid).
Proof. intros w. unfold_store. by solve_keeps. Qed.

(** A store operation that only reads, or that rejects. *)
Lemma frame_dbOp {A} (f : Db → Outcome A * Db) :
  (∀ d, Rd d (f d).2) → Frame (keeps Rd Rg) (Prisma.dbOp f).
Proof.
  intros Hf w. unfold Prisma.dbOp.
  destruct (dbFaults (env w) (dbOps w)); [by solve_keeps|].
  specialize (Hf (db w)). destruct (f (db w)) as [r d]. by solve_keeps.
Qed.

Lemma frame_user_findUnique id : Frame (keeps Rd Rg) (Prisma.user_findUnique id).
Proof. apply frame_dbOp. by intros d. Qed.

Lemma frame_chatroom_findFirst id :
  Frame (keeps Rd Rg) (Prisma.chatroom_findFirst id).
Proof. apply frame_dbOp. by intros d. Qed.

Lemma frame_chatroom_findFirstOwned id owner :
  Frame (keeps Rd Rg) (Prisma.chatroom_findFirstOwned id owner).
Proof. apply frame_dbOp. by intros d. Qed.

Lemma frame_message_findMany room o n :
  Frame (keeps Rd Rg) (Prisma.message_findMany room o n).
Proof. apply frame_dbOp. by intros d. Qed.

Lemma frame_dailyUsage_findUnique uid date :
  Frame (keeps Rd Rg) (Prisma.dailyUsage_findUnique uid date).
Proof. apply frame_dbOp. by intros d. Qed.
End KeepsRules.

(** Writes other than [message_create] leave the messages alone. *)
Section Writes.
Context (Rd : relation Db) (Rg : relation (list GenRequest)).
Context `{!PreOrder Rd, !PreOrder Rg}.
Context (HRd : ∀ d d', sameMessages d d' → Rd d d').

Lemma frame_user_update id count last :
  Frame (keeps Rd Rg) (Prisma.user_update id count last).
Proof using All.
  apply frame_dbOp; [apply _..|]. intros d. apply HRd. by case_match.
Qed.

Lemma frame_chatroom_update id t :
  Frame (keeps Rd Rg) (Prisma.chatroom_update id t).
Proof using All.
  apply frame_dbOp; [apply _..|]. intros d. apply HRd. by case_match.
Qed.

Lemma frame_dailyUsage_create uid date count :
  Frame (keeps Rd Rg) (Prisma.dailyUsage_create uid date count).
Proof using All.
  apply frame_dbOp; [apply _..|]. intros d. apply HRd. by case_match.
Qed.

Lemma frame_dailyUsage_update uid date count :
  Frame (keeps Rd Rg) (Prisma.dailyUsage_update uid date count).
Proof using All.
  apply frame_dbOp; [apply _..|]. intros d. apply HRd. by case_match.
Qed.
End Writes.

Lemma frame_message_create Rg `{!PreOrder Rg} t room text author kind :
  Frame (keeps anyDb Rg) (Prisma.message_create t room text author kind).
Proof. apply frame_dbOp; [apply _..|]. by intros d. Qed.

(** Applies the frame rules along the structure of the program;
    [frame_known] holds the lemmas of the functions proved so far. *)
Ltac frame_known := fail.

Ltac frame_step :=
  lazymatch goal with
  | |- Frame _ (mret _) => apply frame_ret; apply _
  | |- Frame _ (throw _) => apply frame_throw; apply _
  | |- Frame _ getWorld => apply frame_getWorld; apply _
  | |- Frame _ (logger _ _) => apply frame_logger; apply _
  | |- Frame _ (GeminiWorker.progressRecorded _) =>
      apply frame_progressRecorded; apply _
  | |- Frame _ (CacheService.invalidateMessageCache _ _) =>
      apply frame_invalidateMessageCache; apply _
  | |- Frame _ (Prisma.user_findUnique _) =>
      apply frame_user_findUnique; apply _
  | |- Frame _ (Prisma.chatroom_findFirst _) =>
      apply frame_chatroom_findFirst; apply _
  | |- Frame _ (Prisma.chatroom_findFirstOwned _ _) =>
      apply frame_chatroom_findFirstOwned; apply _
  | |- Frame _ (Prisma.message_findMany _ _ _) =>
      apply frame_message_findMany; apply _
  | |- Frame _ (Prisma.dailyUsage_findUnique _ _) =>
      apply frame_dailyUsage_findUnique; apply _
  | |- Frame _ (Prisma.user_update _ _ _) =>
      apply frame_user_update; [apply _ ..| done]
  | |- Frame _ (Prisma.chatroom_update _ _) =>
      apply frame_chatroom_update; [apply _ ..| done]
  | |- Frame _ (Prisma.dailyUsage_create _ _ _) =>
      apply frame_dailyUsage_create; [apply _ ..| done]
  | |- Frame _ (Prisma.dailyUsage_update _ _ _) =>
      apply frame_dailyUsage_update; [apply _ ..| done]
  | |- Frame _ (Prisma.message_create _ _ _ _ _) =>
      apply frame_message_create; apply _
  | |- Frame _ (mbind _ _) => apply frame_bind; [apply _ | | intros ?]
  | |- Frame _ (tryCatch _ _) => apply frame_tryCatch; [apply _ | | intros ?]
  | |- Frame _ (let _ := _ in _) => cbv zeta
  | |- Frame _ (match _ with _ => _ end) => case_match
  | |- Frame _ _ => frame_known
  end.

Ltac frame := repeat frame_step.

Section ServiceFrames.
Context (Rd : relation Db) (Rg : relation (list GenRequest)).
Context `{!PreOrder Rd, !PreOrder Rg}.

Lemma canSendMessage_frame uid :
  Frame (keeps Rd Rg) (SubscriptionService.canSendMessage uid).
Proof. unfold SubscriptionService.canSendMessage. frame. Qed.

Lemma trackMessageUsage_frame uid :
  (∀ d d', sameMessages d d' → Rd d d') →
  Frame (keeps Rd Rg) (SubscriptionService.trackMessageUsage uid).
Proof. intros HRd. unfold SubscriptionService.trackMessageUsage. frame. Qed.
End ServiceFrames.

Ltac frame_known ::=
  first [ apply canSendMessage_frame; apply _
        | apply trackMessageUsage_frame; [apply _ ..| done] ].

(** The synchronous write path never touches the queue, the clock or the
    generation service. *)
Lemma createMessage_frame room uid data :
  Frame (keeps anyDb eq) (MessageService.createMessage room uid data).
Proof.
  unfold MessageService.createMessage. frame.
Qed.

(** ** Inversion of computations that returned *)

Lemma bind_inv_ret {A B} (m : Eff A) (k : A → Eff B) w b w2 :
  (m ≫= k) w = (Ret b, w2) →
  ∃ a w1, m w = (Ret a, w1) ∧ k a w1 = (Ret b, w2).
Proof.
  unfold mbind, Eff_bind. destruct (m w) as [[a|e] w1]; [by eauto|done].
Qed.

Lemma bind_inv {A B} (m : Eff A) (k : A → Eff B) w o w2 :
  (m ≫= k) w = (o, w2) →
  (∃ a w1, m w = (Ret a, w1) ∧ k a w1 = (o, w2))
  ∨ (∃ e, m w = (Throw e, w2) ∧ o = Throw e).
Proof.
  unfold mbind, Eff_bind. destruct (m w) as [[a|e] w1]; [by eauto|].
  intros [= <- <-]. by eauto.
Qed.

(** A handler that rethrows: the block returned only if its body did. *)
Lemma tryCatch_inv_ret {A} (m : Eff A) (h : JsError → Eff A) w a w' :
  (∀ e w1, ∃ e' w2, h e w1 = (Throw e', w2)) →
  tryCatch m h w = (Ret a, w') → m w = (Ret a, w').
Proof.
  intros Hh. unfold tryCatch. destruct (m w) as [[a0|e] w1]; [done|].
  destruct (Hh e w1) as (e' & w2 & ->). done.
Qed.

Lemma log_rethrow {A} lvl msg (f : JsError → JsError) :
  ∀ e w1, ∃ e' w2, (logger lvl msg;; throw (A := A) (f e)) w1 = (Throw e', w2).
Proof. intros e w1. by eexists _, _. Qed.

Lemma frame_run {A} R (m : Eff A) w r w' : Frame R m → m w = (r, w') → R w w'.
Proof. intros Hm Heq. specialize (Hm w). by rewrite Heq in Hm. Qed.

Tactic Notation "inv_bind" hyp(H) "as" ident(a) ident(w) ident(H1) :=
  apply bind_inv_ret in H as (a & w & H1 & H).

Lemma getWorld_inv w a w' : getWorld w = (Ret a, w') → a = w ∧ w' = w.
Proof. unfold getWorld. by intros [= -> ->]. Qed.

Lemma message_create_ret t room text author kind w m w' :
  Prisma.message_create t room text author kind w = (Ret m, w') →
  messages (db w') = messages (db w) ++ [m]
  ∧ m = {| messageId := Prisma.cuid (nextId (db w)); messageChatroomId := room;
           content := text; sender := author; messageType := kind;
           createdAt := t |}.
Proof.
  unfold Prisma.message_create, Prisma.dbOp.
  destruct (dbFaults (env w) (dbOps w)); [done|]. by intros [= <- <-].
Qed.

(** A call of [createMessage] that returns has appended exactly the
    returned row, whose content is the trimmed input. *)
Lemma createMessage_persists room uid data w message w' :
  MessageService.createMessage room uid data w = (Ret message, w') →
  messages (db w') = messages (db w) ++ [message]
  ∧ content message = trim (MessageService.dataContent data)
  ∧ sender message = MessageService.dataSender data
  ∧ messageChatroomId message = room
  ∧ trim (MessageService.dataContent data) ≠ []
  ∧ jslength (MessageService.dataContent data) ≤ 4000.
Proof.
  unfold MessageService.createMessage. intros H.
  apply tryCatch_inv_ret in H; [|apply (log_rethrow _ _ id)].
  destruct (_ || _) eqn:Hblank; [done|].
  case_bool_decide as Hlen; [done|]. case_match; [done|].
  inv_bind H as c w0 E0. destruct c as [c|]; [|done].
  pose proof (frame_run _ _ _ _ _
    (frame_chatroom_findFirstOwned sameMessages eq _ _) E0) as F0.
  inv_bind H as u1 w1 E1.
  assert (keeps sameMessages eq w0 w1) as F1.
  { case_bool_decide.
    - inv_bind E1 as r wr Er.
      eapply (frame_run _ _ _ _ _ (canSendMessage_frame sameMessages eq uid)) in Er.
      case_match; [|done]. injection E1 as _ <-. done.
    - injection E1 as _ <-. reflexivity. }
  inv_bind H as x2 w2 E2. apply getWorld_inv in E2 as [-> ->].
  inv_bind H as m w3 E3. apply message_create_ret in E3 as [Hm ->].
  inv_bind H as x4 w4 E4. apply getWorld_inv in E4 as [-> ->].
  inv_bind H as u5 w5 E5.
  eapply (frame_run (keeps sameMessages eq)) in E5; [|by frame].
  inv_bind H as u6 w6 E6.
  assert (keeps sameMessages eq w5 w6) as F6.
  { case_bool_decide.
    - eapply frame_run; [|exact E6].
      apply trackMessageUsage_frame; [apply _..|done].
    - injection E6 as _ <-. reflexivity. }
  inv_bind H as u7 w7 E7.
  eapply (frame_run (keeps sameMessages eq)) in E7; [|by frame].
  inv_bind H as u8 w8 E8.
  eapply (frame_run (keeps sameMessages eq)) in E8; [|by frame].
  injection H as <- <-.
  destruct F0 as (_&_&_&_&F0&_), F1 as (_&_&_&_&F1&_), E5 as (_&_&_&_&F5&_),
    F6 as (_&_&_&_&F6'&_), E7 as (_&_&_&_&F7&_), E8 as (_&_&_&_&F8&_).
  unfold sameMessages in *.
  apply orb_false_iff in Hblank as [_ Hblank].
  apply bool_decide_eq_false in Hblank.
  repeat split; simpl; try lia.
  - rewrite F8, F7, F6', F5, Hm. congruence.
  - intros Ht. apply Hblank. unfold jslength. by rewrite Ht.
Qed.

(** ** Validation on the write path, and the worker's direct insert *)

(** With the store up and the chatroom present, the worker's insert stores
    the generated text as it is: no trimming, no bound on its length. *)
Lemma saveGeminiResponse_stores orig room uid resp w c :
  storeUp w → chatrooms (db w) !! room = Some c →
  ∃ m w',
    GeminiWorker.saveGeminiResponse orig room uid resp w =
      (Ret {| savedId := messageId m; savedContent := content m;
              savedSender := sender m; savedMessageType := messageType m |}, w')
    ∧ messages (db w') = messages (db w) ++ [m]
    ∧ m = {| messageId := Prisma.cuid (nextId (db w));
             messageChatroomId := room; content := prContent resp;
             sender := "ai"; messageType := "text"; createdAt := now w |}.
Proof.
  intros Hup Hc. unfold GeminiWorker.saveGeminiResponse. unfold_store.
  unfold storeUp in Hup. eff. rewrite !Hup, Hc. eff. rewrite !Hup. eff.
  rewrite Hc. eff. by eexists _, _.
Qed.

(** C10: [createMessage] rejects blank content and content longer than
    4000 code units with a validation error before it issues any store
    operation; content it accepts is stored trimmed.  The worker's
    [saveGeminiResponse] writes the generated text directly, untrimmed and
    whatever its length. *)
Theorem createMessage_validates_worker_bypasses :
  (∀ room uid data w,
     trim (MessageService.dataContent data) = []
     ∨ 4000 < jslength (MessageService.dataContent data) →
     ∃ e, MessageService.createMessage room uid data w =
            (Throw e, set_logs (logs w ++ [(LError, "Create message failed:")]) w)
          ∧ errClass e = ValidationError)
  ∧ (∀ room uid data w message w',
       MessageService.createMessage room uid data w = (Ret message, w') →
       messages (db w') = messages (db w) ++ [message]
       ∧ content message = trim (MessageService.dataContent data))
  ∧ (∀ orig room uid resp w c,
       storeUp w → chatrooms (db w) !! room = Some c →
       ∃ m w',
         (GeminiWorker.saveGeminiResponse orig room uid resp w).2 = w'
         ∧ messages (db w') = messages (db w) ++ [m]
         ∧ content m = prContent resp ∧ sender m = "ai").
Proof.
  split; [|split].
  - intros room uid data w Hbad. unfold MessageService.createMessage.
    destruct (bool_decide (MessageService.dataContent data = [])
              || bool_decide (jslength (trim (MessageService.dataContent data)) = 0))
      eqn:Hblank.
    { eff. by eexists. }
    apply orb_false_iff in Hblank as [_ Hblank].
    apply bool_decide_eq_false in Hblank.
    destruct Hbad as [Hbad|Hbad].
    { exfalso. apply Hblank. by rewrite Hbad. }
    rewrite bool_decide_eq_true_2 by done. eff. by eexists.
  - intros room uid data w message w' H.
    apply createMessage_persists in H. tauto.
  - intros orig room uid resp w c Hup Hc.
    destruct (saveGeminiResponse_stores orig room uid resp w c Hup Hc)
      as (m & w' & Heq & Hm & ->).
    exists
      {| messageId := Prisma.cuid (nextId (db w)); messageChatroomId := room;
         content := prContent resp; sender := "ai"; messageType := "text";
         createdAt := now w |}, w'.
    rewrite Heq. done.
Qed.

Lemma createMessage_validates_worker_bypasses_witness :
  let w := Sample.world Sample.envUp Sample.fresh in
  (∃ e, MessageService.createMessage "r1" "u1" (Sample.userData (u16 "   ")) w =
          (Throw e, set_logs (logs w ++ [(LError, "Create message failed:")]) w)
        ∧ errClass e = ValidationError)
  ∧ (∃ message w',
       MessageService.createMessage "r1" "u1" (Sample.userData (u16 "  hello ")) w
         = (Ret message, w')
       ∧ content message = u16 "hello")
  ∧ (∃ m w',
       (GeminiWorker.saveGeminiResponse "c0" "r1" "u1"
          (Sample.reply (replicate 4001 32%N)) w).2 = w'
       ∧ messages (db w') = messages (db w) ++ [m]
       ∧ content m = replicate 4001 32%N ∧ sender m = "ai").
Proof.
  destruct createMessage_validates_worker_bypasses as (Hrej & Hacc & Hai).
  split; [|split].
  - apply Hrej. left. reflexivity.
  - eexists _, _. split; [vm_compute; reflexivity|].
    refine (proj2 (Hacc "r1" "u1" (Sample.userData (u16 "  hello "))
                     (Sample.world Sample.envUp Sample.fresh) _ _ _)).
    vm_compute. reflexivity.
  - exact (Hai "c0" "r1" "u1" (Sample.reply (replicate 4001 32%N))
             (Sample.world Sample.envUp Sample.fresh) Sample.room
             (fun n => eq_refl) eq_refl).
Defined.

(** ** Submission after the synchronous write *)

Lemma falsy_Some (s : string) : s ≠ EmptyString → falsy (Some s) = false.
Proof. intros Hs. unfold falsy. by apply bool_decide_eq_false. Qed.






(** ** The worker, step by step *)

(** Context building always returns a window and leaves the store as it
    was; the window is empty when there is no chatroom id to look up or
    when the read fails. *)
Lemma getConversationHistory_spec (chatRoomId : option string) (w : World) :
  ∃ h w',
    GeminiWorker.getConversationHistory chatRoomId w = (Ret h, w')
    ∧ keeps eq eq w w' ∧ progress w' = progress w
    ∧ (falsy chatRoomId = true ∨ dbFaults (env w) (dbOps w) = true → h = []).
Proof.
  unfold GeminiWorker.getConversationHistory, Prisma.message_findMany, Prisma.dbOp.
  destruct (falsy chatRoomId) eqn:Hf.
  { exists [], w. by repeat split. }
  eff. destruct (dbFaults (env w) (dbOps w)) eqn:Hfault; eff.
  - eexists _, _. by repeat split.
  - eexists _, _. repeat split; try done. by intros [?|?].
Qed.

Lemma generateSystemPrompt_nonempty (chatRoomId : option string) :
  GeminiService.generateSystemPrompt chatRoomId ≠ [].
Proof. unfold GeminiService.generateSystemPrompt. by case_match. Qed.

(** What one call of the gateway does, given the history it read: with a
    history that is not empty the SDK refuses to start the chat and nothing
    is sent; with an empty one exactly one request is sent. *)
Lemma callGeminiAPI_spec (userMessage : jsstring) (context : option JobContext)
    (w : World) h w1 :
  GeminiWorker.getConversationHistory (context ≫= ctxChatRoomId) w = (Ret h, w1) →
  ∃ w',
    GeminiWorker.callGeminiAPI userMessage context w =
      (match h with
       | [] =>
           match gemini (env w1) (requestFor userMessage context []) with
           | GenText text => Ret (responseOf text)
           | GenRejects _ _ => Throw (mkError "Failed to call Gemini API")
           end
       | _ :: _ => Throw (mkError "Failed to call Gemini API")
       end, w')
    ∧ keeps eq (fun g g' =>
                  g' = g ++ match h with
                            | [] => [requestFor userMessage context []]
                            | _ :: _ => []
                            end) w1 w'
    ∧ progress w' = progress w1 ∧ dbOps w' = dbOps w1.
Proof.
  intros Hh. unfold GeminiWorker.callGeminiAPI.
  unfold tryCatch at 1. erewrite bind_ret by exact Hh.
  unfold GeminiService.generateResponse, GeminiService.startChat,
    GeminiService.chat_sendMessage.
  cbn [systemPrompt conversationHistory temperature maxTokens GeminiService.numOr].
  rewrite (bool_decide_eq_false_2 (GeminiService.generateSystemPrompt _ = []))
    by apply generateSystemPrompt_nonempty.
  rewrite !bool_decide_eq_false_2 by done.
  destruct h as [|g h]; cbn [GeminiService.formatHistoryForGemini fmap list_fmap];
    eff;
    cbn [GeminiService.chatHistory GeminiService.chatTemperature
         GeminiService.chatMaxOutputTokens] in *; eff.
  - change {| reqHistory := []; reqTemperature := 70; reqMaxOutputTokens := 2048;
              reqPrompt := _ |}
      with (requestFor userMessage context []).
    destruct (gemini (env w1) (requestFor userMessage context []));
      (eexists; split; [reflexivity|]); by solve_keeps.
  - eexists. split; [reflexivity|]. solve_keeps. by rewrite app_nil_r.
Qed.

Lemma cuid_not_failed_save n : Prisma.cuid n ≠ "failed-save".
Proof. done. Qed.

(** Persisting never throws.  It stores nothing or exactly one row with
    sender "ai" and the generated text; whenever any of its steps fails the
    stand-in "failed-save" is returned instead of the row. *)
Lemma saveGeminiResponse_spec orig room uid resp w :
  ∃ s w',
    GeminiWorker.saveGeminiResponse orig room uid resp w = (Ret s, w')
    ∧ keeps anyDb eq w w'
    ∧ ((messages (db w') = messages (db w) ∧ s = GeminiWorker.failedSave)
       ∨ ∃ m, messages (db w') = messages (db w) ++ [m]
              ∧ messageChatroomId m = room ∧ content m = prContent resp
              ∧ sender m = "ai"
              ∧ (s = GeminiWorker.failedSave ∨ savedId s = messageId m))
    ∧ (savedId s ≠ "failed-save" →
       ∃ m, messages (db w') = messages (db w) ++ [m]
            ∧ savedId s = messageId m ∧ savedContent s = prContent resp)
    ∧ (chatrooms (db w) !! room = None ∨ dbFaults (env w) (dbOps w) = true →
       messages (db w') = messages (db w) ∧ s = GeminiWorker.failedSave).
Proof.
  unfold GeminiWorker.saveGeminiResponse. unfold_store.
  crunch; eexists _, _; (split; [reflexivity|]); eff;
    (split; [by solve_keeps|]).
  all: repeat split; try done; try (by intros [?|?]); eauto 10.
  all: by intuition congruence.
Qed.

(** The window depends on the environment, the store and the count of
    store operations only. *)
Lemma getConversationHistory_stable cid w w1 :
  env w1 = env w → db w1 = db w → dbOps w1 = dbOps w →
  (GeminiWorker.getConversationHistory cid w1).1
    = (GeminiWorker.getConversationHistory cid w).1.
Proof.
  intros He Hd Ho.
  unfold GeminiWorker.getConversationHistory, Prisma.message_findMany, Prisma.dbOp.
  destruct (falsy cid); [done|]. eff. rewrite He, Hd, Ho.
  by destruct (dbFaults (env w) (dbOps w)).
Qed.

(** One attempt of the worker on a job handle whose progress updates are
    recorded.  Whatever the updates do, the attempt sends at most one
    request, with an empty history, and stores at most one message, an "ai"
    message of the job's chatroom.  When the updates resolve: a window that
    is not empty makes the attempt throw the generic error before any
    request; with an empty window exactly one request is sent, and the
    attempt throws the generic error if the service rejects it and returns
    otherwise, whatever persisting did. *)
Lemma processGeminiJobOn_spec (job : JobHandle) (w : World) :
  recordsProgress job →
  ∃ out w',
    GeminiWorker.processGeminiJobOn job w = (out, w')
    ∧ env w' = env w ∧ queue w' = queue w ∧ now w' = now w
    ∧ (genCalls w' = genCalls w
       ∨ genCalls w' =
           genCalls w ++ [requestFor (jobUserMessage (handleData job))
                            (jobContext (handleData job)) []])
    ∧ (messages (db w') = messages (db w)
       ∨ ∃ m, messages (db w') = messages (db w) ++ [m]
              ∧ messageChatroomId m = jobChatRoomId (handleData job)
              ∧ sender m = "ai")
    ∧ (resolvesIn job w →
       ∀ h,
         (GeminiWorker.getConversationHistory
            (jobContext (handleData job) ≫= ctxChatRoomId) w).1 = Ret h →
         match h with
         | _ :: _ =>
             out = Throw (mkError "Failed to call Gemini API")
             ∧ db w' = db w ∧ genCalls w' = genCalls w
         | [] =>
             genCalls w' =
               genCalls w ++ [requestFor (jobUserMessage (handleData job))
                                (jobContext (handleData job)) []]
             ∧ match gemini (env w)
                       (requestFor (jobUserMessage (handleData job))
                          (jobContext (handleData job)) []) with
               | GenRejects _ _ =>
                   out = Throw (mkError "Failed to call Gemini API")
                   ∧ db w' = db w
               | GenText text =>
                   ∃ r, out = Ret r
                     ∧ prContent (resultGeminiResponse r) = text
                     ∧ ((messages (db w') = messages (db w)
                         ∧ savedMessageId r = "failed-save")
                        ∨ ∃ m, messages (db w') = messages (db w) ++ [m]
                               ∧ messageChatroomId m
                                 = jobChatRoomId (handleData job)
                               ∧ content m = text ∧ sender m = "ai"
                               ∧ (savedMessageId r = "failed-save"
                                  ∨ savedMessageId r = messageId m))
                     ∧ (chatrooms (db w) !! jobChatRoomId (handleData job) = None →
                        messages (db w') = messages (db w)
                        ∧ savedMessageId r = "failed-save")
                     ∧ (storeUp w →
                        is_Some (chatrooms (db w) !! jobChatRoomId (handleData job)) →
                        ∃ m, messages (db w') = messages (db w) ++ [m]
                             ∧ savedMessageId r = messageId m)
               end
         end).
Proof.
  intros Hrec. unfold GeminiWorker.processGeminiJobOn. eff.
  set (data := handleData job).
  set (cid := jobContext data ≫= ctxChatRoomId).
  set (rq0 := requestFor (jobUserMessage data) (jobContext data) []).
  set (w0 := set_logs (logs w ++ [(LInfo, "Processing Gemini job")]) w).
  destruct (Hrec 10 w0) as [o10 H10]. rewrite H10.
  set (w1 := set_progress (progress w0 ++ [10]) w0) in *.
  destruct o10 as [[]|e10].
  2: { eexists _, _. split; [reflexivity|]. cbn.
       do 3 (split; [done|]). split; [by left|]. split; [by left|].
       intros Hres. by rewrite (Hres 10 w0 eq_refl) in H10. }
  destruct (getConversationHistory_spec cid w1)
    as (h' & w1' & Hh & (He1 & Hn1 & Hq1 & _ & Hd1 & Hg1) & Hp1 & _).
  destruct (callGeminiAPI_spec (jobUserMessage data) (jobContext data) w1 h' w1' Hh)
    as (w2 & Hcall & (He2 & Hn2 & Hq2 & _ & Hd2 & Hg2) & Hp2 & _).
  fold cid in Hh. rewrite Hcall.
  assert ((GeminiWorker.getConversationHistory cid w).1 = Ret h') as Hwindow.
  { rewrite <- (getConversationHistory_stable cid w w1) by done. by rewrite Hh. }
  assert (env w2 = env w) as He by (by rewrite He2, He1).
  assert (queue w2 = queue w) as Hq by (by rewrite Hq2, Hq1).
  assert (now w2 = now w) as Hn by (by rewrite Hn2, Hn1).
  assert (db w2 = db w) as Hd by (by rewrite <- Hd2, <- Hd1).
  clear Hcall Hh.
  destruct h' as [|g h'].
  2: { eexists _, _. split; [reflexivity|]. cbn.
       rewrite app_nil_r in Hg2. rewrite Hg2, <- Hg1, Hd.
       do 3 (split; [done|]). split; [by left|]. split; [by left|].
       intros _ h Hh. pose proof (eq_trans (eq_sym Hh) Hwindow) as Heq.
       by injection Heq as ->. }
  rewrite He1 in *. change (env w1) with (env w) in *.
  fold rq0 in Hg2 |- *. rewrite <- Hg1 in Hg2. change (genCalls w1) with (genCalls w) in Hg2.
  destruct (gemini (env w) rq0) as [text|cause msg] eqn:Hgem.
  2: { eexists _, _. split; [reflexivity|]. cbn. rewrite Hd.
       do 3 (split; [done|]). split; [by right|]. split; [by left|].
       intros _ h Hh. pose proof (eq_trans (eq_sym Hh) Hwindow) as Heq.
       by injection Heq as ->. }
  destruct (Hrec 60 w2) as [o60 H60]. rewrite H60.
  destruct o60 as [[]|e60].
  2: { eexists _, _. split; [reflexivity|]. cbn. rewrite Hd.
       do 3 (split; [done|]). split; [by right|]. split; [by left|].
       intros Hres. by rewrite (Hres 60 w2 He) in H60. }
  unfold GeminiWorker.processGeminiResponse. eff.
  set (w3 := set_progress (progress w2 ++ [60]) w2) in *.
  destruct (Hrec 80 w3) as [o80 H80]. rewrite H80.
  destruct o80 as [[]|e80].
  2: { eexists _, _. split; [reflexivity|]. cbn. rewrite Hd.
       do 3 (split; [done|]). split; [by right|]. split; [by left|].
       intros Hres. by rewrite (Hres 80 w3 He) in H80. }
  set (w4 := set_progress (progress w3 ++ [80]) w3) in *.
  match goal with
  | |- context [GeminiWorker.saveGeminiResponse ?a ?b ?c ?d w4] =>
      set (resp := d);
      destruct (saveGeminiResponse_spec a b c resp w4)
        as (s & w5 & Hsave & (He5 & Hn5 & Hq5 & _ & _ & Hg5) & Hcase & _ & Hnone)
  end.
  rewrite Hsave.
  change (env w4) with (env w2) in *. change (now w4) with (now w2) in *.
  change (queue w4) with (queue w2) in *. change (db w4) with (db w2) in *.
  change (genCalls w4) with (genCalls w2) in *.
  rewrite Hd in Hcase, Hnone.
  assert (messages (db w5) = messages (db w)
          ∨ ∃ m, messages (db w5) = messages (db w) ++ [m]
                 ∧ messageChatroomId m = jobChatRoomId data ∧ sender m = "ai")
    as Hweak.
  { destruct Hcase as [[? _]|(m & ? & ? & _ & ? & _)]; [by left|].
    right. by exists m. }
  destruct (Hrec 100 w5) as [o100 H100]. rewrite H100.
  destruct o100 as [[]|e100].
  2: { eexists _, _. split; [reflexivity|]. cbn.
       split; [congruence|]. split; [congruence|]. split; [congruence|].
       split; [right; congruence|]. split; [done|].
       intros Hres. rewrite (Hres 100 w5) in H100 by congruence. done. }
  eexists _, _. split; [reflexivity|]. cbn.
  split; [congruence|]. split; [congruence|]. split; [congruence|].
  split; [right; congruence|]. split; [done|].
  intros _ h Hh. pose proof (eq_trans (eq_sym Hh) Hwindow) as Heq.
  injection Heq as ->.
  split; [congruence|].
  eexists. split; [reflexivity|]. cbn. split; [done|]. split; [|split].
  - destruct Hcase as [[? ->]|(m & ? & ? & ? & ? & Hs)]; [by left|].
    right. exists m. repeat split; try done.
    destruct Hs as [-> | ->]; [by left|by right].
  - intros Hc. destruct (Hnone (or_introl Hc)) as (? & ->). done.
  - intros Hup [c Hc].
    destruct (saveGeminiResponse_stores (jobMessageId data) (jobChatRoomId data)
                (jobUserId data) resp w4 c) as (m & w5' & Hrun & Hm & _).
    { intros n. change (env w4) with (env w2). rewrite He. apply Hup. }
    { change (db w4) with (db w2). by rewrite Hd. }
    rewrite Hrun in Hsave. injection Hsave as <- <-.
    exists m. change (db w4) with (db w2) in Hm. rewrite Hd in Hm. done.
Qed.

Lemma settled_records data : recordsProgress (GeminiWorker.settled data).
Proof. intros p w. by exists (Ret ()). Qed.

Lemma settled_resolves data w : resolvesIn (GeminiWorker.settled data) w.
Proof. by intros p w1 _. Qed.

Lemma taken_records data : recordsProgress (GeminiWorker.taken data).
Proof.
  intros p w. cbn. unfold GeminiWorker.updateProgress.
  destruct (progressFaults _ _); by eexists.
Qed.

Lemma taken_resolves data w : progressUp w → resolvesIn (GeminiWorker.taken data) w.
Proof.
  intros Hup p w1 He. cbn. unfold GeminiWorker.updateProgress.
  by rewrite He, Hup.
Qed.

(** The window is empty when the context names no chatroom, when the read
    fails, and when the chatroom has no message. *)
Lemma window_empty (context : option JobContext) (w : World) :
  noHistory context w ∨ dbFaults (env w) (dbOps w) = true →
  (GeminiWorker.getConversationHistory (context ≫= ctxChatRoomId) w).1 = Ret [].
Proof.
  unfold noHistory, GeminiWorker.getConversationHistory,
    Prisma.message_findMany, Prisma.dbOp.
  destruct (falsy (context ≫= ctxChatRoomId)); [done|]. eff.
  destruct (dbFaults (env w) (dbOps w)); [done|].
  intros [[?|Hnone]|?]; [done| |done]. cbn. by rewrite Hnone.
Qed.

(** One attempt on a job whose progress updates resolve, by the window it
    reads. *)
Lemma processGeminiJob_spec (job : GeminiMessageJob) (w : World) :
  ∃ h out w',
    GeminiWorker.processGeminiJob job w = (out, w')
    ∧ (GeminiWorker.getConversationHistory (jobContext job ≫= ctxChatRoomId) w).1
      = Ret h
    ∧ env w' = env w ∧ queue w' = queue w ∧ now w' = now w
    ∧ match h with
      | _ :: _ =>
          out = Throw (mkError "Failed to call Gemini API")
          ∧ db w' = db w ∧ genCalls w' = genCalls w
      | [] =>
          genCalls w' =
            genCalls w ++ [requestFor (jobUserMessage job) (jobContext job) []]
          ∧ match gemini (env w)
                    (requestFor (jobUserMessage job) (jobContext job) []) with
            | GenRejects _ _ =>
                out = Throw (mkError "Failed to call Gemini API") ∧ db w' = db w
            | GenText text =>
                ∃ r, out = Ret r ∧ prContent (resultGeminiResponse r) = text
            end
      end.
Proof.
  destruct (getConversationHistory_spec (jobContext job ≫= ctxChatRoomId) w)
    as (h & wh & Hh & _).
  destruct (processGeminiJobOn_spec (GeminiWorker.settled job) w
              (settled_records job))
    as (out & w' & Hrun & He & Hq & Hn & _ & _ & Hprecise).
  specialize (Hprecise (settled_resolves job w) h). cbn in Hprecise.
  rewrite Hh in Hprecise. specialize (Hprecise eq_refl).
  exists h, out, w'. split; [exact Hrun|]. split; [by rewrite Hh|].
  do 3 (split; [done|]).
  destruct h; [|done]. destruct Hprecise as [Hg Hcase]. split; [done|].
  destruct (gemini _ _); [|done].
  destruct Hcase as (r & ? & ? & _). by exists r.
Qed.

(** One attempt on a job taken from the queue. *)
Lemma attempt_spec (data : GeminiMessageJob) (w : World) :
  ∃ out w',
    GeminiWorker.processGeminiJobOn (GeminiWorker.taken data) w = (out, w')
    ∧ env w' = env w ∧ queue w' = queue w ∧ now w' = now w
    ∧ (genCalls w' = genCalls w
       ∨ genCalls w' =
           genCalls w ++ [requestFor (jobUserMessage data) (jobContext data) []])
    ∧ (messages (db w') = messages (db w)
       ∨ ∃ m, messages (db w') = messages (db w) ++ [m]
              ∧ messageChatroomId m = jobChatRoomId data ∧ sender m = "ai")
    ∧ (progressUp w →
       ∀ h,
         (GeminiWorker.getConversationHistory
            (jobContext data ≫= ctxChatRoomId) w).1 = Ret h →
         match h with
         | _ :: _ =>
             out = Throw (mkError "Failed to call Gemini API")
             ∧ db w' = db w ∧ genCalls w' = genCalls w
         | [] =>
             genCalls w' =
               genCalls w ++ [requestFor (jobUserMessage data) (jobContext data) []]
             ∧ match gemini (env w)
                       (requestFor (jobUserMessage data) (jobContext data) []) with
               | GenRejects _ _ =>
                   out = Throw (mkError "Failed to call Gemini API")
                   ∧ db w' = db w
               | GenText text =>
                   ∃ r, out = Ret r
                     ∧ prContent (resultGeminiResponse r) = text
                     ∧ ((messages (db w') = messages (db w)
                         ∧ savedMessageId r = "failed-save")
                        ∨ ∃ m, messages (db w') = messages (db w) ++ [m]
                               ∧ messageChatroomId m = jobChatRoomId data
                               ∧ content m = text ∧ sender m = "ai"
                               ∧ (savedMessageId r = "failed-save"
                                  ∨ savedMessageId r = messageId m))
                     ∧ (chatrooms (db w) !! jobChatRoomId data = None →
                        messages (db w') = messages (db w)
                        ∧ savedMessageId r = "failed-save")
                     ∧ (storeUp w →
                        is_Some (chatrooms (db w) !! jobChatRoomId data) →
                        ∃ m, messages (db w') = messages (db w) ++ [m]
                             ∧ savedMessageId r = messageId m)
               end
         end).
Proof.
  destruct (processGeminiJobOn_spec (GeminiWorker.taken data) w
              (taken_records data))
    as (out & w' & Hrun & He & Hq & Hn & Hg & Hm & Hprecise).
  exists out, w'. split; [exact Hrun|]. do 5 (split; [done|]).
  intros Hup. apply Hprecise. by apply taken_resolves.
Qed.

(** With progress updates that resolve, an attempt throws only the
    gateway's error, and then the store is as before. *)
Lemma attempt_outcome (data : GeminiMessageJob) (w : World) out w' :
  progressUp w →
  GeminiWorker.processGeminiJobOn (GeminiWorker.taken data) w = (out, w') →
  (out = Throw (mkError "Failed to call Gemini API") ∧ db w' = db w)
  ∨ ∃ r, out = Ret r
         ∧ (messages (db w') = messages (db w)
            ∨ ∃ m, messages (db w') = messages (db w) ++ [m]
                   ∧ messageChatroomId m = jobChatRoomId data
                   ∧ sender m = "ai"
                   ∧ content m = prContent (resultGeminiResponse r)).
Proof.
  intros Hup Hrun.
  destruct (getConversationHistory_spec (jobContext data ≫= ctxChatRoomId) w)
    as (h & wh & Hh & _).
  destruct (attempt_spec data w) as (out' & w'' & Hrun' & _ & _ & _ & _ & _ & Hp).
  rewrite Hrun in Hrun'. injection Hrun' as <- <-.
  specialize (Hp Hup h). rewrite Hh in Hp. specialize (Hp eq_refl).
  destruct h as [|g h]; [|left; tauto]. destruct Hp as [_ Hp].
  destruct (gemini _ _) as [text|]; [|by left].
  destruct Hp as (r & -> & Htext & Hstored & _). right. exists r.
  split; [done|].
  destruct Hstored as [[? _]|(m & ? & ? & ? & ? & _)]; [by left|].
  right. exists m. repeat split; first [done|congruence].
Qed.

(** ** Jobs submitted by [sendMessage] *)

Lemma snoc_neq {A} (q : list A) (x : A) : q ≠ q ++ [x].
Proof.
  intros H. apply (f_equal List.length) in H.
  rewrite length_app in H. simpl in H. lia.
Qed.

(** If a call of [sendMessage] added a job to the queue, the job's context
    names no chatroom. *)
Lemma sendMessage_job_context req w out w1 q job :
  MessageController.sendMessage req w = (out, w1) →
  queue w = Some q → queue w1 = Some (q ++ [job]) →
  jobContext (queuedData job) ≫= ctxChatRoomId = None
  ∧ jobUserMessage (queuedData job) = bodyContent req.
Proof.
  intros Hsend Hq Hq1.
  assert (queue w1 = queue w → False) as Hchanged.
  { rewrite Hq, Hq1. intros [= Heq]. by apply (snoc_neq q job). }
  unfold MessageController.sendMessage in Hsend.
  destruct (reqUser req) as [uid|]; [|by injection Hsend as _ <-].
  destruct (falsy (paramChatroomId req)); [by injection Hsend as _ <-|].
  apply bind_inv in Hsend as [(message & w0 & Hcreate & Hsend)|(e & Hcreate & _)];
    pose proof (frame_run _ _ _ _ _ (createMessage_frame _ _ _) Hcreate)
      as (He & _ & Hq0 & _); [|by exfalso; auto].
  destruct (bodyProcessWithGemini req).
  2: { eff. injection Hsend as _ <-. exfalso. apply Hchanged. by eff. }
  unfold QueueService.enqueueGeminiMessage, QueueService.queue_add in Hsend.
  eff. rewrite Hq0, Hq in Hsend. eff. rewrite Hq0, Hq in Hsend.
  destruct (queueUp (env w0)); eff.
  - injection Hsend as _ <-. eff. rewrite Hq1 in *.
    injection Hq1 as Heq. apply app_inv_head in Heq. by injection Heq as <-.
  - injection Hsend as _ <-. exfalso. apply Hchanged. by eff.
Qed.

(** C9: a job that [sendMessage] enqueues carries a context object without
    a [chatRoomId]; the worker therefore looks no history up, and the one
    request it sends to the generation service has an empty history,
    whatever the store holds. *)
Theorem sendMessage_jobs_run_on_empty_history
    (req : Request) (w w1 : World) (out : Outcome Response)
    (q : list QueuedJob) (job : QueuedJob) :
  MessageController.sendMessage req w = (out, w1) →
  queue w = Some q → queue w1 = Some (q ++ [job]) →
  jobContext (queuedData job) ≫= ctxChatRoomId = None
  ∧ ∀ w2, ∃ rq,
      genCalls (GeminiWorker.processGeminiJob (queuedData job) w2).2
        = genCalls w2 ++ [rq]
      ∧ reqHistory rq = []
      ∧ GeminiWorker.getConversationHistory
          (jobContext (queuedData job) ≫= ctxChatRoomId) w2 = (Ret [], w2).
Proof.
  intros Hsend Hq Hq1.
  destruct (sendMessage_job_context req w out w1 q job Hsend Hq Hq1) as [Hctx _].
  split; [exact Hctx|]. intros w2.
  destruct (processGeminiJob_spec (queuedData job) w2)
    as (h & o & w' & Hrun & Hwin & _ & _ & _ & Hcase).
  rewrite Hrun. cbn [snd].
  rewrite (window_empty (jobContext (queuedData job)) w2) in Hwin
    by (left; left; by rewrite Hctx).
  injection Hwin as <-. destruct Hcase as [Hg _].
  eexists. split; [exact Hg|]. split; [reflexivity|]. by rewrite Hctx.
Qed.

Lemma sendMessage_jobs_run_on_empty_history_witness :
  let w := Sample.world Sample.envUp Sample.busyRoom in
  List.length (messages (db w)) = 12%nat
  ∧ ∃ out w1 job,
      MessageController.sendMessage Sample.hello w = (out, w1)
      ∧ queue w1 = Some [job]
      ∧ ∃ rq, genCalls (GeminiWorker.processGeminiJob (queuedData job) w1).2 = [rq]
              ∧ reqHistory rq = [].
Proof.
  intros w. split; [reflexivity|].
  destruct (MessageController.sendMessage Sample.hello w) as [out w1] eqn:Hsend.
  assert (queue w1 = queue (MessageController.sendMessage Sample.hello w).2)
    as Hq1 by (by rewrite Hsend).
  assert (genCalls w1 = genCalls (MessageController.sendMessage Sample.hello w).2)
    as Hg0 by (by rewrite Hsend).
  remember (queue w1) as q1 eqn:Eq1. remember (genCalls w1) as g1 eqn:Eg1.
  vm_compute in Hq1, Hg0. subst q1 g1.
  match type of Hq1 with _ = Some [?j] => set (job := j) in * end.
  destruct (sendMessage_jobs_run_on_empty_history Sample.hello w w1 out []
              job Hsend eq_refl Hq1) as [_ Hrun].
  exists out, w1, job. split; [reflexivity|]. split; [exact Hq1|].
  destruct (Hrun w1) as (rq & Hg & Hh & _).
  exists rq. split; [|exact Hh]. by rewrite Hg, Hg0.
Defined.

(** ** Context building when the store is unavailable *)

(** C6, as the code has it: context building never changes the store.
    When the read of the chatroom's messages fails, the failure is logged
    and an empty window is returned in its place, so the job goes on to
    the generation service with an empty history. *)
Theorem context_building_swallows_store_failure
    (job : GeminiMessageJob) (w : World) :
  dbFaults (env w) (dbOps w) = true →
  falsy (jobContext job ≫= ctxChatRoomId) = false →
  (∀ cid w0, db (GeminiWorker.getConversationHistory cid w0).2 = db w0)
  ∧ GeminiWorker.getConversationHistory (jobContext job ≫= ctxChatRoomId) w =
      (Ret [],
       set_logs (logs w ++ [(LError, "Failed to get conversation history:")])
         (set_dbOps (S (dbOps w)) w))
  ∧ ∃ rq,
      genCalls (GeminiWorker.processGeminiJob job w).2 = genCalls w ++ [rq]
      ∧ reqHistory rq = [].
Proof.
  intros Hfault Hroom. split; [|split].
  - intros cid w0.
    destruct (getConversationHistory_spec cid w0)
      as (h & w' & -> & (_ & _ & _ & _ & Hd & _) & _). cbn [snd]. congruence.
  - unfold GeminiWorker.getConversationHistory. rewrite Hroom.
    erewrite tryCatch_throw.
    2: { apply bind_throw. unfold Prisma.message_findMany. by apply dbOp_down. }
    by eff.
  - destruct (processGeminiJob_spec job w)
      as (h & o & w' & Hrun & Hwin & _ & _ & _ & Hcase).
    rewrite Hrun. cbn [snd].
    rewrite (window_empty (jobContext job) w) in Hwin by (by right).
    injection Hwin as <-. destruct Hcase as [Hg _].
    by eexists.
Qed.

Lemma context_building_swallows_store_failure_witness :
  let w := Sample.world Sample.envFirstFault Sample.busyRoom in
  List.length (messages (db w)) = 12%nat
  ∧ (GeminiWorker.getConversationHistory (Some "r1") w).1 = Ret []
  ∧ ∃ rq, genCalls (GeminiWorker.processGeminiJob Sample.job w).2 = [rq]
          ∧ reqHistory rq = [].
Proof.
  intros w.
  destruct (context_building_swallows_store_failure Sample.job w eq_refl eq_refl)
    as (_ & Hh & Hrun).
  split; [reflexivity|]. split; [|exact Hrun].
  change (Some "r1") with (jobContext Sample.job ≫= ctxChatRoomId).
  by rewrite Hh.
Defined.

(** Against C6 as the specification words it: with the store down at the
    moment the window is built for a chatroom of twelve messages, the
    attempt does not fail; the service is called with an empty history and
    the job completes on its first attempt. *)
Lemma context_failure_does_not_fail_the_job :
  let w := Sample.world Sample.envFirstFault Sample.busyRoom in
  dbFaults (env w) (dbOps w) = true
  ∧ (∀ e, (GeminiWorker.processGeminiJob Sample.job w).1 ≠ Throw e)
  ∧ (reqHistory <$> genCalls (GeminiWorker.processGeminiJob Sample.job w).2) = [[]]
  ∧ attemptsMade (deliver (Sample.queued Sample.job) w).1 = 1%nat
  ∧ (∃ r, finalState (deliver (Sample.queued Sample.job) w).1 = Completed r).
Proof.
  vm_compute. repeat split; try done. by eexists.
Qed.

(** ** Delivery: completion and retries *)

Lemma runAttempts_ret opts k made data w r w' :
  GeminiWorker.processGeminiJobOn (GeminiWorker.taken data) w = (Ret r, w') →
  runAttempts opts k made data w =
    ({| finalState := Completed r; attemptsMade := S made |}, w').
Proof. intros H. destruct k; simpl; by rewrite H. Qed.

(** C1, as the code has it.  Generation succeeds only on an empty window,
    since the SDK refuses any other.  When the window the job reads is
    empty, the service answers its request and the progress updates
    resolve, the job completes on its first attempt whether or not the
    reply could be stored, and the result carries the generated text.  With
    the store up and the job's chatroom present the reply is stored: the
    store gains exactly one message, an "ai" message of the job's chatroom
    with the generated text, and the result names it.  Otherwise the store
    gains at most that one message; when the chatroom is missing nothing is
    stored, and the job still completes and names "failed-save" as the
    saved message. *)
Theorem job_completes_whether_or_not_reply_is_stored
    (job : QueuedJob) (w : World) (text : jsstring) :
  progressUp w →
  (GeminiWorker.getConversationHistory
     (jobContext (queuedData job) ≫= ctxChatRoomId) w).1 = Ret [] →
  gemini (env w)
    (requestFor (jobUserMessage (queuedData job)) (jobContext (queuedData job)) [])
    = GenText text →
  ∃ r w',
    deliver job w = ({| finalState := Completed r; attemptsMade := 1 |}, w')
    ∧ prContent (resultGeminiResponse r) = text
    ∧ ((messages (db w') = messages (db w) ∧ savedMessageId r = "failed-save")
       ∨ ∃ m, messages (db w') = messages (db w) ++ [m]
              ∧ messageChatroomId m = jobChatRoomId (queuedData job)
              ∧ content m = text ∧ sender m = "ai"
              ∧ (savedMessageId r = "failed-save"
                 ∨ savedMessageId r = messageId m))
    ∧ (chatrooms (db w) !! jobChatRoomId (queuedData job) = None →
       messages (db w') = messages (db w) ∧ savedMessageId r = "failed-save")
    ∧ (storeUp w →
       is_Some (chatrooms (db w) !! jobChatRoomId (queuedData job)) →
       ∃ m, messages (db w') = messages (db w) ++ [m]
            ∧ savedMessageId r = messageId m
            ∧ messageChatroomId m = jobChatRoomId (queuedData job)
            ∧ content m = text ∧ sender m = "ai").
Proof.
  intros Hprogress Hwindow Hgen.
  destruct (attempt_spec (queuedData job) w)
    as (out & w' & Hrun & _ & _ & _ & _ & _ & Hprecise).
  specialize (Hprecise Hprogress [] Hwindow). cbn in Hprecise.
  rewrite Hgen in Hprecise.
  destruct Hprecise as (_ & r & -> & Htext & Hstored & Hnone & Hsaved).
  exists r, w'. split; [by apply runAttempts_ret|].
  split; [done|]. split; [done|]. split; [done|].
  intros Hup Hroom. destruct (Hsaved Hup Hroom) as (m & Hm & Hid).
  exists m. split; [done|]. split; [done|].
  destruct Hstored as [[Hsame _]|(m' & Hm' & ? & ? & ? & _)].
  - rewrite Hsame in Hm. by apply snoc_neq in Hm.
  - rewrite Hm' in Hm. apply app_inv_head in Hm. by injection Hm as <-.
Qed.

Lemma job_completes_whether_or_not_reply_is_stored_witness :
  let w := Sample.world Sample.envUp Sample.fresh in
  ∃ r w' m,
    deliver (Sample.queued Sample.job) w =
      ({| finalState := Completed r; attemptsMade := 1 |}, w')
    ∧ messages (db w') = [m]
    ∧ savedMessageId r = messageId m
    ∧ content m = Sample.answer ∧ sender m = "ai".
Proof.
  intros w.
  destruct (job_completes_whether_or_not_reply_is_stored
              (Sample.queued Sample.job) w Sample.answer)
    as (r & w' & Hd & _ & _ & _ & Hstored).
  - intros n. reflexivity.
  - reflexivity.
  - reflexivity.
  - destruct Hstored as (m & Hm & Hid & _ & Hc & Hs).
    + intros n. reflexivity.
    + by eexists.
    + exists r, w', m. split; [exact Hd|]. split; [exact Hm|].
      split; [exact Hid|]. split; [exact Hc|exact Hs].
Defined.

(** Against C1 as the specification words it: with the store down the
    reply cannot be persisted, and the job is completed all the same, after
    one attempt, naming "failed-save"; no "ai" message exists. *)
Lemma unsaved_reply_still_completes_the_job :
  let w := Sample.world Sample.envDown Sample.fresh in
  let d := deliver (Sample.queued Sample.job) w in
  (∃ r, finalState d.1 = Completed r
        ∧ savedMessageId r = "failed-save"
        ∧ prContent (resultGeminiResponse r) = Sample.answer)
  ∧ attemptsMade d.1 = 1%nat
  ∧ aiMessages "r1" d.2 = []
  ∧ messages (db d.2) = [].
Proof.
  vm_compute. split; [|done]. by eexists.
Qed.

Lemma window_stable_up cid w w1 :
  storeUp w → env w1 = env w → db w1 = db w →
  (GeminiWorker.getConversationHistory cid w1).1
    = (GeminiWorker.getConversationHistory cid w).1.
Proof.
  intros Hup He Hd.
  unfold GeminiWorker.getConversationHistory, Prisma.message_findMany, Prisma.dbOp.
  destruct (falsy cid); [done|]. eff. rewrite He, Hd, !Hup. done.
Qed.

(** When the service rejects the job's request, every attempt throws the
    same generic error and the queue uses up all the attempts; each attempt
    sends its one request unless the window it read was refused. *)
Lemma runAttempts_rejected opts data cause msg k : ∀ made w,
  progressUp w →
  gemini (env w) (requestFor (jobUserMessage data) (jobContext data) [])
    = GenRejects cause msg →
  ∃ w',
    runAttempts opts k made data w =
      ({| finalState := Failed (mkError "Failed to call Gemini API");
          attemptsMade := (S made + k)%nat |}, w')
    ∧ db w' = db w ∧ env w' = env w
    ∧ (List.length (genCalls w') ≤ List.length (genCalls w) + S k)%nat
    ∧ (noHistory (jobContext data) w →
       List.length (genCalls w') = (List.length (genCalls w) + S k)%nat).
Proof.
  induction k as [|k IH]; intros made w Hprogress Hrej;
    destruct (getConversationHistory_spec (jobContext data ≫= ctxChatRoomId) w)
      as (h & wh & Hh & _);
    destruct (attempt_spec data w)
      as (out & w1 & Hrun & He & _ & _ & _ & _ & Hprecise);
    specialize (Hprecise Hprogress h); rewrite Hh in Hprecise;
    specialize (Hprecise eq_refl);
    assert (out = Throw (mkError "Failed to call Gemini API") ∧ db w1 = db w
            ∧ (List.length (genCalls w1) ≤ List.length (genCalls w) + 1)%nat
            ∧ (noHistory (jobContext data) w →
               List.length (genCalls w1) = (List.length (genCalls w) + 1)%nat))
      as (-> & Hdb & Hle & Heq).
  1,3: destruct h as [|g h];
         [ rewrite Hrej in Hprecise; destruct Hprecise as (Hg & -> & Hdb);
           rewrite Hg, length_app; simpl; by repeat split
         | destruct Hprecise as (-> & Hdb & Hg); rewrite Hg;
           split; [done|]; split; [done|]; split; [lia|];
           intros Hnone;
           pose proof (window_empty (jobContext data) w (or_introl Hnone)) as Hw;
           rewrite Hh in Hw; discriminate Hw ].
  - exists w1. simpl. rewrite Hrun.
    split; [do 2 f_equal; lia|]. by repeat split.
  - simpl. rewrite Hrun.
    destruct (IH (S made) (set_now (now w1 + backoff opts (S made)) w1))
      as (w' & -> & Hdb' & He' & Hle' & Heq').
    { intros n. cbn [env set_now]. rewrite He. apply Hprogress. }
    { cbn [env set_now]. rewrite He. apply Hrej. }
    exists w'. cbn [env db genCalls set_now] in *.
    split; [do 2 f_equal; lia|]. split; [congruence|]. split; [congruence|].
    split; [lia|]. intros Hnone. rewrite Heq'; [rewrite Heq by done; lia|].
    unfold noHistory in *. cbn [db set_now]. by rewrite Hdb.
Qed.

(** With the store up, a window that is not empty is read again at every
    attempt and refused again: the job fails after all its attempts and no
    request is ever sent. *)
Lemma runAttempts_refused opts data g h k : ∀ made w,
  progressUp w → storeUp w →
  (GeminiWorker.getConversationHistory (jobContext data ≫= ctxChatRoomId) w).1
    = Ret (g :: h) →
  ∃ w',
    runAttempts opts k made data w =
      ({| finalState := Failed (mkError "Failed to call Gemini API");
          attemptsMade := (S made + k)%nat |}, w')
    ∧ db w' = db w ∧ genCalls w' = genCalls w.
Proof.
  induction k as [|k IH]; intros made w Hprogress Hup Hwindow;
    destruct (attempt_spec data w)
      as (out & w1 & Hrun & He & _ & _ & _ & _ & Hprecise);
    destruct (Hprecise Hprogress (g :: h) Hwindow) as (-> & Hdb & Hg).
  - exists w1. simpl. rewrite Hrun. split; [do 2 f_equal; lia|]. done.
  - simpl. rewrite Hrun.
    destruct (IH (S made) (set_now (now w1 + backoff opts (S made)) w1))
      as (w' & -> & Hdb' & Hg').
    { intros n. cbn [env set_now]. rewrite He. apply Hprogress. }
    { intros n. cbn [env set_now]. rewrite He. apply Hup. }
    { rewrite <- Hwindow. by apply window_stable_up. }
    exists w'. cbn [db genCalls set_now] in *.
    split; [do 2 f_equal; lia|]. split; congruence.
Qed.

(** C4, as the code has it: the gateway does not classify failures.
    Whatever makes generation fail, the service's rejection of the job's
    request for whatever cause or the SDK's refusal of the history, each
    attempt throws the error "Failed to call Gemini API" and stores
    nothing, and the queue retries the job like any failed job: under the
    default options it is attempted three times and then failed.  A
    rejected job sends one request per attempt whose window was empty, so
    one per attempt when the job has no history; a job whose window is
    refused sends none. *)
Theorem every_generation_failure_is_retried_alike (job : QueuedJob) (w : World) :
  progressUp w →
  (∀ cause msg,
     gemini (env w)
       (requestFor (jobUserMessage (queuedData job))
          (jobContext (queuedData job)) []) = GenRejects cause msg →
     ∃ w',
       deliver job w =
         ({| finalState := Failed (mkError "Failed to call Gemini API");
             attemptsMade := S (Nat.pred (optAttempts (queuedOpts job))) |}, w')
       ∧ db w' = db w
       ∧ (List.length (genCalls w') ≤
            List.length (genCalls w) + S (Nat.pred (optAttempts (queuedOpts job))))%nat
       ∧ (noHistory (jobContext (queuedData job)) w →
          List.length (genCalls w') =
            (List.length (genCalls w)
             + S (Nat.pred (optAttempts (queuedOpts job))))%nat))
  ∧ (storeUp w →
     ∀ g h,
       (GeminiWorker.getConversationHistory
          (jobContext (queuedData job) ≫= ctxChatRoomId) w).1 = Ret (g :: h) →
       ∃ w',
         deliver job w =
           ({| finalState := Failed (mkError "Failed to call Gemini API");
               attemptsMade := S (Nat.pred (optAttempts (queuedOpts job))) |}, w')
         ∧ db w' = db w ∧ genCalls w' = genCalls w)
  ∧ optAttempts QueueConfig.getDefaultQueueOptions = 3%nat.
Proof.
  intros Hprogress. unfold deliver. split; [|split; [|done]].
  - intros cause msg Hrej.
    destruct (runAttempts_rejected (queuedOpts job) (queuedData job) cause msg
                (Nat.pred (optAttempts (queuedOpts job))) 0 w Hprogress Hrej)
      as (w' & Hrun & Hdb & _ & Hle & Heq).
    exists w'. by rewrite Hrun.
  - intros Hup g h Hwindow.
    destruct (runAttempts_refused (queuedOpts job) (queuedData job) g h
                (Nat.pred (optAttempts (queuedOpts job))) 0 w
                Hprogress Hup Hwindow)
      as (w' & Hrun & Hdb & Hg).
    exists w'. by rewrite Hrun.
Qed.

Lemma every_generation_failure_is_retried_alike_witness :
  let w := Sample.world (Sample.envRejecting NetworkFailure) Sample.fresh in
  let w12 := Sample.world Sample.envUp Sample.busyRoom in
  (∃ w',
     deliver (Sample.queued Sample.job) w =
       ({| finalState := Failed (mkError "Failed to call Gemini API");
           attemptsMade := 3 |}, w')
     ∧ db w' = db w ∧ List.length (genCalls w') = 3%nat)
  ∧ (∃ w',
       deliver (Sample.queued Sample.job) w12 =
         ({| finalState := Failed (mkError "Failed to call Gemini API");
             attemptsMade := 3 |}, w')
       ∧ db w' = db w12 ∧ genCalls w' = []).
Proof.
  intros w w12. split.
  - destruct (every_generation_failure_is_retried_alike
                (Sample.queued Sample.job) w (fun _ => eq_refl))
      as (Hrejected & _).
    destruct (Hrejected NetworkFailure "request rejected" eq_refl)
      as (w' & Hd & Hdb & _ & Heq).
    exists w'. split; [exact Hd|]. split; [exact Hdb|].
    apply Heq. right. reflexivity.
  - destruct (every_generation_failure_is_retried_alike
                (Sample.queued Sample.job) w12 (fun _ => eq_refl))
      as (_ & Hrefused & _).
    apply (Hrefused (fun _ => eq_refl)
             (GeminiWorker.toGeminiMessage (Sample.msg 1))
             (GeminiWorker.toGeminiMessage <$> (Sample.msg <$> seq 2 9))).
    vm_compute. reflexivity.
Defined.

(** Against C4 as the specification words it: a content-safety rejection,
    which the specification classes as permanently rejected, is retried
    like a network failure: three attempts, three requests to the service. *)
Lemma safety_rejection_is_retried :
  let w := Sample.world (Sample.envRejecting SafetyBlocked) Sample.fresh in
  let d := deliver (Sample.queued Sample.job) w in
  classify SafetyBlocked = PermanentlyRejected
  ∧ attemptsMade d.1 = 3%nat
  ∧ List.length (genCalls d.2) = 3%nat
  ∧ messages (db d.2) = []
  ∧ d.1 = (deliver (Sample.queued Sample.job)
             (Sample.world (Sample.envRejecting NetworkFailure) Sample.fresh)).1.
Proof. vm_compute. done. Qed.

(** ** Gating at the daily limit *)

Lemma canSendMessage_denied uid w :
  atDailyLimit uid w →
  ∃ r w',
    SubscriptionService.canSendMessage uid w = (Ret r, w')
    ∧ SubscriptionService.canSend r = false
    ∧ keeps eq eq w w'
    ∧ (dbFaults (env w) (dbOps w) = false →
       r = {| SubscriptionService.canSend := false;
              SubscriptionService.reason := Some "Daily message limit exceeded" |}
       ∧ w' = set_dbOps (S (dbOps w)) w).
Proof.
  intros (u & Hu & Hactive & Hlimit).
  unfold SubscriptionService.canSendMessage, Prisma.user_findUnique, Prisma.dbOp.
  eff. destruct (dbFaults (env w) (dbOps w)); eff.
  { eexists _, _. by repeat split. }
  rewrite Hu. rewrite bool_decide_eq_false_2 by (by intros ?).
  rewrite bool_decide_eq_true_2 by done.
  eexists _, _. by repeat split.
Qed.

Lemma tryCatch_rethrow {A} (m : Eff A) lvl msg w e w' :
  m w = (Throw e, w') →
  tryCatch m (fun error => logger lvl msg;; throw error) w =
    (Throw e, set_logs (logs w' ++ [(lvl, msg)]) w').
Proof. intros H. unfold tryCatch. rewrite H. by eff. Qed.

(** A user at the limit cannot store a message: [createMessage] throws
    and leaves the store, the queue and the service alone. *)
Lemma createMessage_denied room uid data w :
  MessageService.dataSender data = "user" → atDailyLimit uid w →
  ∃ e w',
    MessageService.createMessage room uid data w = (Throw e, w')
    ∧ keeps eq eq w w'.
Proof.
  intros Hsender Hlimit. unfold MessageService.createMessage.
  assert (∀ w', keeps eq eq w w' →
            keeps eq eq w (set_logs (logs w' ++ [(LError, "Create message failed:")]) w'))
    as Hlog by (intros w' (?&?&?&?&?&?); by solve_keeps).
  destruct (_ || _).
  { eexists _, _. split; [by apply tryCatch_rethrow|]. by apply Hlog. }
  case_bool_decide.
  { eexists _, _. split; [by apply tryCatch_rethrow|]. by apply Hlog. }
  destruct (negb _).
  { eexists _, _. split; [by apply tryCatch_rethrow|]. by apply Hlog. }
  destruct (Prisma.chatroom_findFirstOwned room uid w) as [[[c|]|e] w0] eqn:E0;
    pose proof (frame_run _ _ _ _ _
      (frame_chatroom_findFirstOwned eq eq room uid) E0) as F0.
  - assert (atDailyLimit uid w0) as Hlimit0.
    { destruct F0 as (He & _ & _ & _ & Hd & _). unfold atDailyLimit.
      by rewrite He, <- Hd. }
    destruct (canSendMessage_denied uid w0 Hlimit0) as (r & w1 & Hgate & Hno & F1 & _).
    eexists _, _. split.
    + apply tryCatch_rethrow. erewrite bind_ret by exact E0.
      apply bind_throw. rewrite bool_decide_eq_true_2 by done.
      erewrite bind_ret by exact Hgate. by rewrite Hno.
    + apply Hlog. by etrans.
  - eexists _, _. split.
    + apply tryCatch_rethrow. by erewrite bind_ret by exact E0.
    + by apply Hlog.
  - eexists _, _. split.
    + apply tryCatch_rethrow. by apply bind_throw.
    + by apply Hlog.
Qed.

(** C5, as the code has it: for a user who exists, whose subscription is
    active and whose daily count has reached the tier's limit,
    [canSendMessage] answers no with reason "Daily message limit exceeded".
    The gate stands on the write path: [sendMessage] for such a user stores
    nothing, enqueues nothing and calls the service not at all. *)
Theorem daily_limit_gates_the_write_path (uid : string) (w : World) :
  atDailyLimit uid w →
  (dbFaults (env w) (dbOps w) = false →
   SubscriptionService.canSendMessage uid w =
     (Ret {| SubscriptionService.canSend := false;
             SubscriptionService.reason := Some "Daily message limit exceeded" |},
      set_dbOps (S (dbOps w)) w))
  ∧ ∀ req, reqUser req = Some uid →
      ∃ out w',
        MessageController.sendMessage req w = (out, w')
        ∧ db w' = db w ∧ queue w' = queue w ∧ genCalls w' = genCalls w
        ∧ ∀ res, out = Ret res → resCode res = 400.
Proof.
  intros Hlimit. split.
  - intros Hup.
    destruct (canSendMessage_denied uid w Hlimit) as (r & w' & -> & _ & _ & Hr).
    by destruct (Hr Hup) as [-> ->].
  - intros req Hu. unfold MessageController.sendMessage. rewrite Hu.
    destruct (falsy (paramChatroomId req)).
    { eexists _, _. split; [reflexivity|]. repeat split; try done.
      by intros res [= <-]. }
    match goal with
    | |- context [MessageService.createMessage ?r ?u ?d] =>
        destruct (createMessage_denied r u d w eq_refl Hlimit)
          as (e & w' & Hthrow & (_ & _ & Hq & _ & Hd & Hg))
    end.
    exists (Throw e), w'. split; [by apply bind_throw|].
    repeat split; try done.
Qed.

Lemma daily_limit_gates_the_write_path_witness :
  let w := Sample.world Sample.envUp Sample.atLimit in
  (SubscriptionService.canSendMessage "u1" w).1 =
    Ret {| SubscriptionService.canSend := false;
           SubscriptionService.reason := Some "Daily message limit exceeded" |}
  ∧ ∃ out w', MessageController.sendMessage Sample.hello w = (out, w')
              ∧ db w' = db w ∧ queue w' = queue w ∧ genCalls w' = genCalls w.
Proof.
  intros w.
  assert (atDailyLimit "u1" w) as Hlimit.
  { exists (Sample.user 5 "active"). split; [reflexivity|].
    split; [reflexivity|]. vm_compute. discriminate. }
  destruct (daily_limit_gates_the_write_path "u1" w Hlimit) as [Hgate Hsend].
  split.
  - by rewrite (Hgate eq_refl).
  - destruct (Hsend Sample.hello eq_refl) as (out & w' & H1 & H2 & H3 & H4 & _).
    by exists out, w'.
Defined.

(** Against C5 as the specification words it: the worker never consults
    the ledger.  A job enqueued through the test endpoint for a user at the
    limit is processed: one request reaches the service and an AI reply is
    stored.  And a user at the limit whose subscription is not active is
    refused for that other reason. *)
Lemma worker_does_not_gate :
  let w := Sample.world Sample.envUp Sample.atLimit in
  let w1 := (QueueController.enqueueTestMessage Sample.testRequest w).2 in
  let delivered := (fun job => (deliver job w1).2) <$> (queue w1 ≫= head) in
  (SubscriptionService.canSendMessage "u1" w).1 =
    Ret {| SubscriptionService.canSend := false;
           SubscriptionService.reason := Some "Daily message limit exceeded" |}
  ∧ (jobUserId ∘ queuedData <$> default [] (queue w1)) = ["u1"]
  ∧ (List.length ∘ genCalls <$> delivered) = Some 1%nat
  ∧ (List.length ∘ aiMessages "r1" <$> delivered) = Some 1%nat
  ∧ (SubscriptionService.canSendMessage "u1"
       (Sample.world Sample.envUp Sample.lapsedAtLimit)).1 =
      Ret {| SubscriptionService.canSend := false;
             SubscriptionService.reason := Some "Inactive subscription" |}.
Proof. repeat split; vm_compute; reflexivity. Qed.

(** ** The conversation window *)

(** With the store up, the worker's window is the first ten of the
    chatroom's messages in ascending order of creation. *)
Lemma getConversationHistory_reads_oldest (room : string) (w : World) :
  room ≠ EmptyString → dbFaults (env w) (dbOps w) = false →
  (GeminiWorker.getConversationHistory (Some room) w).1 =
    Ret (GeminiWorker.toGeminiMessage <$>
           take 10 (merge_sort Prisma.createdAsc
                      (filter (fun m => messageChatroomId m = room)
                         (messages (db w))))).
Proof.
  intros Hroom Hup. unfold GeminiWorker.getConversationHistory.
  rewrite (falsy_Some _ Hroom). unfold Prisma.message_findMany.
  erewrite tryCatch_ret; [reflexivity|].
  erewrite bind_ret; [reflexivity|]. by rewrite dbOp_up.
Qed.

(** C2 on a chatroom of twelve messages: the worker's window is messages
    1 to 10, the oldest ten, not messages 3 to 12; the history query of
    the read path, on the same store, returns messages 3 to 12. *)
Theorem window_of_twelve_is_the_oldest_ten :
  let w := Sample.world Sample.envUp Sample.busyRoom in
  (GeminiWorker.getConversationHistory (Some "r1") w).1 =
    Ret (GeminiWorker.toGeminiMessage <$> (Sample.msg <$> seq 1 10))
  ∧ (MessageService.getMessageHistory "r1" "u1" 10 w).1 =
      Ret (Sample.msg <$> seq 3 10)
  ∧ (GeminiWorker.getConversationHistory (Some "r1") w).1 ≠
      Ret (GeminiWorker.toGeminiMessage <$> (Sample.msg <$> seq 3 10)).
Proof.
  vm_compute. repeat split. discriminate.
Qed.

(** ** Usage tracking: one call, calls in sequence, calls that overlap *)

(** The steps of [Interleaving.step], run without interruption, are
    [trackMessageUsage]. *)
Lemma runAlone_is_trackMessageUsage (uid : string) (w : World) :
  Interleaving.runAlone uid w =
    match SubscriptionService.trackMessageUsage uid w with
    | (Ret _, w') => (Interleaving.Returned, w')
    | (Throw e, w') => (Interleaving.Rejected e, w')
    end.
Proof.
  unfold Interleaving.runAlone, Interleaving.step, Interleaving.caught,
    SubscriptionService.trackMessageUsage.
  unfold_store. crunch; done.
Qed.

(** With the store up and the user present, one call returns and raises
    today's count by one; the user's row carries the new count. *)
Lemma trackMessageUsage_increments (uid : string) (w : World) :
  storeUp w → is_Some (users (db w) !! uid) →
  ∃ w',
    SubscriptionService.trackMessageUsage uid w = (Ret (), w')
    ∧ usageToday uid w' = usageToday uid w + 1
    ∧ dailyMessageCount <$> users (db w') !! uid = Some (usageToday uid w')
    ∧ storeUp w' ∧ is_Some (users (db w') !! uid).
Proof.
  intros Hup [u Hu]. unfold SubscriptionService.trackMessageUsage, usageToday.
  unfold_store. unfold storeUp in *. eff. rewrite !Hup.
  destruct (dailyUsage (db w) !! _) as [c|] eqn:Hc; eff;
    rewrite ?Hup, ?Hc; eff; rewrite ?Hup, Hu; eff;
    (eexists; split; [reflexivity|]); eff;
    rewrite !lookup_insert_eq; by repeat split.
Qed.

Lemma trackSequentially_spec (M : nat) (uid : string) : ∀ w,
  storeUp w → is_Some (users (db w) !! uid) →
  ∃ w',
    trackSequentially M uid w = (Ret (), w')
    ∧ usageToday uid w' = usageToday uid w + Z.of_nat M
    ∧ ((0 < M)%nat →
       dailyMessageCount <$> users (db w') !! uid = Some (usageToday uid w'))
    ∧ storeUp w' ∧ is_Some (users (db w') !! uid).
Proof.
  induction M as [|M IH]; intros w Hup Hu.
  - exists w. repeat split; try done; lia.
  - destruct (trackMessageUsage_increments uid w Hup Hu)
      as (w1 & Hcall & Hcount & Huser & Hup1 & Hu1).
    destruct (IH w1 Hup1 Hu1) as (w' & Hrest & Hcount' & Huser' & Hup' & Hu').
    exists w'. split; [|split; [|split; [|done]]].
    + simpl. by erewrite bind_ret by exact Hcall.
    + rewrite Hcount', Hcount. lia.
    + intros _. destruct M as [|M]; [|apply Huser'; lia].
      simpl in Hrest. injection Hrest as <-. exact Huser.
Qed.

(** C3, as the code has it: [M] calls of [trackMessageUsage] for one user
    that do not overlap, each awaited before the next starts, leave
    today's count at the initial count plus [M], and the user's row
    carries that count. *)
Theorem sequential_tracking_counts_every_call (M : nat) (uid : string) (w : World) :
  storeUp w → is_Some (users (db w) !! uid) →
  ∃ w',
    trackSequentially M uid w = (Ret (), w')
    ∧ usageToday uid w' = usageToday uid w + Z.of_nat M
    ∧ ((0 < M)%nat →
       dailyMessageCount <$> users (db w') !! uid = Some (usageToday uid w')).
Proof.
  intros Hup Hu.
  destruct (trackSequentially_spec M uid w Hup Hu) as (w' & H1 & H2 & H3 & _).
  by exists w'.
Qed.

Lemma sequential_tracking_counts_every_call_witness :
  let w := Sample.world Sample.envUp Sample.atLimit in
  usageToday "u1" w = 5
  ∧ ∃ w', trackSequentially 3 "u1" w = (Ret (), w') ∧ usageToday "u1" w' = 8.
Proof.
  intros w. split; [reflexivity|].
  destruct (sequential_tracking_counts_every_call 3 "u1" w
              (fun _ => eq_refl) (mk_is_Some _ _ eq_refl))
    as (w' & Hrun & Hcount & _).
  exists w'. split; [exact Hrun|]. rewrite Hcount. reflexivity.
Defined.

(** Against C3 as the specification words it: the increment is a read
    followed by a separate write of the value read plus one.  Two calls
    that overlap, each reading before the other writes, both return, and
    the count goes from 5 to 6, not to 7. *)
Lemma overlapping_calls_lose_an_update :
  let w := Sample.world Sample.envUp Sample.atLimit in
  let r := Interleaving.run "u1" [0; 1; 0; 1; 0; 1]%nat
             [Interleaving.AtStart; Interleaving.AtStart] w in
  usageToday "u1" w = 5
  ∧ r.1 = [Interleaving.Returned; Interleaving.Returned]
  ∧ usageToday "u1" r.2 = 6
  ∧ (Interleaving.run "u1" [0; 0; 0]%nat [Interleaving.AtStart] w).1
      = [(Interleaving.runAlone "u1" w).1].
Proof. repeat split; vm_compute; reflexivity. Qed.

(** ** Every interleaving of overlapping calls *)

Lemma written_insert pool i c c' :
  pool !! i = Some c →
  (written (<[i := c']> pool) + hasWritten c = written pool + hasWritten c')%nat.
Proof.
  revert i. induction pool as [|x pool IH]; intros [|i] H; try done.
  - simpl in H. simplify_eq. simpl. lia.
  - specialize (IH i H). simpl. lia.
Qed.

Section Pool.
Variables (uid : string) (c0 : Z) (e : Env) (t : Z).
Hypothesis Hup : ∀ n, dbFaults e n = false.

Lemma callerOk_mono (W W' : nat) (du du' : gmap (string * Z) Z) c :
  (W ≤ W')%nat → (∀ k, is_Some (du !! k) → is_Some (du' !! k)) →
  callerOk uid c0 e t W du c → callerOk uid c0 e t W' du' c.
Proof.
  intros HW Hdu. destruct c as [|today [v|]| | |]; try done.
  intros (? & ? & ?). repeat split; try done; try lia. by apply Hdu.
Qed.

Lemma poolInvariant_step pool w i c c' w' :
  poolInvariant uid c0 e t pool w → pool !! i = Some c →
  env w' = env w → now w' = now w → is_Some (users (db w') !! uid) →
  (hasWritten c ≤ hasWritten c')%nat →
  (∀ k, is_Some (dailyUsage (db w) !! k) → is_Some (dailyUsage (db w') !! k)) →
  (dailyUsage (db w') !! (uid, SubscriptionService.startOfDay e t) = None →
   c0 = 0 ∧ written (<[i := c']> pool) = 0%nat) →
  c0 ≤ usageToday uid w' ≤ c0 + Z.of_nat (written (<[i := c']> pool)) →
  ((0 < written (<[i := c']> pool))%nat → c0 + 1 ≤ usageToday uid w') →
  callerOk uid c0 e t (written (<[i := c']> pool)) (dailyUsage (db w')) c' →
  poolInvariant uid c0 e t (<[i := c']> pool) w'.
Proof.
  intros (He & Hn & Hu & Habs & Hcur & Hpos & Hall) Hi He' Hn' Hu' Hw Hdu
    Habs' Hcur' Hpos' Hc'.
  pose proof (written_insert pool i c c' Hi) as HW.
  split; [congruence|]. split; [congruence|].
  do 4 (split; [done|]).
  apply Forall_insert; [|done].
  eapply Forall_impl; [exact Hall|]. intros x. apply callerOk_mono; [lia|done].
Qed.

Lemma step_preserves pool w i c :
  poolInvariant uid c0 e t pool w → pool !! i = Some c →
  poolInvariant uid c0 e t (<[i := (Interleaving.step uid c w).1]> pool)
    (Interleaving.step uid c w).2.
Proof.
  intros Hinv Hi. assert (Hinv' := Hinv).
  destruct Hinv' as (He & Hn & Hu & Habs & Hcur & Hpos & Hall).
  pose proof (written_insert pool i c (Interleaving.step uid c w).1 Hi) as Hw.
  assert (Hc := Hi). eapply Forall_lookup_1 in Hc; [|exact Hall].
  unfold usageToday in Hcur, Hpos. rewrite He, Hn in Hcur, Hpos.
  destruct c as [|today [v|]| count | |err].
  - (* the read *)
    unfold Interleaving.step, Prisma.dailyUsage_findUnique, Prisma.dbOp in *.
    rewrite He, Hn, Hup in *. cbn [fst snd] in *.
    eapply poolInvariant_step; try done; simpl in Hw;
      replace (written _) with (written pool) by lia;
      unfold usageToday; simpl; rewrite ?He, ?Hn; try done.
    destruct (dailyUsage (db w) !! _) as [v|] eqn:Hv; simpl.
    + simpl in Hcur. done.
    + split; [done|]. by apply Habs.
  - (* the update of a row that was read *)
    destruct Hc as (-> & Hv & [x Hx]).
    unfold Interleaving.step, Prisma.dailyUsage_update, Prisma.dbOp in *.
    rewrite He, Hup, Hx in *. cbn [fst snd] in *. simpl in Hw.
    eapply poolInvariant_step; try done; simpl;
      unfold usageToday; simpl; rewrite ?He, ?Hn, ?lookup_insert_eq; simpl;
      try lia.
    + intros k Hk. rewrite lookup_insert. by case_decide.
    + done.
  - (* the creation of a row that was absent at the read *)
    destruct Hc as (-> & Hc0).
    unfold Interleaving.step, Prisma.dailyUsage_create, Prisma.dbOp,
      Interleaving.caught in *.
    rewrite He, Hup in *.
    destruct (dailyUsage (db w) !! _) as [x|] eqn:Hx; cbn [fst snd] in *;
      simpl in Hw.
    + eapply poolInvariant_step; try done; simpl;
        unfold usageToday; simpl; rewrite ?He, ?Hn, ?Hx; simpl;
        replace (written _) with (written pool) by lia; try done.
    + destruct (Habs eq_refl) as [_ HW0].
      eapply poolInvariant_step; try done; simpl;
        unfold usageToday; simpl; rewrite ?He, ?Hn, ?lookup_insert_eq; simpl;
        try lia.
      * intros k Hk. rewrite lookup_insert. by case_decide.
      * done.
  - (* the update of the user's row *)
    destruct Hu as [u Hu'].
    unfold Interleaving.step, Prisma.user_update, Prisma.dbOp in *.
    unfold logger, modifyWorld, mbind, Eff_bind in *.
    rewrite He, Hup, Hu' in *. cbn [fst snd] in *. simpl in Hw.
    assert (written (<[i:=Interleaving.Returned]> pool) = written pool) as HW
      by lia.
    eapply poolInvariant_step; try done; simpl;
      unfold usageToday; simpl; rewrite ?He, ?Hn, ?HW; try done.
    rewrite lookup_insert_eq. by eexists.
  - simpl. by rewrite list_insert_id.
  - simpl. by rewrite list_insert_id.
Qed.

Lemma run_preserves schedule : ∀ pool w,
  poolInvariant uid c0 e t pool w →
  poolInvariant uid c0 e t (Interleaving.run uid schedule pool w).1
    (Interleaving.run uid schedule pool w).2.
Proof.
  induction schedule as [|i rest IH]; intros pool w Hinv; [done|].
  simpl. destruct (pool !! i) as [c|] eqn:Hi; [|by apply IH].
  pose proof (step_preserves pool w i c Hinv Hi) as Hstep.
  destruct (Interleaving.step uid c w) as [c' w']. by apply IH.
Qed.
End Pool.

Lemma written_le_length pool : (written pool ≤ List.length pool)%nat.
Proof.
  induction pool as [|c pool IH]; [done|]. simpl. destruct c; simpl; lia.
Qed.

Lemma run_length uid schedule : ∀ pool w,
  List.length (Interleaving.run uid schedule pool w).1 = List.length pool.
Proof.
  induction schedule as [|i rest IH]; intros pool w; [done|].
  simpl. destruct (pool !! i) as [c|]; [|by apply IH].
  destruct (Interleaving.step uid c w) as [c' w'].
  by rewrite IH, length_insert.
Qed.

(** X20: whatever the schedule, [M] overlapping calls of
    [trackMessageUsage] never count more than [M] messages, and never fewer
    than one once a write has resolved: updates can be lost, not
    invented. *)
Lemma overlapping_calls_never_overcount (M : nat) (uid : string)
    (schedule : list nat) (w : World) :
  storeUp w → is_Some (users (db w) !! uid) →
  let r := Interleaving.run uid schedule (replicate M Interleaving.AtStart) w in
  usageToday uid w ≤ usageToday uid r.2 ≤ usageToday uid w + Z.of_nat M
  ∧ ((0 < written r.1)%nat → usageToday uid w + 1 ≤ usageToday uid r.2).
Proof.
  intros Hup Hu r.
  assert (poolInvariant uid (usageToday uid w) (env w) (now w)
            (replicate M Interleaving.AtStart) w) as Hinit.
  { assert (written (replicate M Interleaving.AtStart) = 0%nat) as HW
      by (induction M; [done|by simpl]).
    split; [done|]. split; [done|]. split; [done|]. rewrite HW.
    split; [|split; [lia|split; [lia|]]].
    - intros Habs. unfold usageToday. by rewrite Habs.
    - apply Forall_replicate. done. }
  pose proof (run_preserves uid _ (env w) (now w) Hup schedule _ _ Hinit)
    as (_ & _ & _ & _ & Hcur & Hpos & _).
  fold r in Hcur, Hpos. split; [|done].
  pose proof (written_le_length r.1) as Hle.
  unfold r in Hle at 2. rewrite run_length, length_replicate in Hle. lia.
Qed.

Lemma overlapping_calls_never_overcount_witness :
  let w := Sample.world Sample.envUp Sample.fresh in
  let r := Interleaving.run "u1" [0; 1; 0; 1; 0; 1; 0; 1]%nat
             (replicate 2 Interleaving.AtStart) w in
  usageToday "u1" w ≤ usageToday "u1" r.2 ≤ usageToday "u1" w + 2
  ∧ ((0 < written r.1)%nat → usageToday "u1" w + 1 ≤ usageToday "u1" r.2).
Proof.
  apply (overlapping_calls_never_overcount 2 "u1" [0; 1; 0; 1; 0; 1; 0; 1]%nat
           (Sample.world Sample.envUp Sample.fresh)).
  - intros n. reflexivity.
  - eexists. reflexivity.
Defined.

(** ** The gate and the charge on the write path *)

(** X1: when the read of the user's row succeeds, [canSendMessage] costs
    one store operation and allows the message exactly when the user
    exists, the subscription is "active" and the [dailyMessageCount] of the
    user's row is below the limit of the tier (the pro limit for tier
    "pro", the basic limit for any other tier).  An allowed answer carries
    no reason; an unknown user is refused with "User not found". *)
Theorem canSendMessage_decides (uid : string) (w : World) :
  dbFaults (env w) (dbOps w) = false →
  ∃ r,
    SubscriptionService.canSendMessage uid w = (Ret r, set_dbOps (S (dbOps w)) w)
    ∧ (SubscriptionService.canSend r = true ↔
       ∃ u, users (db w) !! uid = Some u
            ∧ subscriptionStatus u = "active"
            ∧ dailyMessageCount u <
                (if bool_decide (subscriptionTier u = "pro")
                 then proTierDailyLimit (env w) else basicTierDailyLimit (env w)))
    ∧ (SubscriptionService.canSend r = true → SubscriptionService.reason r = None)
    ∧ (users (db w) !! uid = None →
       SubscriptionService.reason r = Some "User not found").
Proof.
  intros Hup.
  unfold SubscriptionService.canSendMessage, Prisma.user_findUnique, Prisma.dbOp,
    SubscriptionService.getSubscriptionLimits.
  eff. rewrite Hup. eff.
  destruct (users (db w) !! uid) as [u|] eqn:Hu.
  - case_bool_decide as Hs.
    + eexists. split; [reflexivity|]. simpl. split; [|done].
      split; [done|]. intros (u' & [= <-] & ? & _). done.
    + destruct (bool_decide (subscriptionTier u = "pro")) eqn:Ht; simpl;
        (destruct (bool_decide (_ ≤ dailyMessageCount u)) eqn:Hl;
         [apply bool_decide_eq_true in Hl|apply bool_decide_eq_false in Hl]);
        (eexists; split; [reflexivity|]); simpl;
        (split; [|done]);
        (split; [try done; intros _; exists u; rewrite Ht;
                 (split; [done|split; [done|lia]])
                |try done; intros (u' & [= <-] & _ & Hlt);
                 rewrite Ht in Hlt; lia]).
  - eexists. split; [reflexivity|]. simpl. split; [|done].
    split; [done|]. by intros (u' & ? & _).
Qed.

Lemma canSendMessage_decides_witness :
  let w := Sample.world Sample.envUp Sample.fresh in
  dbFaults (env w) (dbOps w) = false
  ∧ ∃ r, (SubscriptionService.canSendMessage "u1" w).1 = Ret r
         ∧ SubscriptionService.canSend r = true
         ∧ SubscriptionService.reason r = None.
Proof.
  split; [reflexivity|].
  destruct (canSendMessage_decides "u1"
              (Sample.world Sample.envUp Sample.fresh) eq_refl)
    as (r & Hrun & Hiff & Hreason & _).
  assert (SubscriptionService.canSend r = true) as Hyes.
  { apply Hiff. exists (Sample.user 0 "active").
    split; [reflexivity|]. split; [reflexivity|]. vm_compute. reflexivity. }
  exists r. split; [by rewrite Hrun|]. split; [done|]. by apply Hreason.
Defined.

#[global] Instance sameLedger_preorder : PreOrder sameLedger.
Proof.
  split; [by intros d|].
  intros d1 d2 d3 [? ?] [? ?]. split; congruence.
Qed.

(** A call of [trackMessageUsage] that returns has raised today's count by
    one and written the new count to the user's row. *)
Lemma trackMessageUsage_ret (uid : string) (w w' : World) :
  SubscriptionService.trackMessageUsage uid w = (Ret (), w') →
  usageToday uid w' = usageToday uid w + 1
  ∧ userCount uid w' = Some (usageToday uid w')
  ∧ env w' = env w ∧ now w' = now w.
Proof.
  unfold SubscriptionService.trackMessageUsage, usageToday, userCount.
  unfold_store. intros H. crunch. all: rewrite ?lookup_insert_eq; eff. 
  all: match goal with Hx : dailyUsage _ !! _ = _ |- _ => rewrite Hx in * end.
  all: simplify_eq/=; by repeat split.
Qed.

Lemma frame_message_create_ledger t room text author kind :
  Frame (keeps sameLedger eq) (Prisma.message_create t room text author kind).
Proof. apply frame_dbOp; [apply _..|]. by intros d. Qed.

Lemma frame_chatroom_update_ledger id t :
  Frame (keeps sameLedger eq) (Prisma.chatroom_update id t).
Proof. apply frame_dbOp; [apply _..|]. intros d. by case_match. Qed.

Lemma usageToday_keeps uid w w' :
  keeps sameLedger eq w w' →
  usageToday uid w' = usageToday uid w ∧ userCount uid w' = userCount uid w.
Proof.
  intros (He & Hn & _ & _ & [Hd Hu] & _). unfold usageToday, userCount.
  by rewrite He, Hn, Hd, Hu.
Qed.

(** X2: a user message that [createMessage] accepts is charged exactly
    once: the day's usage row goes up by one, and the count on the user's
    row is set to that new value. *)
Theorem createMessage_charges_once
    (room uid : string) (data : MessageService.CreateMessageData)
    (w w' : World) (message : Message) :
  MessageService.dataSender data = "user" →
  MessageService.createMessage room uid data w = (Ret message, w') →
  usageToday uid w' = usageToday uid w + 1
  ∧ userCount uid w' = Some (usageToday uid w').
Proof.
  intros Hsender H. unfold MessageService.createMessage in H.
  apply tryCatch_inv_ret in H; [|apply (log_rethrow _ _ id)].
  destruct (_ || _); [done|].
  case_bool_decide; [done|]. case_match; [done|].
  rewrite !(bool_decide_eq_true_2 _ Hsender) in H.
  inv_bind H as c w0 E0. destruct c as [c|]; [|done].
  apply (frame_run _ _ _ _ _ (frame_chatroom_findFirstOwned sameLedger eq _ _))
    in E0.
  inv_bind H as u1 w1 E1. inv_bind E1 as r wr Er.
  apply (frame_run _ _ _ _ _ (canSendMessage_frame sameLedger eq uid)) in Er.
  destruct (SubscriptionService.canSend r); [|done]. injection E1 as _ <-.
  inv_bind H as x2 w2 E2. apply getWorld_inv in E2 as [-> ->].
  inv_bind H as m w3 E3.
  apply (frame_run _ _ _ _ _ (frame_message_create_ledger _ _ _ _ _)) in E3.
  inv_bind H as x4 w4 E4. apply getWorld_inv in E4 as [-> ->].
  inv_bind H as u5 w5 E5.
  apply (frame_run _ _ _ _ _ (frame_chatroom_update_ledger _ _)) in E5.
  inv_bind H as u6 w6 E6. destruct u6. apply trackMessageUsage_ret in E6 as (Hc & Hu & He & Hn).
  inv_bind H as u7 w7 E7.
  eapply (frame_run (keeps sameLedger eq)) in E7; [|by frame].
  inv_bind H as u8 w8 E8.
  eapply (frame_run (keeps sameLedger eq)) in E8; [|by frame].
  injection H as _ <-.
  assert (keeps sameLedger eq w w5) as Hpre by (do 3 (etrans; [eassumption|]); done).
  assert (keeps sameLedger eq w6 w8) as Hpost by (by etrans).
  apply (usageToday_keeps uid) in Hpre as [Hpre _].
  apply (usageToday_keeps uid) in Hpost as [Hpost Hpost'].
  rewrite Hpost, Hpost', Hu, Hc, Hpre. done.
Qed.

Lemma createMessage_charges_once_witness :
  let w := Sample.world Sample.envUp Sample.fresh in
  ∃ message w',
    MessageService.createMessage "r1" "u1" (Sample.userData (u16 "  hello ")) w
      = (Ret message, w')
    ∧ usageToday "u1" w = 0
    ∧ usageToday "u1" w' = 1
    ∧ userCount "u1" w' = Some 1.
Proof.
  eexists _, _. split; [vm_compute; reflexivity|].
  split; [reflexivity|].
  refine (createMessage_charges_once "r1" "u1"
            (Sample.userData (u16 "  hello "))
            (Sample.world Sample.envUp Sample.fresh) _ _ eq_refl _).
  vm_compute. reflexivity.
Defined.

Lemma createMessage_ai_frame room uid data :
  MessageService.dataSender data = "ai" →
  Frame (keeps sameLedger eq) (MessageService.createMessage room uid data).
Proof.
  intros Hsender. unfold MessageService.createMessage.
  rewrite !(bool_decide_eq_false_2 (MessageService.dataSender data = "user"))
    by (rewrite Hsender; done).
  frame.
  - apply frame_message_create_ledger.
  - apply frame_chatroom_update_ledger.
Qed.

(** X3: a message with sender "ai" passes through [createMessage] without
    any write to the usage rows or the user rows, whatever the outcome, and
    without touching the queue or the generation service.  With the store
    up, an owned chatroom and valid content it is stored, whatever the
    user's daily count. *)
Theorem ai_messages_are_neither_gated_nor_charged
    (room uid : string) (data : MessageService.CreateMessageData) (w : World) :
  MessageService.dataSender data = "ai" →
  keeps sameLedger eq w (MessageService.createMessage room uid data w).2
  ∧ (storeUp w →
     (∃ c, chatrooms (db w) !! room = Some c ∧ chatroomUserId c = uid) →
     trim (MessageService.dataContent data) ≠ [] →
     jslength (MessageService.dataContent data) ≤ 4000 →
     ∃ message w',
       MessageService.createMessage room uid data w = (Ret message, w')).
Proof.
  intros Hsender. split.
  - by apply createMessage_ai_frame.
  - intros Hup (c & Hc & Hown) Hblank Hlen.
    unfold MessageService.createMessage.
    rewrite (bool_decide_eq_false_2 (MessageService.dataContent data = [])).
    2: { intros Hnil. apply Hblank. by rewrite Hnil. }
    rewrite (bool_decide_eq_false_2 (jslength _ = 0)).
    2: { unfold jslength. destruct (trim _); [done|]. simpl. lia. }
    rewrite (bool_decide_eq_false_2 (4000 < _)) by lia.
    rewrite (bool_decide_eq_true_2 (_ ∈ _)) by (rewrite Hsender; set_solver).
    rewrite !(bool_decide_eq_false_2 (MessageService.dataSender data = "user"))
      by (rewrite Hsender; done).
    unfold_store. unfold storeUp in Hup. eff.
    cbn [orb negb].
    do 4 (eff; rewrite ?Hup, ?Hc, ?(bool_decide_eq_true_2 _ Hown)).
    eff. by eexists _, _.
Qed.

Lemma ai_messages_are_neither_gated_nor_charged_witness :
  let w := Sample.world Sample.envUp Sample.atLimit in
  let data := {| MessageService.dataContent := u16 "Hi there";
                 MessageService.dataSender := "ai";
                 MessageService.dataMessageType := None |} in
  (SubscriptionService.canSendMessage "u1" w).1 =
    Ret {| SubscriptionService.canSend := false;
           SubscriptionService.reason := Some "Daily message limit exceeded" |}
  ∧ (∃ message w', MessageService.createMessage "r1" "u1" data w = (Ret message, w'))
  ∧ usageToday "u1" (MessageService.createMessage "r1" "u1" data w).2
      = usageToday "u1" w.
Proof.
  intros w data.
  destruct (ai_messages_are_neither_gated_nor_charged "r1" "u1" data w eq_refl)
    as [Hkeeps Hruns].
  split; [reflexivity|]. split.
  - apply Hruns.
    + intros n. reflexivity.
    + exists Sample.room. split; reflexivity.
    + vm_compute. discriminate.
    + vm_compute. discriminate.
  - vm_compute. reflexivity.
Defined.

(** ** Trimming *)

Lemma trimStart_suffix (s : jsstring) : ∃ pre, s = pre ++ trimStart s.
Proof.
  induction s as [|c s [pre IH]]; [by exists []|]. simpl.
  destruct (isWhiteSpace c); [|by exists []].
  exists (c :: pre). simpl. by rewrite <- IH.
Qed.

Lemma trimStart_head (s : jsstring) (c : N) :
  head (trimStart s) = Some c → isWhiteSpace c = false.
Proof.
  induction s as [|a s IH]; [done|]. simpl.
  destruct (isWhiteSpace a) eqn:Ha; [done|]. by intros [= <-].
Qed.

Lemma trimEnd_prefix (s : jsstring) : ∃ post, s = trimEnd s ++ post.
Proof.
  unfold trimEnd. destruct (trimStart_suffix (rev s)) as [pre Hpre].
  exists (rev pre). rewrite <- rev_app_distr, <- Hpre. by rewrite rev_involutive.
Qed.

Lemma last_rev {A} (l : list A) : last (rev l) = head l.
Proof. destruct l as [|a l]; [done|]. simpl. by rewrite last_snoc. Qed.

Lemma trimEnd_last (s : jsstring) (c : N) :
  last (trimEnd s) = Some c → isWhiteSpace c = false.
Proof. unfold trimEnd. rewrite last_rev. apply trimStart_head. Qed.

Lemma trim_trimmed (s : jsstring) : trimmed (trim s).
Proof.
  unfold trim. split; [|apply trimEnd_last].
  intros c Hc. destruct (trimEnd_prefix (trimStart s)) as [post Hpost].
  apply (trimStart_head s). rewrite Hpost.
  destruct (trimEnd (trimStart s)); [done|]. exact Hc.
Qed.

Lemma trim_length (s : jsstring) : jslength (trim s) ≤ jslength s.
Proof.
  unfold trim, jslength.
  destruct (trimEnd_prefix (trimStart s)) as [post Hpost].
  destruct (trimStart_suffix s) as [pre Hpre].
  rewrite Hpre at 2. rewrite Hpost at 2. rewrite !length_app. lia.
Qed.

(** X4: whatever [createMessage] stores is not empty, neither starts nor
    ends with white space, has at most 4000 code units, and was sent by
    "user" or "ai". *)
Theorem stored_content_is_trimmed_and_bounded
    (room uid : string) (data : MessageService.CreateMessageData)
    (w w' : World) (message : Message) :
  MessageService.createMessage room uid data w = (Ret message, w') →
  content message ≠ []
  ∧ trimmed (content message)
  ∧ jslength (content message) ≤ 4000
  ∧ (sender message = "user" ∨ sender message = "ai").
Proof.
  intros H. assert (H' := H).
  apply createMessage_persists in H as (_ & -> & Hs & _ & Hne & Hlen).
  split; [done|]. split; [apply trim_trimmed|]. split.
  - pose proof (trim_length (MessageService.dataContent data)). lia.
  - rewrite Hs. unfold MessageService.createMessage in H'.
    apply tryCatch_inv_ret in H'; [|apply (log_rethrow _ _ id)].
    destruct (_ || _); [done|]. case_bool_decide; [done|].
    destruct (bool_decide (_ ∈ _)) eqn:Hin; [|done].
    apply bool_decide_eq_true in Hin. rewrite !elem_of_cons in Hin.
    destruct Hin as [?|[?|?%elem_of_nil]]; [by left|by right|done].
Qed.

Lemma stored_content_is_trimmed_and_bounded_witness :
  let w := Sample.world Sample.envUp Sample.fresh in
  ∃ message w',
    MessageService.createMessage "r1" "u1" (Sample.userData (u16 "  hello ")) w
      = (Ret message, w')
    ∧ content message = u16 "hello"
    ∧ trimmed (content message)
    ∧ jslength (content message) ≤ 4000.
Proof.
  eexists _, _. split; [vm_compute; reflexivity|].
  split; [reflexivity|].
  refine (let H := stored_content_is_trimmed_and_bounded "r1" "u1"
                     (Sample.userData (u16 "  hello "))
                     (Sample.world Sample.envUp Sample.fresh) _ _ _ in
          conj (proj1 (proj2 H)) (proj1 (proj2 (proj2 H)))).
  vm_compute. reflexivity.
Defined.

(** X5: when the lookup of the chatroom succeeds, valid content for a
    chatroom that does not exist, or that another user owns, is refused
    with the NotFoundError "Chatroom not found"; the store, the queue and
    the cache are as before. *)
Theorem createMessage_requires_own_chatroom
    (room uid : string) (data : MessageService.CreateMessageData) (w : World) :
  dbFaults (env w) (dbOps w) = false →
  trim (MessageService.dataContent data) ≠ [] →
  jslength (MessageService.dataContent data) ≤ 4000 →
  MessageService.dataSender data ∈ ["user"; "ai"] →
  (∀ c, chatrooms (db w) !! room = Some c → chatroomUserId c ≠ uid) →
  ∃ w',
    MessageService.createMessage room uid data w =
      (Throw (MessageService.notFoundError "Chatroom not found"), w')
    ∧ db w' = db w ∧ queue w' = queue w ∧ cacheCleared w' = cacheCleared w.
Proof.
  intros Hup Hblank Hlen Hsender Hother.
  unfold MessageService.createMessage.
  rewrite (bool_decide_eq_false_2 (MessageService.dataContent data = [])).
  2: { intros Hnil. apply Hblank. by rewrite Hnil. }
  rewrite (bool_decide_eq_false_2 (jslength _ = 0)).
  2: { unfold jslength. destruct (trim _); [done|]. simpl. lia. }
  rewrite (bool_decide_eq_false_2 (4000 < _)) by lia.
  rewrite (bool_decide_eq_true_2 (_ ∈ _)) by done.
  cbn [orb negb]. unfold_store. eff. rewrite Hup.
  destruct (chatrooms (db w) !! room) as [c|] eqn:Hc.
  - rewrite bool_decide_eq_false_2 by (by apply Hother).
    eff. by eexists.
  - eff. by eexists.
Qed.

Lemma createMessage_requires_own_chatroom_witness :
  let w := Sample.world Sample.envUp Sample.fresh in
  (MessageService.createMessage "r1" "u2" (Sample.userData (u16 "hello")) w).1
    = Throw (MessageService.notFoundError "Chatroom not found")
  ∧ db (MessageService.createMessage "r1" "u2" (Sample.userData (u16 "hello")) w).2
    = db w.
Proof.
  intros w.
  destruct (createMessage_requires_own_chatroom "r1" "u2"
              (Sample.userData (u16 "hello")) w) as (w' & Hrun & Hdb & _).
  - reflexivity.
  - vm_compute. discriminate.
  - vm_compute. discriminate.
  - vm_compute. left.
  - intros c Hc. vm_compute in Hc. injection Hc as <-. vm_compute. discriminate.
  - rewrite Hrun. by split.
Defined.

(** ** Deleting, clearing, paging and the daily reset *)

Lemma dbOp_inv {A} (f : Db → Outcome A * Db) w o w' :
  Prisma.dbOp f w = (o, w') →
  env w' = env w ∧ now w' = now w ∧ queue w' = queue w
  ∧ dbOps w' = S (dbOps w)
  ∧ ((dbFaults (env w) (dbOps w) = true ∧ o = Throw Prisma.unavailable
      ∧ db w' = db w)
     ∨ (dbFaults (env w) (dbOps w) = false ∧ f (db w) = (o, db w'))).
Proof.
  unfold Prisma.dbOp. destruct (dbFaults (env w) (dbOps w)).
  - intros [= <- <-]. repeat split. by left.
  - destruct (f (db w)) as [o' d] eqn:Hf. intros [= <- <-].
    repeat split. by right.
Qed.

Lemma deleteMessage_cases mid uid w o w' :
  MessageQueries.deleteMessage mid uid w = (o, w') →
  sameLedger (db w) (db w') ∧ queue w' = queue w
  ∧ ((messages (db w') = messages (db w) ∧ o ≠ Ret ())
     ∨ (∃ m0, head (filter (fun m => messageId m = mid
                                     ∧ PrismaMore.ownerOf (db w) m = Some uid)
                       (messages (db w))) = Some m0
              ∧ sender m0 = "user"
              ∧ messages (db w') =
                  filter (fun m => messageId m ≠ mid) (messages (db w)))).
Proof.
  unfold MessageQueries.deleteMessage, PrismaMore.message_findFirstOwned,
    PrismaMore.message_delete.
  unfold_store. intros H. crunch.
  all: split; [by split|]; split; [done|].
  all: first [ by left | right; eexists; by repeat split ].
Qed.

(** X15: when [deleteMessage] returns, a message with that id existed,
    was sent by "user" and belongs to a chatroom of the caller; exactly the
    rows with that id are gone; and the caller's usage for the day is not
    given back. *)
Theorem deleteMessage_removes_an_own_user_message
    (mid uid : string) (w w' : World) :
  MessageQueries.deleteMessage mid uid w = (Ret (), w') →
  (∃ m, m ∈ messages (db w) ∧ messageId m = mid ∧ sender m = "user"
        ∧ PrismaMore.ownerOf (db w) m = Some uid)
  ∧ messages (db w') = filter (fun m => messageId m ≠ mid) (messages (db w))
  ∧ usageToday uid w' = usageToday uid w
  ∧ userCount uid w' = userCount uid w.
Proof.
  intros H. assert (H' := H).
  apply deleteMessage_cases in H as ([Hd Hu] & _ & [[_ ?]|(m0 & Hm0 & Hs & Hms)]);
    [done|].
  apply head_Some_elem_of, list_elem_of_filter in Hm0 as [[? ?] ?].
  split; [by exists m0|]. split; [done|].
  unfold MessageQueries.deleteMessage in H'.
  apply tryCatch_inv_ret in H'; [|apply (log_rethrow _ _ id)].
  inv_bind H' as mo w0 E0. apply dbOp_inv in E0 as (He0 & Hn0 & _).
  destruct mo as [m|]; [|done]. case_bool_decide; [done|].
  inv_bind H' as u1 w1 E1. apply dbOp_inv in E1 as (He1 & Hn1 & _).
  inv_bind H' as x2 w2 E2. apply getWorld_inv in E2 as [-> ->].
  inv_bind H' as u3 w3 E3. apply dbOp_inv in E3 as (He3 & Hn3 & _).
  assert (env w' = env w3 ∧ now w' = now w3) as [He Hn].
  { unfold CacheService.invalidateMessageCache, CacheService.clearPattern in H'.
    eff. by simplify_eq. }
  unfold usageToday, userCount.
  by rewrite He, He3, He1, He0, Hn, Hn3, Hn1, Hn0, Hd, Hu.
Qed.

Lemma deleteMessage_removes_an_own_user_message_witness :
  let w := Sample.world Sample.envUp Sample.busyRoom in
  ∃ w',
    MessageQueries.deleteMessage "c1" "u1" w = (Ret (), w')
    ∧ messages (db w') = Sample.msg <$> seq 2 11
    ∧ usageToday "u1" w' = usageToday "u1" w.
Proof.
  eexists. split; [vm_compute; reflexivity|].
  split; [reflexivity|].
  destruct (deleteMessage_removes_an_own_user_message "c1" "u1"
              (Sample.world Sample.envUp Sample.busyRoom) _
              ltac:(vm_compute; reflexivity))
    as (_ & _ & Husage & _).
  exact Husage.
Defined.

Lemma NoDup_fmap_eq {A B} (f : A → B) (l : list A) (x y : A) :
  NoDup (f <$> l) → x ∈ l → y ∈ l → f x = f y → x = y.
Proof.
  induction l as [|a l IH]; [by intros _ ?%elem_of_nil|].
  rewrite fmap_cons, NoDup_cons, !elem_of_cons.
  intros [Ha Hl] [-> | Hx] [-> | Hy] Hf; try done.
  - destruct Ha. rewrite Hf. by apply list_elem_of_fmap_2.
  - destruct Ha. rewrite <- Hf. by apply list_elem_of_fmap_2.
  - by apply IH.
Qed.

(** X16: when message ids are unique, no message that was not sent by
    "user" is ever removed by [deleteMessage], whatever the arguments and
    whatever the outcome. *)
Theorem deleteMessage_never_removes_ai_messages
    (mid uid : string) (w : World) (m : Message) :
  NoDup (messageId <$> messages (db w)) →
  m ∈ messages (db w) → sender m ≠ "user" →
  m ∈ messages (db (MessageQueries.deleteMessage mid uid w).2).
Proof.
  intros Hnd Hm Hs.
  destruct (MessageQueries.deleteMessage mid uid w) as [o w'] eqn:H. simpl.
  apply deleteMessage_cases in H as (_ & _ & [[-> _]|(m0 & Hm0 & Hs0 & ->)]);
    [done|].
  apply list_elem_of_filter. split; [|done]. intros Hid.
  apply head_Some_elem_of, list_elem_of_filter in Hm0 as [[Hid0 _] Hin0].
  assert (m = m0) as ->; [|done].
  apply (NoDup_fmap_eq messageId (messages (db w))); try done.
  congruence.
Qed.

Lemma deleteMessage_never_removes_ai_messages_witness :
  let w := Sample.world Sample.envUp Sample.busyRoom in
  sender (Sample.msg 2) ≠ "user"
  ∧ Sample.msg 2 ∈ messages (db (MessageQueries.deleteMessage "c2" "u1" w).2).
Proof.
  split; [vm_compute; discriminate|].
  apply (deleteMessage_never_removes_ai_messages "c2" "u1"
           (Sample.world Sample.envUp Sample.busyRoom) (Sample.msg 2)).
  - apply (bool_decide_unpack _). vm_compute. exact I.
  - apply (list_elem_of_fmap_2 Sample.msg), elem_of_seq. lia.
  - vm_compute. discriminate.
Defined.

Lemma clearChatroomMessages_cases room uid w o w' :
  MessageQueries.clearChatroomMessages room uid w = (o, w') →
  sameLedger (db w) (db w') ∧ queue w' = queue w
  ∧ env w' = env w ∧ now w' = now w
  ∧ ((messages (db w') = messages (db w) ∧ o ≠ Ret ())
     ∨ ((∃ c, chatrooms (db w) !! room = Some c ∧ chatroomUserId c = uid)
        ∧ messages (db w') =
            filter (fun m => messageChatroomId m ≠ room) (messages (db w)))).
Proof.
  unfold MessageQueries.clearChatroomMessages, PrismaMore.message_deleteMany.
  unfold_store. intros H. crunch.
  all: split; [by split|]; do 3 (split; [done|]).
  all: first [ by left | right; split; [by eexists|done] ].
Qed.

Lemma filter_filter_none {A} (P : A → Prop) `{∀ x, Decision (P x)} (l : list A) :
  filter P (filter (fun x => ¬ P x) l) = [].
Proof.
  induction l as [|a l IH]; [done|].
  rewrite (filter_cons (fun x => ¬ P x)). destruct (decide (¬ P a)); [|done].
  rewrite filter_cons. by destruct (decide (P a)).
Qed.

(** X17: when [clearChatroomMessages] returns, the caller owns the
    chatroom, exactly the messages of that chatroom are gone, the caller's
    usage for the day is unchanged, and the worker's next conversation
    window for the chatroom is empty. *)
Theorem clearChatroomMessages_empties_the_chatroom
    (room uid : string) (w w' : World) :
  MessageQueries.clearChatroomMessages room uid w = (Ret (), w') →
  (∃ c, chatrooms (db w) !! room = Some c ∧ chatroomUserId c = uid)
  ∧ messages (db w') =
      filter (fun m => messageChatroomId m ≠ room) (messages (db w))
  ∧ usageToday uid w' = usageToday uid w
  ∧ (GeminiWorker.getConversationHistory (Some room) w').1 = Ret [].
Proof.
  intros H.
  apply clearChatroomMessages_cases in H
    as ([Hd Hu] & _ & He & Hn & [[_ ?]|(Hc & Hms)]); [done|].
  split; [done|]. split; [done|]. split.
  - unfold usageToday. by rewrite He, Hn, Hd.
  - unfold GeminiWorker.getConversationHistory. destruct (falsy _); [done|].
    unfold_store. eff. destruct (dbFaults _ _); [done|]. simpl.
    rewrite Hms.
    rewrite (filter_filter_none (fun m => messageChatroomId m = room)).
    done.
Qed.

Lemma clearChatroomMessages_empties_the_chatroom_witness :
  let w := Sample.world Sample.envUp Sample.busyRoom in
  ∃ w',
    MessageQueries.clearChatroomMessages "r1" "u1" w = (Ret (), w')
    ∧ messages (db w') = []
    ∧ (GeminiWorker.getConversationHistory (Some "r1") w').1 = Ret [].
Proof.
  eexists. split; [vm_compute; reflexivity|].
  split; [reflexivity|].
  destruct (clearChatroomMessages_empties_the_chatroom "r1" "u1"
              (Sample.world Sample.envUp Sample.busyRoom) _
              ltac:(vm_compute; reflexivity))
    as (_ & _ & _ & Hwindow).
  exact Hwindow.
Defined.

(** X18: whatever its outcome, [clearChatroomMessages] removes no
    message of another chatroom, and removes nothing at all when the caller
    does not own the chatroom. *)
Theorem clearChatroomMessages_spares_other_chatrooms
    (room uid : string) (w : World) (m : Message) :
  m ∈ messages (db w) →
  (messageChatroomId m ≠ room
   ∨ ∀ c, chatrooms (db w) !! room = Some c → chatroomUserId c ≠ uid) →
  m ∈ messages (db (MessageQueries.clearChatroomMessages room uid w).2).
Proof.
  intros Hm Hor.
  destruct (MessageQueries.clearChatroomMessages room uid w) as [o w'] eqn:H.
  simpl.
  apply clearChatroomMessages_cases in H
    as (_ & _ & _ & _ & [[-> _]|((c & Hc & Hown) & ->)]); [done|].
  destruct Hor as [Hroom|Hother]; [|by destruct (Hother c Hc)].
  by apply list_elem_of_filter.
Qed.

Lemma clearChatroomMessages_spares_other_chatrooms_witness :
  let w := Sample.world Sample.envUp Sample.busyRoom in
  Sample.msg 1 ∈ messages (db w)
  ∧ Sample.msg 1 ∈ messages (db (MessageQueries.clearChatroomMessages "r1" "u2" w).2).
Proof.
  assert (Sample.msg 1 ∈
          messages (db (Sample.world Sample.envUp Sample.busyRoom))) as Hin
    by (apply (list_elem_of_fmap_2 Sample.msg), elem_of_seq; lia).
  split; [exact Hin|].
  apply (clearChatroomMessages_spares_other_chatrooms "r1" "u2"
           (Sample.world Sample.envUp Sample.busyRoom) (Sample.msg 1) Hin).
  right. intros c Hc. vm_compute in Hc. injection Hc as <-.
  vm_compute. discriminate.
Defined.

(** X19: when [resetDailyUsage] returns, every user's
    [dailyMessageCount] is 0 and no user was added or removed, but the usage
    rows are untouched: on the same day, the next tracked message sets the
    user's count back to the day's count before the reset, plus one. *)
Theorem resetDailyUsage_is_undone_by_the_next_message
    (uid : string) (w w1 w2 : World) :
  SubscriptionAdmin.resetDailyUsage w = (Ret (), w1) →
  (∀ id u, users (db w1) !! id = Some u → dailyMessageCount u = 0)
  ∧ dom (users (db w1)) = dom (users (db w))
  ∧ usageToday uid w1 = usageToday uid w
  ∧ (SubscriptionService.trackMessageUsage uid w1 = (Ret (), w2) →
     userCount uid w2 = Some (usageToday uid w + 1)).
Proof.
  intros H. unfold SubscriptionAdmin.resetDailyUsage in H.
  apply tryCatch_inv_ret in H; [|apply (log_rethrow _ _ id)].
  inv_bind H as u0 w0 E0.
  apply dbOp_inv in E0 as (He & Hn & _ & _ & [(_ & ? & _)|[_ E0]]); [done|].
  destruct u0. injection E0 as E0. eff. injection H as <-. eff.
  assert (usageToday uid w0 = usageToday uid w) as Hsame.
  { unfold usageToday. rewrite He, Hn, <- E0. done. }
  rewrite <- E0. simpl. split; [|split; [|split]].
  - intros id u. rewrite lookup_fmap, fmap_Some. by intros (u' & _ & ->).
  - by rewrite dom_fmap_L.
  - done.
  - intros Ht. apply trackMessageUsage_ret in Ht as (Hc & -> & _).
    unfold usageToday in *. eff. by rewrite Hc, Hsame.
Qed.

Lemma resetDailyUsage_is_undone_by_the_next_message_witness :
  let w := Sample.world Sample.envUp Sample.atLimit in
  let w1 := (SubscriptionAdmin.resetDailyUsage w).2 in
  let w2 := (SubscriptionService.trackMessageUsage "u1" w1).2 in
  SubscriptionAdmin.resetDailyUsage w = (Ret (), w1)
  ∧ SubscriptionService.trackMessageUsage "u1" w1 = (Ret (), w2)
  ∧ userCount "u1" w = Some 5
  ∧ userCount "u1" w1 = Some 0
  ∧ userCount "u1" w2 = Some 6.
Proof.
  intros w w1 w2.
  assert (SubscriptionAdmin.resetDailyUsage w = (Ret (), w1)) as Hreset
    by (vm_compute; reflexivity).
  assert (SubscriptionService.trackMessageUsage "u1" w1 = (Ret (), w2)) as Htrack
    by (vm_compute; reflexivity).
  destruct (resetDailyUsage_is_undone_by_the_next_message "u1" w w1 w2 Hreset)
    as (_ & _ & _ & Hnext).
  split; [exact Hreset|]. split; [exact Htrack|].
  split; [vm_compute; reflexivity|]. split; [vm_compute; reflexivity|].
  rewrite (Hnext Htrack). vm_compute. reflexivity.
Defined.

Lemma ceilDiv_bounds (total limit : Z) :
  0 < limit →
  (MessageQueries.ceilDiv total limit - 1) * limit < total
  ∧ total ≤ MessageQueries.ceilDiv total limit * limit.
Proof.
  intros Hl. unfold MessageQueries.ceilDiv.
  pose proof (Z.div_mod (- total) limit ltac:(lia)) as Hdm.
  pose proof (Z.mod_pos_bound (- total) limit Hl) as Hm.
  nia.
Qed.

(** X14: [getChatroomMessages] returns, for the owner of the chatroom,
    the requested page of the chatroom's messages in ascending order of
    creation, with the page number raised to 1 and the limit clamped to
    1..100 (50 when below 1).  A page never holds more than 100 messages;
    [totalPages] is the least number of pages that holds [total] messages;
    a page beyond it is empty.  The store is unchanged. *)
Theorem getChatroomMessages_pages
    (room uid : string) (page limit : Z) (w w' : World) (r : MessagePage) :
  MessageQueries.getChatroomMessages room uid page limit w = (Ret r, w') →
  let p := Z.max 1 page in
  let l := if bool_decide (limit < 1) then 50 else Z.min 100 limit in
  let all := Prisma.orderByCreatedAt Prisma.Asc
               (filter (fun m => messageChatroomId m = room) (messages (db w))) in
  (∃ c, chatrooms (db w) !! room = Some c ∧ chatroomUserId c = uid)
  ∧ pageMessages r = pageOf (Z.to_nat p) (Z.to_nat l) all
  ∧ pageNumber r = p
  ∧ pageTotal r = Z.of_nat (List.length all)
  ∧ (List.length (pageMessages r) ≤ 100)%nat
  ∧ (pageTotalPages r - 1) * l < pageTotal r ≤ pageTotalPages r * l
  ∧ (pageTotalPages r < p → pageMessages r = [])
  ∧ db w' = db w.
Proof.
  intros H p l all. unfold MessageQueries.getChatroomMessages in H.
  apply tryCatch_inv_ret in H; [|apply (log_rethrow _ _ id)].
  cbv zeta in H.
  assert (1 ≤ p) as Hp1 by (subst p; lia).
  assert (1 ≤ l ≤ 100) as Hl1 by (subst l; destruct (bool_decide_reflect (limit < 1)); lia).
  assert ((if bool_decide (page < 1) then 1 else page) = p) as Hp.
  { subst p. destruct (bool_decide_reflect (page < 1)); lia. }
  assert ((if bool_decide (100 < (if bool_decide (limit < 1) then 50 else limit))
           then 100 else if bool_decide (limit < 1) then 50 else limit) = l) as Hl.
  { subst l. destruct (bool_decide_reflect (limit < 1)).
    - by rewrite bool_decide_eq_false_2 by lia.
    - destruct (bool_decide_reflect (100 < limit)); lia. }
  rewrite Hp, Hl in H.
  clearbody p l. clear Hp Hl.
  inv_bind H as c w0 E0.
  apply dbOp_inv in E0 as (_ & _ & _ & _ & [(_ & ? & _)|[_ E0]]); [done|].
  injection E0 as E0 Hd0. destruct c as [c|]; [|done].
  inv_bind H as total w1 E1.
  apply dbOp_inv in E1 as (_ & _ & _ & _ & [(_ & ? & _)|[_ E1]]); [done|].
  injection E1 as E1 Hd1.
  inv_bind H as ms w2 E2.
  apply dbOp_inv in E2 as (_ & _ & _ & _ & [(_ & ? & _)|[_ E2]]); [done|].
  injection E2 as E2 Hd2.
  eff. injection H as <- <-. eff.
  cbn [pageMessages pageTotal pageNumber pageTotalPages].
  assert (List.length all =
          List.length (filter (fun m => messageChatroomId m = room)
                         (messages (db w)))) as Hlen.
  { subst all. simpl. by rewrite merge_sort_Permutation. }
  assert (Z.to_nat ((p - 1) * l) = ((Z.to_nat p - 1) * Z.to_nat l)%nat) as Hskip.
  { rewrite Z2Nat.inj_mul, Z2Nat.inj_sub by lia. done. }
  rewrite <- Hd1, <- Hd0 in E2. rewrite <- Hd0 in E1.
  rewrite Hskip in E2. rewrite <- Hlen in E1.
  pose proof (ceilDiv_bounds total l ltac:(lia)) as Hceil.
  split; [|split; [|split; [|split; [|split; [|split; [|split]]]]]].
  - exists c. destruct (chatrooms (db w) !! room) as [c'|]; [|done].
    case_bool_decide; [|done]. by simplify_eq.
  - by rewrite <- E2.
  - done.
  - done.
  - rewrite <- E2, length_take. lia.
  - done.
  - intros Hbeyond. rewrite <- E2, drop_ge; [by rewrite take_nil|].
    fold (Prisma.orderByCreatedAt Prisma.Asc
            (filter (fun m => messageChatroomId m = room) (messages (db w)))).
    fold all. rewrite <- Hskip.
    assert (total ≤ (p - 1) * l) by nia. lia.
  - congruence.
Qed.

Lemma getChatroomMessages_pages_witness :
  let w := Sample.world Sample.envUp Sample.busyRoom in
  ∃ r w',
    MessageQueries.getChatroomMessages "r1" "u1" 2 5 w = (Ret r, w')
    ∧ pageMessages r = Sample.msg <$> seq 6 5
    ∧ pageTotal r = 12 ∧ pageTotalPages r = 3
    ∧ (List.length (pageMessages r) ≤ 100)%nat
    ∧ db w' = db w.
Proof.
  eexists _, _. split; [vm_compute; reflexivity|].
  split; [reflexivity|]. split; [reflexivity|]. split; [reflexivity|].
  destruct (getChatroomMessages_pages "r1" "u1" 2 5
              (Sample.world Sample.envUp Sample.busyRoom) _ _
              ltac:(vm_compute; reflexivity))
    as (_ & _ & _ & _ & Hlen & _ & _ & Hdb).
  split; [exact Hlen|exact Hdb].
Defined.

(** ** Substrings, the generation service and the controllers *)

Lemma startsWith_spec (p s : jsstring) :
  startsWith p s = true ↔ ∃ post, s = p ++ post.
Proof.
  revert s. induction p as [|a p IH]; intros s; simpl.
  - split; [by exists s|done].
  - destruct s as [|b s].
    + split; [done|]. by intros [post ?].
    + rewrite andb_true_iff, N.eqb_eq, IH. split.
      * intros [-> [post ->]]. by exists post.
      * intros [post [= -> ->]]. split; [done|by exists post].
Qed.

Lemma includes_spec (s p : jsstring) : includes s p = true ↔ occursIn p s.
Proof.
  unfold occursIn. induction s as [|c s IH]; simpl.
  - rewrite orb_false_r, startsWith_spec. split.
    + intros [post ->]. by exists [], post.
    + intros (pre & post & H). symmetry in H.
      apply app_eq_nil in H as [-> H]. apply app_eq_nil in H as [-> ->].
      by exists [].
  - rewrite orb_true_iff, startsWith_spec, IH. split.
    + intros [[post ->]|(pre & post & ->)].
      * by exists [], post.
      * by exists (c :: pre), post.
    + intros (pre & post & H). destruct pre as [|c' pre].
      * left. by exists post.
      * right. injection H as -> ->. by exists pre, post.
Qed.

Lemma formatHistoryForGemini_id (history : list GeminiMessage) :
  GeminiService.formatHistoryForGemini history = history.
Proof.
  unfold GeminiService.formatHistoryForGemini.
  induction history as [|[r p] h IH]; [done|]. rewrite fmap_cons. by f_equal.
Qed.

(** X9: a call of [generateResponse] never touches the store and sends at
    most one request.  With an empty history it sends exactly one: the
    request has an empty history; a temperature or token limit that is
    absent or 0 is replaced by 0.7 or 2048; the prompt ends with the user's
    message, and is the bare message when the system prompt is absent or
    empty; the call returns the service's text, and a rejection by the
    service is rethrown as a plain Error whose message embeds the
    service's.  With any other history nothing is sent: the SDK refuses to
    start the chat, and the call throws a plain Error whose message embeds
    the SDK's. *)
Theorem generateResponse_sends_at_most_one_request
    (userMessage : jsstring) (context : GeminiContext) (w : World) :
  db (GeminiService.generateResponse userMessage context w).2 = db w
  ∧ match conversationHistory context with
    | [] =>
        ∃ rq,
          genCalls (GeminiService.generateResponse userMessage context w).2
            = genCalls w ++ [rq]
          ∧ reqHistory rq = []
          ∧ reqTemperature rq =
              match temperature context with
              | Some t => if bool_decide (t = 0) then 70 else t
              | None => 70
              end
          ∧ reqMaxOutputTokens rq =
              match maxTokens context with
              | Some n => if bool_decide (n = 0) then 2048 else n
              | None => 2048
              end
          ∧ (∃ pre, reqPrompt rq = pre ++ userMessage
                    ∧ (systemPrompt context = None
                       ∨ systemPrompt context = Some [] → pre = []))
          ∧ (GeminiService.generateResponse userMessage context w).1 =
              match gemini (env w) rq with
              | GenText text => Ret (responseOf text)
              | GenRejects _ message =>
                  Throw (mkError ("Failed to generate Gemini response: "
                                  +:+ message))
              end
    | history =>
        genCalls (GeminiService.generateResponse userMessage context w).2
          = genCalls w
        ∧ (GeminiService.generateResponse userMessage context w).1 =
            Throw (mkError ("Failed to generate Gemini response: "
                            +:+ errMessage (historyRejection (env w) history)))
    end.
Proof.
  unfold GeminiService.generateResponse, GeminiService.startChat,
    GeminiService.chat_sendMessage.
  rewrite formatHistoryForGemini_id.
  destruct (conversationHistory context) as [|g h]; eff;
    cbn [GeminiService.chatHistory GeminiService.chatTemperature
         GeminiService.chatMaxOutputTokens]; [|done].
  split; [by destruct (gemini _ _)|].
  eexists. split; [|split; [|split; [|split; [|split]]]].
  - destruct (gemini _ _); reflexivity.
  - done.
  - done.
  - done.
  - simpl. destruct (systemPrompt context) as [sp|].
    + case_bool_decide as Hsp.
      * exists []. by split.
      * exists (sp ++ u16 (GeminiService.nl +:+ GeminiService.nl +:+ "User: ")).
        split; [by rewrite <- app_assoc|]. by intros [?|[= ?]].
    + exists []. by split.
  - by destruct (gemini _ _).
Qed.

Lemma probePrompt_nonempty : GeminiHealth.probePrompt ≠ [].
Proof. intros H. vm_compute in H. discriminate H. Qed.

(** X10: the health check never throws.  It sends one request with an
    empty history and a limit of 50 tokens, and reports true exactly when
    the service answers with a text that contains "working correctly". *)
Theorem healthCheck_reports_the_probe (w : World) :
  ∃ healthy w' rq,
    GeminiHealth.healthCheck w = (Ret healthy, w')
    ∧ genCalls w' = genCalls w ++ [rq]
    ∧ reqHistory rq = [] ∧ reqMaxOutputTokens rq = 50 ∧ reqTemperature rq = 70
    ∧ occursIn (u16 "Hello") (reqPrompt rq)
    ∧ db w' = db w
    ∧ (healthy = true ↔
       ∃ text, gemini (env w) rq = GenText text
               ∧ occursIn (u16 "working correctly") text).
Proof.
  unfold GeminiHealth.healthCheck, GeminiService.generateResponse,
    GeminiService.startChat, GeminiService.chat_sendMessage.
  cbn [systemPrompt conversationHistory temperature maxTokens GeminiService.numOr
       GeminiService.formatHistoryForGemini fmap list_fmap].
  rewrite (bool_decide_eq_false_2 (GeminiHealth.probePrompt = []) probePrompt_nonempty).
  eff.
  cbn [GeminiService.chatHistory GeminiService.chatTemperature
       GeminiService.chatMaxOutputTokens].
  match goal with |- context [gemini (env w) ?r] => set (rq := r) end.
  destruct (gemini (env w) rq) as [text|cause message] eqn:Hg.
  - exists (includes text (u16 "working correctly")). eexists. exists rq.
    split; [reflexivity|]. eff. do 4 (split; [done|]).
    split; [|split; [done|]].
    + exists (GeminiHealth.probePrompt
              ++ u16 (GeminiService.nl +:+ GeminiService.nl +:+ "User: ")), [].
      subst rq. cbn [reqPrompt]. by rewrite app_nil_r.
    + rewrite includes_spec. split.
      * intros ?. by exists text.
      * intros (text' & Hg' & ?). rewrite Hg in Hg'. by injection Hg' as <-.
  - exists false. eexists. exists rq.
    split; [reflexivity|]. eff. do 4 (split; [done|]).
    split; [|split; [done|]].
    + exists (GeminiHealth.probePrompt
              ++ u16 (GeminiService.nl +:+ GeminiService.nl +:+ "User: ")), [].
      subst rq. cbn [reqPrompt]. by rewrite app_nil_r.
    + split; [done|]. intros (text' & Hg' & _). by rewrite Hg in Hg'.
Qed.

(** X8: [enqueueTestMessage] never throws and never reads or writes the
    store: no ownership check, no daily limit, no stored message.  It
    answers 200 exactly when the caller is authenticated, [chatRoomId] and
    [userMessage] are truthy and the queue accepts the job; then exactly one
    job was appended, carrying the body's text unchanged and the message id
    "test-<now>".  Otherwise the queue is as before. *)
Theorem enqueueTestMessage_skips_the_write_path (req : TestRequest) (w : World) :
  ∃ r w',
    QueueController.enqueueTestMessage req w = (Ret r, w')
    ∧ db w' = db w ∧ dbOps w' = dbOps w ∧ genCalls w' = genCalls w
    ∧ (tresCode r = 200 ↔
       is_Some (treqUser req)
       ∧ falsy (tbodyChatRoomId req) = false
       ∧ tbodyUserMessage req ≠ []
       ∧ is_Some (queue w) ∧ queueUp (env w) = true)
    ∧ (tresCode r = 200 →
       ∃ q job, queue w = Some q ∧ queue w' = Some (q ++ [job])
                ∧ tresJobId r = Some (queuedId job)
                ∧ jobUserMessage (queuedData job) = tbodyUserMessage req
                ∧ Some (jobChatRoomId (queuedData job)) = tbodyChatRoomId req
                ∧ Some (jobUserId (queuedData job)) = treqUser req
                ∧ jobMessageId (queuedData job) = "test-" +:+ pretty (now w))
    ∧ (tresCode r ≠ 200 → queue w' = queue w).
Proof.
  unfold QueueController.enqueueTestMessage, QueueService.enqueueGeminiMessage,
    QueueService.queue_add.
  destruct (treqUser req) as [uid|] eqn:Hu.
  2: { eff. eexists _, _. split; [reflexivity|]. simpl.
       do 3 (split; [done|]). split; [|done].
       split; [done|]. by intros ([? ?] & _). }
  destruct (falsy (tbodyChatRoomId req)) eqn:Hroom.
  { eff. eexists _, _. split; [reflexivity|]. simpl.
    do 3 (split; [done|]). split; [|done].
    split; [done|]. by intros (_ & ? & _). }
  case_bool_decide as Hmsg.
  { eff. eexists _, _. split; [reflexivity|]. simpl.
    do 3 (split; [done|]). split; [|done].
    split; [done|]. by intros (_ & _ & ? & _). }
  cbn [orb]. eff.
  destruct (queue w) as [q|] eqn:Hq.
  2: { eff. eexists _, _. split; [reflexivity|]. simpl.
       do 3 (split; [done|]). split; [|done].
       split; [done|]. by intros (_ & _ & _ & [? ?] & _). }
  eff. rewrite Hq. destruct (queueUp (env w)) eqn:Hup.
  - eff. eexists _, _. split; [reflexivity|]. simpl.
    do 3 (split; [done|]). split; [|split; [|done]].
    + split; [|done]. intros _. by repeat split.
    + intros _. eexists _, _. split; [done|]. split; [done|]. simpl.
      split; [done|]. split; [done|]. split; [|done].
      unfold falsy in Hroom. by destruct (tbodyChatRoomId req).
  - eff. eexists _, _. split; [reflexivity|]. simpl.
    do 3 (split; [done|]). split; [|done].
    split; [done|]. by intros (_ & _ & _ & _ & ?).
Qed.

(** X11: [processGeminiResponse] always returns and changes nothing.
    The character count is the length of the text, the word count lies
    between 1 and that length plus 1, [hasLinks] holds exactly when the text
    contains "http", and [hasList] exactly when it contains "- " or "* "
    anywhere. *)
Theorem processGeminiResponse_never_throws
    (response : GeminiResponse) (context : option JobContext) (w : World) :
  ∃ p,
    GeminiWorker.processGeminiResponse response context w = (Ret p, w)
    ∧ prContent p = respContent response
    ∧ prCharacterCount p = jslength (respContent response)
    ∧ 1 ≤ prWordCount p ≤ prCharacterCount p + 1
    ∧ (hasLinks p = true ↔ occursIn (u16 "http") (respContent response))
    ∧ (hasList p = true ↔
       occursIn (u16 "- ") (respContent response)
       ∨ occursIn (u16 "* ") (respContent response)).
Proof.
  unfold GeminiWorker.processGeminiResponse. eff.
  eexists. split; [reflexivity|]. simpl.
  split; [done|]. split; [done|]. split; [|split].
  - unfold GeminiWorker.wordCount, jslength.
    pose proof (length_filter (fun c => c = 32%N) (respContent response)). lia.
  - apply includes_spec.
  - rewrite orb_true_iff, !includes_spec. done.
Qed.

(** X7: [sendAIMessage] reads [this.logger], so what it does depends on
    how it is invoked.  Invoked on its class it never throws: it answers
    401 or 400 on its checks, then 201 with the message when
    [createMessage] returns and 500 when it throws; on 201 the store gained
    exactly the returned "ai" message, whose content is the trimmed body.  Invoked as the bare
    function the router is given, it still answers 401 and 400, but past
    those checks it never answers: it throws the TypeError of reading
    [logger] of undefined, from its catch block, and when [createMessage]
    had returned the "ai" message stays stored all the same.  Either way it
    never enqueues a job and never writes to the usage rows or the user
    rows. *)
Theorem sendAIMessage_answers_only_on_its_class
    (this : Receiver) (req : Request) (w : World) :
  ∃ out w',
    MessageControllerAI.sendAIMessage this req w = (out, w')
    ∧ keeps sameLedger eq w w'
    ∧ match out with
      | Ret r =>
          resGeminiJob r = None
          ∧ (resCode r = 201 ∨ resCode r = 400 ∨ resCode r = 401
             ∨ resCode r = 500)
          ∧ (this = Unbound → resCode r = 400 ∨ resCode r = 401)
          ∧ (resCode r = 201 →
             ∃ m, resData r = Some m ∧ sender m = "ai"
                  ∧ content m = trim (bodyContent req)
                  ∧ messages (db w') = messages (db w) ++ [m])
          ∧ (reqUser req = None ∨ falsy (paramChatroomId req) = true →
             resCode r ≠ 201 ∧ db w' = db w)
      | Throw e =>
          this = Unbound ∧ e = MessageControllerAI.thisUndefined
          ∧ is_Some (reqUser req) ∧ falsy (paramChatroomId req) = false
      end
    ∧ (this = OnClass →
       ∀ uid, reqUser req = Some uid → falsy (paramChatroomId req) = false →
       match MessageService.createMessage
               (default EmptyString (paramChatroomId req)) uid
               {| MessageService.dataContent := bodyContent req;
                  MessageService.dataSender := "ai";
                  MessageService.dataMessageType :=
                    Some (orDefault (bodyMessageType req) "text") |} w with
       | (Ret m, _) =>
           out = Ret {| resCode := 201; resStatus := "success";
                        resMessage := "AI message sent successfully";
                        resData := Some m;
                        resGeminiJob := None; resWarning := None |}
       | (Throw _, _) =>
           out = Ret (MessageController.errorResponse 500
                        "Failed to send AI message")
       end)
    ∧ (this = Unbound → is_Some (reqUser req) →
       falsy (paramChatroomId req) = false →
       out = Throw MessageControllerAI.thisUndefined
       ∧ ∀ uid m w1,
           reqUser req = Some uid →
           MessageService.createMessage
             (default EmptyString (paramChatroomId req)) uid
             {| MessageService.dataContent := bodyContent req;
                MessageService.dataSender := "ai";
                MessageService.dataMessageType :=
                  Some (orDefault (bodyMessageType req) "text") |} w
             = (Ret m, w1) →
           messages (db w') = messages (db w) ++ [m]).
Proof.
  unfold MessageControllerAI.sendAIMessage.
  destruct (reqUser req) as [uid|].
  2: { eff. eexists _, _. split; [reflexivity|]. simpl.
       split; [reflexivity|]. split; [|split; [by intros _ uid'|]].
       - split; [done|]. split; [by auto|]. split; [by auto|]. done.
       - by intros _ [? ?]. }
  destruct (falsy (paramChatroomId req)).
  { eff. eexists _, _. split; [reflexivity|]. simpl.
    split; [reflexivity|]. split; [|split; [by intros _ uid' _ ?|done]].
    split; [done|]. split; [by auto|]. split; [by auto|]. done. }
  unfold tryCatch.
  match goal with
  | |- context [MessageService.createMessage ?room ?u ?d] =>
      destruct (MessageService.createMessage room u d w) as [[m|e] w1] eqn:Hc;
      pose proof (frame_run _ _ _ _ _
        (createMessage_ai_frame room u d eq_refl) Hc) as Hk
  end.
  - erewrite bind_ret by exact Hc.
    pose proof (createMessage_persists _ _ _ _ _ _ Hc) as (Hms & Hcontent & Hs & _).
    destruct this; unfold MessageControllerAI.thisLogger; eff.
    + eexists _, _. split; [reflexivity|]. simpl.
      split; [by unfold keeps in *; eff|].
      split; [|split; [by intros _ uid' [= <-] _; rewrite Hc|done]].
      split; [done|]. split; [by auto|]. split; [done|].
      split; [|by intros [?|?]]. intros _. by exists m.
    + eexists _, _. split; [reflexivity|]. simpl.
      split; [done|]. split; [by repeat split|]. split; [done|].
      intros _ _ _. split; [done|].
      intros uid' m' w1' [= <-] Hc'. rewrite Hc in Hc'. by injection Hc' as <- <-.
  - erewrite bind_throw by exact Hc.
    destruct this; unfold MessageControllerAI.thisLogger; eff.
    + eexists _, _. split; [reflexivity|]. simpl.
      split; [by unfold keeps in *; eff|].
      split; [|split; [by intros _ uid' [= <-] _; rewrite Hc|done]].
      split; [done|]. split; [by auto|]. split; [done|].
      split; [done|]. by intros [?|?].
    + eexists _, _. split; [reflexivity|]. simpl.
      split; [done|]. split; [by repeat split|]. split; [done|].
      intros _ _ _. split; [done|].
      intros uid' m' w1' [= <-] Hc'. by rewrite Hc in Hc'.
Qed.

(** X6: when [sendMessage] answers with a job id, exactly one job was
    appended to the queue; it carries the id of the message just stored, the
    message's chatroom and the sender's id, has priority HIGH and three
    attempts, and the stored content is the trimmed form of the text the job
    carries. *)
Theorem sendMessage_job_names_the_stored_message
    (req : Request) (w w' : World) (r : Response) (jid : string) :
  MessageController.sendMessage req w = (Ret r, w') →
  resGeminiJob r = Some jid →
  ∃ q job m,
    queue w = Some q ∧ queue w' = Some (q ++ [job]) ∧ queuedId job = jid
    ∧ resCode r = 201 ∧ resData r = Some m
    ∧ messages (db w') = messages (db w) ++ [m]
    ∧ sender m = "user"
    ∧ jobMessageId (queuedData job) = messageId m
    ∧ jobChatRoomId (queuedData job) = messageChatroomId m
    ∧ Some (jobUserId (queuedData job)) = reqUser req
    ∧ content m = trim (jobUserMessage (queuedData job))
    ∧ optPriority (queuedOpts job) = QueueConfig.HIGH
    ∧ optAttempts (queuedOpts job) = 3%nat.
Proof.
  intros H Hjob. unfold MessageController.sendMessage in H.
  destruct (reqUser req) as [uid|]; [|by injection H as <- _].
  destruct (falsy (paramChatroomId req)); [by injection H as <- _|].
  inv_bind H as m w0 Hc.
  pose proof (frame_run _ _ _ _ _ (createMessage_frame _ _ _) Hc)
    as (He & _ & Hq0 & _).
  apply createMessage_persists in Hc as (Hms & Hcontent & Hs & Hroom & _).
  destruct (bodyProcessWithGemini req).
  2: { eff. injection H as <- _. done. }
  unfold QueueService.enqueueGeminiMessage, QueueService.queue_add in H.
  eff. destruct (queue w0) as [q|] eqn:Hq; eff.
  2: { injection H as <- _. done. }
  rewrite Hq in H. destruct (queueUp (env w0)); eff.
  2: { injection H as <- _. done. }
  injection H as <- <-. eff. simpl in *. injection Hjob as <-.
  eexists q, _, m. rewrite <- Hq0. split; [done|]. split; [done|]. simpl.
  by repeat split.
Qed.

Lemma sendMessage_job_names_the_stored_message_witness :
  let w := Sample.world Sample.envUp Sample.fresh in
  ∃ r w',
    MessageController.sendMessage Sample.hello w = (Ret r, w')
    ∧ resGeminiJob r = Some "1"
    ∧ ∃ q job m,
        queue w = Some q ∧ queue w' = Some (q ++ [job]) ∧ queuedId job = "1"
        ∧ resCode r = 201 ∧ resData r = Some m
        ∧ messages (db w') = messages (db w) ++ [m]
        ∧ sender m = "user"
        ∧ jobMessageId (queuedData job) = messageId m
        ∧ jobChatRoomId (queuedData job) = messageChatroomId m
        ∧ Some (jobUserId (queuedData job)) = reqUser Sample.hello
        ∧ content m = trim (jobUserMessage (queuedData job))
        ∧ optPriority (queuedOpts job) = QueueConfig.HIGH
        ∧ optAttempts (queuedOpts job) = 3%nat.
Proof.
  eexists _, _. split; [vm_compute; reflexivity|].
  split; [reflexivity|].
  refine (sendMessage_job_names_the_stored_message Sample.hello
            (Sample.world Sample.envUp Sample.fresh) _ _ "1" _ _);
    [vm_compute; reflexivity|reflexivity].
Defined.

(** ** Ordered reads *)

#[global] Instance createdAsc_trans : Transitive Prisma.createdAsc.
Proof. unfold Prisma.createdAsc. intros a b c. lia. Qed.
#[global] Instance createdAsc_total : Total Prisma.createdAsc.
Proof. unfold Prisma.createdAsc. intros a b. lia. Qed.
#[global] Instance createdDesc_trans : Transitive Prisma.createdDesc.
Proof. unfold Prisma.createdDesc. intros a b c. lia. Qed.
#[global] Instance createdDesc_total : Total Prisma.createdDesc.
Proof. unfold Prisma.createdDesc. intros a b. lia. Qed.

Lemma StronglySorted_rev_desc (l : list Message) :
  StronglySorted Prisma.createdDesc l → StronglySorted Prisma.createdAsc (rev l).
Proof.
  induction 1 as [|a l Hl IH Ha]; [constructor|]. simpl.
  apply StronglySorted_app_2; [|done|by repeat constructor].
  intros x1 x2 Hx1 ->%list_elem_of_singleton.
  rewrite <- Permutation_rev in Hx1. rewrite Forall_forall in Ha.
  by apply Ha.
Qed.

(** X12: when the read succeeds, the worker's conversation window for a
    chatroom id that is not empty is made of the chatroom's ten oldest
    messages in ascending order of creation:
    every message left out was created no earlier than every message in the
    window. *)
Theorem history_window_is_the_oldest_ten (room : string) (w : World) :
  room ≠ EmptyString → dbFaults (env w) (dbOps w) = false →
  ∃ window newer,
    (GeminiWorker.getConversationHistory (Some room) w).1 =
      Ret (GeminiWorker.toGeminiMessage <$> window)
    ∧ window ++ newer ≡ₚ
        filter (fun m => messageChatroomId m = room) (messages (db w))
    ∧ (List.length window ≤ 10)%nat
    ∧ (newer ≠ [] → List.length window = 10%nat)
    ∧ StronglySorted Prisma.createdAsc window
    ∧ (∀ a b, a ∈ window → b ∈ newer → createdAt a ≤ createdAt b).
Proof.
  intros Hroom Hup.
  set (l := filter (fun m => messageChatroomId m = room) (messages (db w))).
  exists (take 10 (merge_sort Prisma.createdAsc l)),
         (drop 10 (merge_sort Prisma.createdAsc l)).
  pose proof (StronglySorted_merge_sort Prisma.createdAsc l) as Hsorted.
  rewrite <- (take_drop 10 (merge_sort Prisma.createdAsc l)) in Hsorted.
  split; [by apply getConversationHistory_reads_oldest|].
  split; [by rewrite take_drop, merge_sort_Permutation|].
  split; [rewrite length_take; lia|]. split.
  - intros Hnewer. rewrite length_take. 
    destruct (decide (10 ≤ List.length (merge_sort Prisma.createdAsc l))%nat);
      [lia|].
    destruct Hnewer. apply drop_ge. lia.
  - apply StronglySorted_app in Hsorted as (Hcross & Hw & _). split; [done|].
    intros a b Ha Hb. by apply Hcross.
Qed.

Lemma history_window_is_the_oldest_ten_witness :
  let w := Sample.world Sample.envUp Sample.busyRoom in
  dbFaults (env w) (dbOps w) = false
  ∧ ∃ window newer,
      (GeminiWorker.getConversationHistory (Some "r1") w).1 =
        Ret (GeminiWorker.toGeminiMessage <$> window)
      ∧ window ++ newer ≡ₚ
          filter (fun m => messageChatroomId m = "r1") (messages (db w))
      ∧ (List.length window ≤ 10)%nat
      ∧ (newer ≠ [] → List.length window = 10%nat)
      ∧ StronglySorted Prisma.createdAsc window
      ∧ (∀ a b, a ∈ window → b ∈ newer → createdAt a ≤ createdAt b).
Proof.
  split; [reflexivity|].
  apply (history_window_is_the_oldest_ten "r1"
           (Sample.world Sample.envUp Sample.busyRoom)); [discriminate|reflexivity].
Defined.

(** X13: [getMessageHistory] returns, for the owner of the chatroom, its
    most recent messages in ascending order of creation: at most 50, as many
    as the clamped limit when any message is left out, and every message
    left out was created no later than every message returned.  The store
    is unchanged. *)
Theorem getMessageHistory_is_the_newest
    (room uid : string) (limit : Z) (w w' : World) (h : list Message) :
  MessageService.getMessageHistory room uid limit w = (Ret h, w') →
  ∃ older,
    older ++ h ≡ₚ filter (fun m => messageChatroomId m = room) (messages (db w))
    ∧ (List.length h ≤ 50)%nat
    ∧ (older ≠ [] →
       List.length h =
         Z.to_nat (if bool_decide (limit < 1) then 10 else Z.min 50 limit))
    ∧ StronglySorted Prisma.createdAsc h
    ∧ (∀ a b, a ∈ older → b ∈ h → createdAt a ≤ createdAt b)
    ∧ (∃ c, chatrooms (db w) !! room = Some c ∧ chatroomUserId c = uid)
    ∧ db w' = db w.
Proof.
  intros H. unfold MessageService.getMessageHistory in H.
  apply tryCatch_inv_ret in H; [|apply (log_rethrow _ _ id)].
  inv_bind H as c w0 E0.
  apply dbOp_inv in E0 as (_ & _ & _ & _ & [(_ & ? & _)|[_ E0]]); [done|].
  injection E0 as E0 Hd0. destruct c as [c|]; [|done].
  cbv zeta in H.
  set (n := Z.to_nat (if bool_decide (limit < 1) then 10 else Z.min 50 limit)).
  assert ((n ≤ 50)%nat) as Hn
    by (subst n; destruct (bool_decide_reflect (limit < 1)); lia).
  assert (Z.to_nat
            (if bool_decide (50 < (if bool_decide (limit < 1) then 10 else limit))
             then 50 else if bool_decide (limit < 1) then 10 else limit) = n) as Hl.
  { subst n. destruct (bool_decide_reflect (limit < 1)).
    - by rewrite bool_decide_eq_false_2 by lia.
    - destruct (bool_decide_reflect (50 < limit)); f_equal; lia. }
  rewrite Hl in H. clearbody n. clear Hl.
  inv_bind H as ms w1 E1.
  apply dbOp_inv in E1 as (_ & _ & _ & _ & [(_ & ? & _)|[_ E1]]); [done|].
  injection E1 as E1 Hd1. eff. injection H as <- <-. eff.
  rewrite <- Hd0 in E1. simpl in E1.
  set (l := filter (fun m => messageChatroomId m = room) (messages (db w))) in *.
  pose proof (StronglySorted_merge_sort Prisma.createdDesc l) as Hsorted.
  apply StronglySorted_rev_desc in Hsorted.
  rewrite <- (take_drop n (merge_sort Prisma.createdDesc l)) in Hsorted.
  rewrite rev_app_distr, E1 in Hsorted.
  exists (rev (drop n (merge_sort Prisma.createdDesc l))).
  apply StronglySorted_app in Hsorted as (Hcross & _ & Hh).
  split.
  { rewrite <- E1, <- rev_app_distr, take_drop, <- Permutation_rev.
    apply merge_sort_Permutation. }
  split; [rewrite <- E1, length_rev, length_take; lia|]. split.
  { intros Holder. rewrite <- E1, length_rev, length_take.
    destruct (decide (n ≤ List.length (merge_sort Prisma.createdDesc l))%nat);
      [lia|].
    destruct Holder. rewrite drop_ge; [done|lia]. }
  split; [done|]. split; [by intros a b Ha Hb; apply Hcross|]. split.
  - exists c. destruct (chatrooms (db w) !! room) as [c'|]; [|done].
    case_bool_decide; [|done]. by simplify_eq.
  - congruence.
Qed.

Lemma getMessageHistory_is_the_newest_witness :
  let w := Sample.world Sample.envUp Sample.busyRoom in
  ∃ h w',
    MessageService.getMessageHistory "r1" "u1" 10 w = (Ret h, w')
    ∧ h = Sample.msg <$> seq 3 10
    ∧ StronglySorted Prisma.createdAsc h
    ∧ db w' = db w.
Proof.
  eexists _, _. split; [vm_compute; reflexivity|].
  split; [reflexivity|].
  destruct (getMessageHistory_is_the_newest "r1" "u1" 10
              (Sample.world Sample.envUp Sample.busyRoom) _ _
              ltac:(vm_compute; reflexivity))
    as (older & _ & _ & _ & Hsorted & _ & _ & Hdb).
  split; [exact Hsorted|exact Hdb].
Defined.

(** ** Delivery, whatever the service and the progress updates do *)

Lemma runAttempts_spec opts data k : ∀ made w,
  ∃ d w',
    runAttempts opts k made data w = (d, w')
    ∧ (S made ≤ attemptsMade d ≤ S made + k)%nat
    ∧ (List.length (genCalls w') ≤
         List.length (genCalls w) + (attemptsMade d - made))%nat
    ∧ (List.length (messages (db w')) ≤
         List.length (messages (db w)) + (attemptsMade d - made))%nat
    ∧ env w' = env w ∧ queue w' = queue w
    ∧ (progressUp w →
       match finalState d with
       | Failed e =>
           e = mkError "Failed to call Gemini API"
           ∧ db w' = db w ∧ attemptsMade d = (S made + k)%nat
       | Completed r =>
           messages (db w') = messages (db w)
           ∨ ∃ m, messages (db w') = messages (db w) ++ [m]
                  ∧ messageChatroomId m = jobChatRoomId data
                  ∧ sender m = "ai"
                  ∧ content m = prContent (resultGeminiResponse r)
       end).
Proof.
  induction k as [|k IH]; intros made w;
    destruct (attempt_spec data w)
      as (out & w1 & Hrun & He & Hq & _ & Hg & Hm & _);
    pose proof (fun Hup => attempt_outcome data w out w1 Hup Hrun) as Hout;
    assert ((List.length (genCalls w1) ≤ List.length (genCalls w) + 1)%nat)
      as Hgl
      by (destruct Hg as [-> | ->]; rewrite ?length_app; simpl; lia);
    assert ((List.length (messages (db w1)) ≤
               List.length (messages (db w)) + 1)%nat) as Hml
      by (destruct Hm as [-> |(m & -> & _)]; rewrite ?length_app; simpl; lia);
    simpl; rewrite Hrun; destruct out as [r|e].
  - eexists _, _. split; [reflexivity|]. simpl.
    split; [lia|]. split; [lia|]. split; [lia|]. do 2 (split; [done|]).
    intros Hup. destruct (Hout Hup) as [[? _]|(r' & [= <-] & ?)]; done.
  - eexists _, _. split; [reflexivity|]. simpl.
    split; [lia|]. split; [lia|]. split; [lia|]. do 2 (split; [done|]).
    intros Hup. destruct (Hout Hup) as [[[= ->] ?]|(r' & ? & _)]; [|done].
    repeat split; first [done|lia].
  - eexists _, _. split; [reflexivity|]. simpl.
    split; [lia|]. split; [lia|]. split; [lia|]. do 2 (split; [done|]).
    intros Hup. destruct (Hout Hup) as [[? _]|(r' & [= <-] & ?)]; done.
  - destruct (IH (S made) (set_now (now w1 + backoff opts (S made)) w1))
      as (d & w' & -> & Hmade & Hgl' & Hml' & He' & Hq' & Hfinal).
    cbn [env db genCalls queue set_now] in *.
    exists d, w'. split; [done|].
    split; [lia|]. split; [lia|]. split; [lia|].
    split; [congruence|]. split; [congruence|].
    intros Hup. destruct (Hout Hup) as [[_ Hdb]|(r' & ? & _)]; [|done].
    assert (progressUp (set_now (now w1 + backoff opts (S made)) w1)) as Hup'.
    { intros n. cbn [env set_now]. rewrite He. apply Hup. }
    specialize (Hfinal Hup'). rewrite Hdb in Hfinal.
    destruct (finalState d); [done|].
    destruct Hfinal as (? & ? & ?). repeat split; first [done|lia].
Qed.

(** X21: whatever the service and the progress updates do, a delivered job
    is attempted at least once and at most [attempts] times, the queue is
    untouched, and each attempt sends at most one request and stores at
    most one message.  When no progress update rejects, a job can only fail
    with the error "Failed to call Gemini API", after all its attempts and
    with the store unchanged, and a completed job has stored at most one
    message, an "ai" message of the job's chatroom carrying the generated
    text. *)
Theorem deliver_bounds_requests_and_replies (job : QueuedJob) (w : World) :
  ∃ d w',
    deliver job w = (d, w')
    ∧ (1 ≤ attemptsMade d ≤ Nat.max 1 (optAttempts (queuedOpts job)))%nat
    ∧ (List.length (genCalls w') ≤ List.length (genCalls w) + attemptsMade d)%nat
    ∧ (List.length (messages (db w')) ≤
         List.length (messages (db w)) + attemptsMade d)%nat
    ∧ queue w' = queue w
    ∧ (progressUp w →
       match finalState d with
       | Failed e =>
           e = mkError "Failed to call Gemini API"
           ∧ db w' = db w
           ∧ attemptsMade d = Nat.max 1 (optAttempts (queuedOpts job))
       | Completed r =>
           messages (db w') = messages (db w)
           ∨ ∃ m, messages (db w') = messages (db w) ++ [m]
                  ∧ messageChatroomId m = jobChatRoomId (queuedData job)
                  ∧ sender m = "ai"
                  ∧ content m = prContent (resultGeminiResponse r)
       end).
Proof.
  unfold deliver.
  destruct (runAttempts_spec (queuedOpts job) (queuedData job)
              (Nat.pred (optAttempts (queuedOpts job))) 0 w)
    as (d & w' & Hrun & Hmade & Hgl & Hml & _ & Hq & Hfinal).
  exists d, w'. split; [done|]. split; [lia|]. split; [lia|]. split; [lia|].
  split; [done|]. intros Hup. specialize (Hfinal Hup).
  destruct (finalState d); [done|].
  destruct Hfinal as (? & ? & ?). repeat split; first [done|lia].
Qed.

(** Why the updates matter: when the last progress update of the first
    attempt rejects, the reply is already stored; the queue retries the
    job, and a job whose context names no chatroom generates and stores a
    second reply. *)
Lemma rejected_progress_update_duplicates_the_reply :
  let w := Sample.world Sample.envLastUpdateFails Sample.fresh in
  let d := deliver (Sample.queued Sample.sentJob) w in
  attemptsMade d.1 = 2%nat
  ∧ (∃ r, finalState d.1 = Completed r)
  ∧ List.length (genCalls d.2) = 2%nat
  ∧ List.length (aiMessages "r1" d.2) = 2%nat.
Proof.
  vm_compute. split; [done|]. split; [by eexists|]. done.
Qed.
